(** * EPL data pipeline: fetcher, parsers, validators, exporter, orchestrator

    A shallow embedding of [catching_data.py] and [exporting_data.py].

    Conventions of the embedding.
    - Python objects that travel through the pipeline (deserialised JSON,
      DataFrame cells) are terms of [value].  Numbers are Python integers,
      unbounded, hence [Z]; JSON reals are not modelled.  A Python [str] is
      kept as its UTF-8 encoding, and its characters are read off that
      encoding ([chars]).
    - A DataFrame is one built by [pd.DataFrame] from Python values, so the
      storage of a column is the one pandas infers from its cells: 64-bit
      integers when every cell is an integer of 64 bits, booleans when every
      cell is a boolean, Python objects otherwise ([infer_dtype]).
      Arithmetic on 64-bit columns wraps around; on object columns it is
      Python's, cell by cell, and a missing value ([None]) stays missing.
      A missing value compares false under [<], [<=] and [==], and text
      cannot be ordered against a number.  The unsigned and the floating
      storage pandas chooses for integers from 2^63 up and for integers next
      to missing values are not modelled: such columns are read as object
      columns.
    - A label may occur more than once among the columns of a DataFrame;
      [df[c]] is then the frame of the columns under it, not a column
      ([selection]).
    - A Python computation that may raise is a term of [exc]; only subclasses
      of [Exception] are modelled, so [except Exception] catches every
      modelled exception.
    - Code that talks to the network, the clock, the database or that mutates
      DataFrame objects is written in the state-and-exception monad [M] over a
      [World]; what the outside answers is given by an [Env]. *)

From Stdlib Require Import ZArith String List Bool Lia.
From stdpp Require Import base option list strings gmap.

Set Warnings "-register-all".

Local Open Scope string_scope.
Local Open Scope list_scope.

(** ** Python values *)

Inductive value : Type :=
| VNone
| VBool (b : bool)
| VInt (z : Z)
| VStr (s : string)
| VTime (t : Z)                          (* naive timestamp, ns since epoch *)
| VList (l : list value)
| VDict (kv : list (string * value)).

(** ** Exceptions *)

Inductive exn : Type :=
| KeyError
| IndexError
| TypeError
| AttributeError
| ValueError (msg : string)
| Timeout                                (* requests.exceptions.Timeout *)
| ConnectionError                        (* a RequestException, not a Timeout *)
| HTTPError                              (* raised by raise_for_status *)
| JSONDecodeError                        (* requests' own, a RequestException *)
| OtherError (msg : string).             (* any other Exception subclass *)

(** [except requests.exceptions.Timeout] *)
Definition is_Timeout (e : exn) : bool :=
  match e with Timeout => true | _ => false end.

(** [except requests.exceptions.RequestException] *)
Definition is_RequestException (e : exn) : bool :=
  match e with
  | Timeout | ConnectionError | HTTPError | JSONDecodeError => true
  | _ => false
  end.

(** [except KeyError] *)
Definition is_KeyError (e : exn) : bool :=
  match e with KeyError => true | _ => false end.

(** [except (KeyError, IndexError)] *)
Definition is_KeyError_or_IndexError (e : exn) : bool :=
  match e with KeyError | IndexError => true | _ => false end.

Inductive exc (A : Type) : Type :=
| Ok (a : A)
| Raise (e : exn).
Arguments Ok {A} a.
Arguments Raise {A} e.

Definition bindE {A B} (c : exc A) (k : A -> exc B) : exc B :=
  match c with
  | Ok a => k a
  | Raise e => Raise e
  end.

Notation "'let*' x ':=' c 'in' k" := (bindE c (fun x => k))
  (at level 10, x name, c at level 100, k at level 200, only parsing).

Fixpoint mapE {A B} (f : A -> exc B) (l : list A) : exc (list B) :=
  match l with
  | [] => Ok []
  | a :: l' => let* b := f a in let* bs := mapE f l' in Ok (b :: bs)
  end.

Fixpoint map2E {A B C} (f : A -> B -> exc C) (l1 : list A) (l2 : list B)
  : exc (list C) :=
  match l1, l2 with
  | a :: l1', b :: l2' => let* c := f a b in let* cs := map2E f l1' l2' in Ok (c :: cs)
  | _, _ => Ok []
  end.

(** ** Scalar operations of Python on [value] *)

(** [bool] is a subclass of [int]. *)
Definition as_int (v : value) : option Z :=
  match v with
  | VInt z => Some z
  | VBool b => Some (Z.b2z b)
  | _ => None
  end.

(** [bool(v)] *)
Definition truthy (v : value) : bool :=
  match v with
  | VNone => false
  | VBool b => b
  | VInt z => negb (z =? 0)%Z
  | VStr s => negb (String.eqb s "")
  | VTime _ => true
  | VList l => match l with [] => false | _ => true end
  | VDict kv => match kv with [] => false | _ => true end
  end.

(** The characters of a [str], read off its UTF-8 encoding: a byte and the
    continuation bytes (10xxxxxx) that follow it. *)
Definition is_continuation (a : Ascii.ascii) : bool :=
  let n := Ascii.nat_of_ascii a in (128 <=? n)%nat && (n <? 192)%nat.

Fixpoint chars (s : string) : list string :=
  match s with
  | EmptyString => []
  | String a s' =>
      match s' with
      | EmptyString => [String a EmptyString]
      | String b _ =>
          if is_continuation b then
            match chars s' with
            | g :: gs => String a g :: gs
            | [] => [String a EmptyString]
            end
          else String a EmptyString :: chars s'
      end
  end.

(** [len(s)] and [s[:n]] *)
Definition str_len (s : string) : nat := length (chars s).

Definition str_prefix (n : nat) (s : string) : string :=
  String.concat "" (take n (chars s)).

(** A [str] of ASCII characters only: one byte per character. *)
Definition is_ascii (s : string) : bool :=
  forallb (fun a => (Ascii.nat_of_ascii a <? 128)%nat) (list_ascii_of_string s).

(** [d.get(k)] on the pairs of a dict. *)
Fixpoint assoc (k : string) (kv : list (string * value)) : option value :=
  match kv with
  | [] => None
  | (k', v) :: kv' => if String.eqb k k' then Some v else assoc k kv'
  end.

(** [a == b] *)
Fixpoint py_eq (a b : value) {struct a} : bool :=
  match a, b with
  | VNone, VNone => true
  | (VInt _ | VBool _), (VInt _ | VBool _) =>
      match as_int a, as_int b with
      | Some x, Some y => (x =? y)%Z
      | _, _ => false
      end
  | VStr s, VStr t => String.eqb s t
  | VTime s, VTime t => (s =? t)%Z
  | VList l, VList m =>
      (fix eq_list (l : list value) (m : list value) {struct l} : bool :=
         match l, m with
         | [], [] => true
         | x :: l', y :: m' => py_eq x y && eq_list l' m'
         | _, _ => false
         end) l m
  | VDict d, VDict e =>
      (length d =? length e)%nat &&
      (fix sub (d : list (string * value)) {struct d} : bool :=
         match d with
         | [] => true
         | (k, v) :: d' =>
             match assoc k e with
             | Some w => py_eq v w && sub d'
             | None => false
             end
         end) d
  | _, _ => false
  end.

(** Lists and dicts are unhashable: [hash()] raises on them. *)
Definition hashable (v : value) : bool :=
  match v with
  | VList _ | VDict _ => false
  | _ => true
  end.

(** ** Series and DataFrame

    A DataFrame is kept row-wise: the column labels and one list of cells per
    index entry.  A cell that a row does not have reads as the missing value. *)

Definition Series := list value.

Record DataFrame : Type := mkDF {
  columns : list string;
  rows : list (list value)
}.

Fixpoint col_index (c : string) (cols : list string) : option nat :=
  match cols with
  | [] => None
  | c' :: cols' =>
      if String.eqb c c' then Some 0%nat else S <$> col_index c cols'
  end.

(** [c in df.columns] *)
Definition has_column (c : string) (cols : list string) : bool :=
  match col_index c cols with Some _ => true | None => false end.

(** Every position of a label among the labels. *)
Fixpoint col_indices (c : string) (cols : list string) : list nat :=
  match cols with
  | [] => []
  | c' :: cols' =>
      if String.eqb c c' then 0%nat :: map S (col_indices c cols')
      else map S (col_indices c cols')
  end.

(** The cells at one position. *)
Definition column_at (df : DataFrame) (i : nat) : Series :=
  map (fun r => nth i r VNone) (rows df).

(** What [df[c]] is: the column under the label, or, when the label occurs
    more than once, the frame of the columns under it. *)
Inductive selection : Type :=
| Column (s : Series)
| Columns (cs : list Series).

(** [df[c]] *)
Definition getitem (df : DataFrame) (c : string) : exc selection :=
  match col_indices c (columns df) with
  | [] => Raise KeyError
  | [i] => Ok (Column (column_at df i))
  | i :: j :: more => Ok (Columns (map (column_at df) (i :: j :: more)))
  end.

(** [len(df)] *)
Definition len_df (df : DataFrame) : nat := length (rows df).

(** [.any()] and [.all()] *)
Definition any (l : list bool) : bool := existsb (fun b => b) l.
Definition all (l : list bool) : bool := forallb (fun b => b) l.

(** Element of [series < k] and [series <= k]: a missing value compares
    false, a number compares as a number, anything else cannot be ordered
    against an integer. *)
Definition cell_cmp (cmp : Z -> Z -> bool) (k : Z) (v : value) : exc bool :=
  match v with
  | VNone => Ok false
  | _ => match as_int v with
         | Some z => Ok (cmp z k)
         | None => Raise TypeError
         end
  end.

Definition series_lt (s : Series) (k : Z) : exc (list bool) :=
  mapE (cell_cmp Z.ltb k) s.

Definition series_le (s : Series) (k : Z) : exc (list bool) :=
  mapE (cell_cmp Z.leb k) s.

(** What [if x:] raises when [x] is a Series.  With a frame in place of a
    column, the comparisons and the arithmetic of the validators give frames,
    [.any()] and [.all()] give a Series, and the [if] that tests it raises,
    unless pandas has raised on the way; either way an exception leaves the
    [try] block. *)
Definition ambiguous : exn :=
  ValueError "The truth value of a Series is ambiguous".

(** [if (df[c] < k).any():] and [if (df[c] <= k).any():] *)
Definition lt_any (sel : selection) (k : Z) : exc bool :=
  match sel with
  | Column s => let* flags := series_lt s k in Ok (any flags)
  | Columns cs => let* _ := mapE (fun s => series_lt s k) cs in Raise ambiguous
  end.

Definition le_any (sel : selection) (k : Z) : exc bool :=
  match sel with
  | Column s => let* flags := series_le s k in Ok (any flags)
  | Columns cs => let* _ := mapE (fun s => series_le s k) cs in Raise ambiguous
  end.

(** The storage of a column, inferred from its cells. *)
Inductive dtype : Type :=
| DInt64
| DBool
| DObject.

Definition in_int64 (z : Z) : bool := ((- 2 ^ 63 <=? z) && (z <? 2 ^ 63))%Z.

(** The 64-bit two's complement integer congruent to [z]. *)
Definition wrap64 (z : Z) : Z := ((z + 2 ^ 63) mod 2 ^ 64 - 2 ^ 63)%Z.

Definition int64_cell (v : value) : bool :=
  match v with VInt z => in_int64 z | _ => false end.

Definition bool_cell (v : value) : bool :=
  match v with VBool _ => true | _ => false end.

Definition infer_dtype (s : Series) : dtype :=
  if forallb int64_cell s then DInt64
  else if forallb bool_cell s then DBool
  else DObject.

(** A column with its storage: arithmetic keeps track of it. *)
Record column : Type := mkColumn {
  dt : dtype;
  cells : Series
}.

(** A selection used as an operand of column arithmetic or of [==]. *)
Definition as_column (sel : selection) : exc column :=
  match sel with
  | Column s => Ok (mkColumn (infer_dtype s) s)
  | Columns _ => Raise ambiguous
  end.

Fixpoint repeat_list {A} (n : nat) (l : list A) : list A :=
  match n with
  | O => []
  | S n' => l ++ repeat_list n' l
  end.

Fixpoint repeat_string (n : nat) (s : string) : string :=
  match n with
  | O => ""
  | S n' => s ++ repeat_string n' s
  end.

(** Element of [series * k] for an integer [k], on an object column: Python's
    [*]; where that raises on a missing value pandas redoes the operation on
    the cells that are present and leaves the missing ones missing. *)
Definition cell_mul (k : Z) (v : value) : exc value :=
  match v with
  | VNone => Ok VNone
  | VStr s => Ok (VStr (repeat_string (Z.to_nat k) s))
  | VList l => Ok (VList (repeat_list (Z.to_nat k) l))
  | _ => match as_int v with
         | Some z => Ok (VInt (z * k))
         | None => Raise TypeError
         end
  end.

(** Element of [series + series] on object columns. *)
Definition cell_add (a b : value) : exc value :=
  match a, b with
  | VNone, _ | _, VNone => Ok VNone
  | VStr s, VStr t => Ok (VStr (s ++ t))
  | VList l, VList m => Ok (VList (l ++ m))
  | _, _ => match as_int a, as_int b with
            | Some x, Some y => Ok (VInt (x + y))
            | _, _ => Raise TypeError
            end
  end.

(** Element of [series * k] and of [series + series] in 64-bit storage. *)
Definition mul64 (k : Z) (v : value) : value :=
  match as_int v with
  | Some z => VInt (wrap64 (z * k))
  | None => v
  end.

Definition add64 (a b : value) : value :=
  match as_int a, as_int b with
  | Some x, Some y => VInt (wrap64 (x + y))
  | _, _ => VNone
  end.

(** [series * k] for a small integer [k]: 64-bit and boolean columns give a
    64-bit column, with wrap-around; an object column is multiplied cell by
    cell. *)
Definition column_mul (c : column) (k : Z) : exc column :=
  match dt c with
  | DObject => let* r := mapE (cell_mul k) (cells c) in Ok (mkColumn DObject r)
  | _ => Ok (mkColumn DInt64 (map (mul64 k) (cells c)))
  end.

(** [series + series]: two boolean columns give a boolean column ([+] is
    [or] there), 64-bit and boolean columns a 64-bit column with wrap-around,
    and an object column on either side an object column. *)
Definition column_add (a b : column) : exc column :=
  match dt a, dt b with
  | DObject, _ | _, DObject =>
      let* r := map2E cell_add (cells a) (cells b) in Ok (mkColumn DObject r)
  | DBool, DBool =>
      Ok (mkColumn DBool
            (zip_with (fun x y => VBool (truthy x || truthy y))
                      (cells a) (cells b)))
  | _, _ => Ok (mkColumn DInt64 (zip_with add64 (cells a) (cells b)))
  end.

(** Element of [series == series]: never raises; a missing value is equal
    to nothing. *)
Definition cell_eq (a b : value) : bool :=
  match a, b with
  | VNone, _ | _, VNone => false
  | _, _ => py_eq a b
  end.

Definition series_eq (s t : Series) : list bool :=
  map (fun p => cell_eq (fst p) (snd p)) (combine s t).

Definition column_eq (a b : column) : list bool :=
  series_eq (cells a) (cells b).

(** [series.duplicated()]: an entry is marked when an equal entry occurs
    before it.  Unhashable cells are compared like the others. *)
Fixpoint duplicated_from (seen : list value) (s : Series) : list bool :=
  match s with
  | [] => []
  | v :: s' => existsb (py_eq v) seen :: duplicated_from (v :: seen) s'
  end.

Definition duplicated (s : Series) : list bool := duplicated_from [] s.

(** One list per column, turned into rows. *)
Fixpoint transpose (n : nat) (cols : list (list value)) : list (list value) :=
  match n with
  | O => []
  | S n' => map (fun c => hd VNone c) cols :: transpose n' (map (@tl value) cols)
  end.

(** [frame.duplicated()]: every column is factorised, which hashes its
    cells; a row is marked when an earlier row has equal cells throughout. *)
Definition row_eq (r1 r2 : list value) : bool :=
  forallb (fun p => py_eq (fst p) (snd p)) (combine r1 r2).

Fixpoint duplicated_rows_from (seen : list (list value))
    (rs : list (list value)) : list bool :=
  match rs with
  | [] => []
  | r :: rs' => existsb (row_eq r) seen :: duplicated_rows_from (r :: seen) rs'
  end.

Definition frame_duplicated (cs : list Series) : exc (list bool) :=
  if forallb (forallb hashable) cs
  then Ok (duplicated_rows_from []
             (transpose (match cs with [] => 0%nat | c :: _ => length c end) cs))
  else Raise TypeError.

(** [df[c].duplicated().any()] *)
Definition duplicated_any (sel : selection) : exc bool :=
  match sel with
  | Column s => Ok (any (duplicated s))
  | Columns cs => let* flags := frame_duplicated cs in Ok (any flags)
  end.

(** ** What a validator may be handed *)

Inductive pyobj : Type :=
| ODataFrame (df : DataFrame)
| OValue (v : value).

(** [df.columns] *)
Definition get_columns (x : pyobj) : exc (list string) :=
  match x with
  | ODataFrame df => Ok (columns df)
  | OValue _ => Raise AttributeError
  end.

(** The rest of a validator runs after [df.columns] succeeded, hence on a
    DataFrame. *)
Definition as_frame (x : pyobj) : exc DataFrame :=
  match x with
  | ODataFrame df => Ok df
  | OValue _ => Raise AttributeError
  end.

(** [[col for col in required_cols if col not in df.columns]] *)
Definition missing_cols (required : list string) (cols : list string)
  : list string :=
  List.filter (fun c => negb (has_column c cols)) required.

(** [try: body except Exception: return False] *)
Definition except_return {A} (c : exc A) (a : A) : exc A :=
  match c with
  | Ok r => Ok r
  | Raise _ => Ok a
  end.

(** ** Validators (exporting_data.py) *)

Definition standings_required_cols : list string :=
  ["rank"; "team"; "points"; "played"; "wins"; "draws"; "losses"].

Definition validate_standings_body (x : pyobj) : exc bool :=
  let* cols := get_columns x in
  match missing_cols standings_required_cols cols with
  | _ :: _ => Ok false
  | [] =>
      let* df := as_frame x in
      (* len(df) != 20 only logs a warning *)
      let _expected := Nat.eqb (len_df df) 20 in
      let* team := getitem df "team" in
      let* dup := duplicated_any team in
      if dup then Ok false else
      let* points := getitem df "points" in
      let* neg := lt_any points 0 in
      if neg then Ok false else
      let* wins := getitem df "wins" in
      let* wins := as_column wins in
      let* wins3 := column_mul wins 3 in
      let* draws := getitem df "draws" in
      let* draws := as_column draws in
      let* calculated_points := column_add wins3 draws in
      let* points := getitem df "points" in
      let* points := as_column points in
      if negb (all (column_eq points calculated_points)) then Ok false else
      let* wins := getitem df "wins" in
      let* wins := as_column wins in
      let* draws := getitem df "draws" in
      let* draws := as_column draws in
      let* wd := column_add wins draws in
      let* losses := getitem df "losses" in
      let* losses := as_column losses in
      let* total_games := column_add wd losses in
      let* played := getitem df "played" in
      let* played := as_column played in
      if negb (all (column_eq played total_games)) then Ok false else
      Ok true
  end.

Definition validate_standings (x : pyobj) : exc bool :=
  except_return (validate_standings_body x) false.

Definition scorers_required_cols : list string :=
  ["player"; "team"; "goals"; "appearances"].

Definition validate_top_scorers_body (x : pyobj) : exc bool :=
  let* cols := get_columns x in
  match missing_cols scorers_required_cols cols with
  | _ :: _ => Ok false
  | [] =>
      let* df := as_frame x in
      if Nat.eqb (len_df df) 0 then Ok false else
      let* goals := getitem df "goals" in
      let* neg := lt_any goals 0 in
      if neg then Ok false else
      let* appearances := getitem df "appearances" in
      let* bad := le_any appearances 0 in
      if bad then Ok false else
      let* player := getitem df "player" in
      let* dup := duplicated_any player in
      (* duplicate players only log a warning *)
      let _warn := dup in
      Ok true
  end.

Definition validate_top_scorers (x : pyobj) : exc bool :=
  except_return (validate_top_scorers_body x) false.

Definition assists_required_cols : list string :=
  ["player"; "team"; "assists"; "appearances"].

Definition validate_top_assists_body (x : pyobj) : exc bool :=
  let* cols := get_columns x in
  match missing_cols assists_required_cols cols with
  | _ :: _ => Ok false
  | [] =>
      let* df := as_frame x in
      if Nat.eqb (len_df df) 0 then Ok false else
      let* assists := getitem df "assists" in
      let* neg := lt_any assists 0 in
      if neg then Ok false else
      let* appearances := getitem df "appearances" in
      let* bad := le_any appearances 0 in
      if bad then Ok false else
      let* player := getitem df "player" in
      let* dup := duplicated_any player in
      let _warn := dup in
      Ok true
  end.

Definition validate_top_assists (x : pyobj) : exc bool :=
  except_return (validate_top_assists_body x) false.

(** ** More of Python on [value]: what the fetcher and the parsers use *)

(** [k in data] for a string [k] *)
Definition contains (k : string) (data : value) : exc bool :=
  match data with
  | VDict kv => Ok (match assoc k kv with Some _ => true | None => false end)
  | VList l => Ok (existsb (py_eq (VStr k)) l)
  | VStr s => Ok (match String.index 0 k s with Some _ => true | None => false end)
  | _ => Raise TypeError
  end.

(** [data[k]] for a string [k] *)
Definition subscript (data : value) (k : string) : exc value :=
  match data with
  | VDict kv => match assoc k kv with
                | Some v => Ok v
                | None => Raise KeyError
                end
  | _ => Raise TypeError
  end.

(** [data[0]]; the keys of a deserialised object are strings, so [0] is never
    one of them. *)
Definition subscript0 (data : value) : exc value :=
  match data with
  | VList l => match l with
               | x :: _ => Ok x
               | [] => Raise IndexError
               end
  | VStr s => match chars s with
              | c :: _ => Ok (VStr c)
              | [] => Raise IndexError
              end
  | VDict _ => Raise KeyError
  | _ => Raise TypeError
  end.

(** [d.get(k, default)] *)
Definition dict_get (d : value) (k : string) (default : value) : exc value :=
  match d with
  | VDict kv => Ok (match assoc k kv with Some v => v | None => default end)
  | _ => Raise AttributeError
  end.

(** [len(v)] *)
Definition py_len (v : value) : exc nat :=
  match v with
  | VList l => Ok (length l)
  | VDict kv => Ok (length kv)
  | VStr s => Ok (str_len s)
  | _ => Raise TypeError
  end.

(** [for x in v] *)
Definition py_iter (v : value) : exc (list value) :=
  match v with
  | VList l => Ok l
  | VDict kv => Ok (map (fun p => VStr (fst p)) kv)
  | VStr s => Ok (map VStr (chars s))
  | _ => Raise TypeError
  end.

(** [pd.DataFrame(rows)] for a list of dicts built by one dict literal: the
    labels are the keys of the literal, a key a row lacks reads as missing. *)
Definition record := list (string * value).

Definition frame_of_records (rs : list record) : DataFrame :=
  let cols := match rs with r :: _ => map fst r | [] => [] end in
  mkDF cols
       (map (fun r => map (fun c => match assoc c r with
                                    | Some v => v
                                    | None => VNone
                                    end) cols) rs).

(** [df[c] = s]: replaces every column under the label, or appends a column
    when the label is new. *)
Definition set_column (df : DataFrame) (c : string) (s : Series) : DataFrame :=
  let n := length (columns df) in
  match col_indices c (columns df) with
  | [] =>
      mkDF (columns df ++ [c])
           (zip_with (fun r v => resize n VNone r ++ [v]) (rows df) s)
  | positions =>
      mkDF (columns df)
           (zip_with (fun r v =>
                        fold_right (fun i r' => <[i := v]> r')
                                   (resize n VNone r) positions)
                     (rows df) s)
  end.

(** ** The outside world *)

(** What one [requests.get] does: it raises, or it returns a response with a
    status code and a body that [.json()] deserialises or fails on. *)
Inductive http_result : Type :=
| GetRaises (e : exn)
| GetResponse (status_code : Z) (json : exc value).

Record Env : Type := mkEnv {
  (* the n-th request of the run, sent to this endpoint *)
  http : nat -> string -> http_result;
  (* create_engine and the SELECT 1 probe *)
  connect : exc unit;
  (* the n-th transaction of the run: DROP TABLE and to_sql on this table *)
  transaction : nat -> string -> DataFrame -> exc unit;
  (* the n-th reading of datetime.now(timezone.utc) *)
  now : nat -> value;
  (* pandas' datetime handling of a column *)
  is_datetime64tz_dtype : Series -> exc bool;
  tz_convert_utc_naive : value -> exc value;
  to_datetime : value -> exc value
}.

Record World : Type := mkWorld {
  requests : list string;          (* endpoints requested, oldest first *)
  slept : list Z;                  (* arguments of sleep(), oldest first *)
  clock_reads : nat;
  transactions : nat;
  heap : gmap nat DataFrame;       (* DataFrame objects, by address *)
  sink : gmap string DataFrame     (* tables of the database *)
}.

Definition init_world : World := mkWorld [] [] 0 0 ∅ ∅.

(** The world after one more request, after one more sleep. *)
Definition with_request (endpoint : string) (w : World) : World :=
  mkWorld (requests w ++ [endpoint]) (slept w) (clock_reads w)
          (transactions w) (heap w) (sink w).

Definition with_sleep (s : Z) (w : World) : World :=
  mkWorld (requests w) (slept w ++ [s]) (clock_reads w)
          (transactions w) (heap w) (sink w).

(** ** State and exceptions *)

Definition M (A : Type) : Type := World -> exc A * World.

Definition ret {A} (a : A) : M A := fun w => (Ok a, w).

Definition raise {A} (e : exn) : M A := fun w => (Raise e, w).

Definition bindM {A B} (c : M A) (k : A -> M B) : M B :=
  fun w => match c w with
           | (Ok a, w') => k a w'
           | (Raise e, w') => (Raise e, w')
           end.

Notation "'let!' x ':=' c 'in' k" := (bindM c (fun x => k))
  (at level 10, x name, c at level 100, k at level 200, only parsing).

Definition liftE {A} (c : exc A) : M A := fun w => (c, w).

(** [try: body except Exception as e: handler] *)
Definition try_except {A} (body : M A) (handler : exn -> M A) : M A :=
  fun w => match body w with
           | (Ok a, w') => (Ok a, w')
           | (Raise e, w') => handler e w'
           end.

(** How one pass through the body of a loop ends. *)
Inductive flow (A : Type) : Type :=
| Continue
| Return (a : A).
Arguments Continue {A}.
Arguments Return {A} a.

Section Effects.

Context (E : Env).

(** [requests.get(url, ...)] *)
Definition requests_get (endpoint : string) : M (Z * exc value) :=
  fun w =>
    match http E (length (requests w)) endpoint with
    | GetRaises e => (Raise e, with_request endpoint w)
    | GetResponse status body => (Ok (status, body), with_request endpoint w)
    end.

(** [sleep(s)] *)
Definition sleep (s : Z) : M unit :=
  fun w => (Ok tt, with_sleep s w).

(** [response.raise_for_status()] *)
Definition raise_for_status (status : Z) : M unit :=
  if ((400 <=? status) && (status <? 600))%Z then raise HTTPError else ret tt.

(** [datetime.now(timezone.utc)] *)
Definition datetime_now : M value :=
  fun w => (Ok (now E (clock_reads w)),
            mkWorld (requests w) (slept w) (S (clock_reads w))
                    (transactions w) (heap w) (sink w)).

(** A new DataFrame object. *)
Definition alloc (df : DataFrame) : M nat :=
  fun w =>
    let l := fresh (dom (heap w)) in
    (Ok l, mkWorld (requests w) (slept w) (clock_reads w) (transactions w)
                   (<[l := df]> (heap w)) (sink w)).

(** Reading the object behind a reference. *)
Definition deref (l : nat) : M DataFrame :=
  fun w => match heap w !! l with
           | Some df => (Ok df, w)
           | None => (Raise (OtherError "dangling reference"), w)
           end.

(** [df.copy()] *)
Definition copy (l : nat) : M nat :=
  let! df := deref l in alloc df.

(** [df[c] = s], in place *)
Definition setitem (l : nat) (c : string) (s : Series) : M unit :=
  let! df := deref l in
  fun w => (Ok tt, mkWorld (requests w) (slept w) (clock_reads w)
                           (transactions w)
                           (<[l := set_column df c s]> (heap w)) (sink w)).

(** [with engine.begin() as conn: conn.execute(drop_sql); df.to_sql(...)]:
    on success the table holds the frame, on failure nothing is changed. *)
Definition begin_drop_to_sql (l : nat) (table : string) : M unit :=
  let! df := deref l in
  fun w =>
    match transaction E (transactions w) table df with
    | Ok _ => (Ok tt, mkWorld (requests w) (slept w) (clock_reads w)
                              (S (transactions w)) (heap w)
                              (<[table := df]> (sink w)))
    | Raise e => (Raise e, mkWorld (requests w) (slept w) (clock_reads w)
                                   (S (transactions w)) (heap w) (sink w))
    end.

(** ** Fetcher (catching_data.py) *)

(** The [try] block of [api_get]. *)
Definition api_get_try (endpoint : string) : M (flow value) :=
  let! response := requests_get endpoint in
  if (fst response =? 429)%Z then
    let! _ := sleep 60 in
    ret Continue
  else
    let! _ := raise_for_status (fst response) in
    let! data := liftE (snd response) in
    let! has_response := liftE (contains "response" data) in
    if negb has_response then ret (Return VNone) else
    let! has_errors := liftE (contains "errors" data) in
    let! errors :=
      (if has_errors
       then let! e := liftE (subscript data "errors") in ret (truthy e)
       else ret false) in
    if errors then ret (Return VNone) else
    (* the log line evaluates len(data['response']) *)
    let! r := liftE (subscript data "response") in
    let! _ := liftE (py_len r) in
    let! r := liftE (subscript data "response") in
    ret (Return r).

(** The [except] clauses of [api_get]; [None] stands for falling out of the
    [try] statement into the next iteration. *)
Definition api_get_except (max_retries attempt : Z) (e : exn)
  : M (option value) :=
  if is_Timeout e then
    if (attempt <? max_retries - 1)%Z
    then let! _ := sleep (2 ^ attempt) in ret None
    else ret None
  else if is_RequestException e then
    if (attempt <? max_retries - 1)%Z
    then let! _ := sleep (2 ^ attempt) in ret None
    else ret None
  else ret (Some VNone).

(** [for attempt in attempts: ...] followed by the final [return None]. *)
Fixpoint api_get_loop (endpoint : string) (max_retries : Z)
    (attempts : list Z) : M value :=
  match attempts with
  | [] => ret VNone
  | attempt :: rest =>
      fun w =>
        match api_get_try endpoint w with
        | (Ok Continue, w') => api_get_loop endpoint max_retries rest w'
        | (Ok (Return v), w') => (Ok v, w')
        | (Raise e, w') =>
            match api_get_except max_retries attempt e w' with
            | (Ok None, w'') => api_get_loop endpoint max_retries rest w''
            | (Ok (Some v), w'') => (Ok v, w'')
            | (Raise e', w'') => (Raise e', w'')
            end
        end
  end.

(** [range(n)] *)
Definition range (n : Z) : list Z := map Z.of_nat (seq 0 (Z.to_nat n)).

Definition api_get (endpoint : string) (max_retries : Z) : M value :=
  api_get_loop endpoint max_retries (range max_retries).

(** ** Parsers (catching_data.py) *)

(** The dict literal appended for one team. *)
Definition standings_record (t : value) : exc record :=
  let* rank := subscript t "rank" in
  let* team := subscript t "team" in
  let* name := subscript team "name" in
  let* points := subscript t "points" in
  let* all1 := subscript t "all" in
  let* played := subscript all1 "played" in
  let* all2 := subscript t "all" in
  let* win := subscript all2 "win" in
  let* all3 := subscript t "all" in
  let* draw := subscript all3 "draw" in
  let* all4 := subscript t "all" in
  let* lose := subscript all4 "lose" in
  let* all5 := subscript t "all" in
  let* goals5 := subscript all5 "goals" in
  let* goals_for := subscript goals5 "for" in
  let* all6 := subscript t "all" in
  let* goals6 := subscript all6 "goals" in
  let* goals_against := subscript goals6 "against" in
  let* goals_diff := subscript t "goalsDiff" in
  Ok [("rank", rank); ("team", name); ("points", points);
      ("played", played); ("wins", win); ("draws", draw); ("losses", lose);
      ("goals_for", goals_for); ("goals_against", goals_against);
      ("goal_difference", goals_diff)].

(** A loop that appends one record per entry; [caught] are the exceptions of
    the inner [except] clause, which skips the entry. *)
Fixpoint collect (entry : value -> exc (option record)) (caught : exn -> bool)
    (items : list value) (rows : list record) : exc (list record) :=
  match items with
  | [] => Ok rows
  | x :: items' =>
      match entry x with
      | Ok (Some r) => collect entry caught items' (rows ++ [r])
      | Ok None => collect entry caught items' rows
      | Raise e =>
          if caught e then collect entry caught items' rows else Raise e
      end
  end.

(** [get_standings] after [api_get] returned [data]. *)
Definition standings_of_response (data : value) : exc DataFrame :=
  if negb (truthy data) then Raise (ValueError "Failed to fetch standings data")
  else
    let* d0 := subscript0 data in
    let* league := dict_get d0 "league" (VDict []) in
    let* standings := dict_get league "standings" VNone in
    if negb (truthy standings) then Raise (ValueError "Invalid standings response")
    else
      let* d0 := subscript0 data in
      let* league := subscript d0 "league" in
      let* standings := subscript league "standings" in
      let* table := subscript0 standings in
      if negb (truthy table) then Raise (ValueError "No teams in standings")
      else
        let* items := py_iter table in
        let* rows :=
          collect (fun t => let* r := standings_record t in Ok (Some r))
                  is_KeyError items [] in
        match rows with
        | [] => Raise (ValueError "No valid team data parsed")
        | _ :: _ => Ok (frame_of_records rows)
        end.

(** The outer [except Exception: ...; raise] of the parsers logs and re-raises,
    so it is the identity on outcomes. *)
Definition get_standings : M nat :=
  let! data := api_get "/standings" 3 in
  let! df := liftE (standings_of_response data) in
  alloc df.

(** The body of the loop of [get_top_scorers] ([metric] is ["total"]) and of
    [get_top_assists] ([metric] is ["assists"], [label] the column name). *)
Definition player_record (metric label : string) (p : value)
  : exc (option record) :=
  let* statistics := subscript p "statistics" in
  let* stats := subscript0 statistics in
  let* goals := subscript stats "goals" in
  let* m := subscript goals metric in
  match m with
  | VNone => Ok None
  | _ =>
      let* player := subscript p "player" in
      let* name := subscript player "name" in
      let* team := subscript stats "team" in
      let* team_name := subscript team "name" in
      let* goals := subscript stats "goals" in
      let* m := subscript goals metric in
      let* games := subscript stats "games" in
      let* appearences := subscript games "appearences" in
      Ok (Some [("player", name); ("team", team_name); (label, m);
                ("appearances",
                 if truthy appearences then appearences else VInt 0)])
  end.

Definition players_of_response (metric label what : string) (data : value)
  : exc DataFrame :=
  if negb (truthy data)
  then Raise (ValueError ("Failed to fetch " ++ what ++ " data"))
  else
    let* items := py_iter data in
    let* rows := collect (player_record metric label)
                         is_KeyError_or_IndexError items [] in
    match rows with
    | [] => Raise (ValueError ("No valid " ++ what ++ " data parsed"))
    | _ :: _ => Ok (frame_of_records rows)
    end.

Definition get_top_scorers : M nat :=
  let! data := api_get "/players/topscorers" 3 in
  let! df := liftE (players_of_response "total" "goals" "top scorers" data) in
  alloc df.

Definition get_top_assists : M nat :=
  let! data := api_get "/players/topassists" 3 in
  let! df := liftE (players_of_response "assists" "assists" "top assists" data) in
  alloc df.

(** ** Exporter (exporting_data.py) *)

Definition create_db_engine : M unit := liftE (connect E).

(** [pd.api.types.is_datetime64tz_dtype(df["exported_at"])]: a frame has no
    dtype of its own, and the answer is no. *)
Definition is_datetime64tz_dtype_selection (sel : selection) : exc bool :=
  match sel with
  | Column col => is_datetime64tz_dtype E col
  | Columns _ => Ok false
  end.

(** [df["exported_at"].dt.tz_convert("UTC").dt.tz_localize(None)] *)
Definition tz_convert_selection (sel : selection) : exc Series :=
  match sel with
  | Column col => mapE (tz_convert_utc_naive E) col
  | Columns _ => Raise AttributeError
  end.

(** [pd.to_datetime(df["exported_at"])]: a column is converted cell by cell;
    the frame that a repeated label selects is refused. *)
Definition to_datetime_selection (sel : selection) : exc Series :=
  match sel with
  | Column col => mapE (to_datetime E) col
  | Columns _ => Raise (ValueError "cannot assemble with duplicate keys")
  end.

(** [df["exported_at"] = pd.to_datetime(df["exported_at"])] *)
Definition normalize_to_datetime (l : nat) : M unit :=
  let! df := deref l in
  let! sel := liftE (getitem df "exported_at") in
  let! col' := liftE (to_datetime_selection sel) in
  setitem l "exported_at" col'.

Definition overwrite (l : nat) (table : string) : M bool :=
  try_except
    (let! df := deref l in
     let! l' :=
       (if negb (has_column "exported_at" (columns df)) then
          let! l' := copy l in
          let! df' := deref l' in
          let! t := datetime_now in
          let! _ := setitem l' "exported_at" (replicate (len_df df') t) in
          ret l'
        else
          let! l' := copy l in
          let! _ :=
            try_except
              (let! df' := deref l' in
               let! sel := liftE (getitem df' "exported_at") in
               let! tz := liftE (is_datetime64tz_dtype_selection sel) in
               if tz then
                 let! sel := liftE (getitem df' "exported_at") in
                 let! col' := liftE (tz_convert_selection sel) in
                 setitem l' "exported_at" col'
               else normalize_to_datetime l')
              (fun _ => normalize_to_datetime l') in
          ret l') in
     let! _ := begin_drop_to_sql l' table in
     ret true)
    (fun _ => ret false).

(** ** Orchestrator (exporting_data.py) *)

(** A validator applied to the object behind a reference. *)
Definition validate_at (validate : pyobj -> exc bool) (l : nat) : M bool :=
  let! df := deref l in liftE (validate (ODataFrame df)).

Definition run_pipeline : M bool :=
  try_except
    (let pipeline_success := true in
     let! engine := create_db_engine in
     (* 1. standings *)
     let! pipeline_success :=
       try_except
         (let! standings_df := get_standings in
          let! valid := validate_at validate_standings standings_df in
          if valid then
            let! written := overwrite standings_df "epl_standings" in
            if written then ret pipeline_success else ret false
          else ret false)
         (fun _ => ret false) in
     (* 2. top scorers *)
     let! pipeline_success :=
       try_except
         (let! scorers_df := get_top_scorers in
          let! valid := validate_at validate_top_scorers scorers_df in
          if valid then
            let! written := overwrite scorers_df "epl_top_scorers" in
            if written then ret pipeline_success else ret false
          else ret false)
         (fun _ => ret false) in
     (* 3. top assists *)
     let! pipeline_success :=
       try_except
         (let! assists_df := get_top_assists in
          let! valid := validate_at validate_top_assists assists_df in
          if valid then
            let! written := overwrite assists_df "epl_top_assists" in
            if written then ret pipeline_success else ret false
          else ret false)
         (fun _ => ret false) in
     ret pipeline_success)
    (fun _ => ret false).

(** [success = run_pipeline(); exit(0 if success else 1)]; an exception that
    reaches the top level ends the process with status 1. *)
Definition main (w : World) : Z * World :=
  match run_pipeline w with
  | (Ok success, w') => (if success then 0%Z else 1%Z, w')
  | (Raise _, w') => (1%Z, w')
  end.

End Effects.

(** ** Sample data and the vocabulary of the statements *)

Abbreviation ints := (map VInt).
Abbreviation strs := (map VStr).

(** [pd.DataFrame({col: [..], ..})] *)
Definition frame_of_columns (cs : list (string * list value)) : DataFrame :=
  mkDF (map fst cs)
       (transpose (match cs with [] => 0%nat | c :: _ => length (snd c) end)
                  (map snd cs)).

Definition valid_standings_df : DataFrame :=
  frame_of_columns
    [("rank", ints [1; 2; 3]%Z);
     ("team", strs ["Liverpool"; "Arsenal"; "Man City"]);
     ("points", ints [84; 74; 71]%Z);
     ("played", ints [38; 38; 38]%Z);
     ("wins", ints [25; 20; 21]%Z);
     ("draws", ints [9; 14; 8]%Z);
     ("losses", ints [4; 4; 9]%Z);
     ("goals_for", ints [86; 91; 96]%Z);
     ("goals_against", ints [41; 56; 68]%Z);
     ("goal_difference", ints [45; 35; 28]%Z)].

Definition invalid_scorers_df : DataFrame :=
  frame_of_columns
    [("player", strs ["Mohamed Salah"]);
     ("team", strs ["Liverpool"]);
     ("goals", ints [-5]%Z);
     ("appearances", ints [0]%Z)].

Definition invalid_standings_df : DataFrame :=
  frame_of_columns
    [("rank", ints [1; 2]%Z);
     ("team", strs ["Liverpool"; "Liverpool"]);
     ("points", ints [84; -5]%Z);
     ("played", ints [38; 38]%Z);
     ("wins", ints [25; 20]%Z);
     ("draws", ints [9; 14]%Z);
     ("losses", ints [4; 4]%Z);
     ("goals_for", ints [86; 91]%Z);
     ("goals_against", ints [41; 56]%Z);
     ("goal_difference", ints [45; 35]%Z)].

(** The one-row standings frames of the tests. *)
Definition liverpool_df (points played wins draws losses : Z) : DataFrame :=
  frame_of_columns
    [("rank", ints [1]%Z); ("team", strs ["Liverpool"]);
     ("points", ints [points]); ("played", ints [played]);
     ("wins", ints [wins]); ("draws", ints [draws]);
     ("losses", ints [losses]);
     ("goals_for", ints [86]%Z); ("goals_against", ints [41]%Z);
     ("goal_difference", ints [45]%Z)].

Definition valid_scorers_df : DataFrame :=
  frame_of_columns
    [("player", strs ["Mohamed Salah"; "Erling Haaland"; "Alexander Isak"]);
     ("team", strs ["Liverpool"; "Man City"; "Newcastle"]);
     ("goals", ints [29; 22; 23]%Z);
     ("appearances", ints [38; 32; 34]%Z)].

Definition salah_assists_df (assists appearances : Z) : DataFrame :=
  frame_of_columns
    [("player", strs ["Salah"]); ("team", strs ["Liverpool"]);
     ("assists", ints [assists]); ("appearances", ints [appearances])].

Definition duplicate_scorers_df : DataFrame :=
  frame_of_columns
    [("player", strs ["Salah"; "Salah"]);
     ("team", strs ["Liverpool"; "Liverpool"]);
     ("goals", ints [29; 29]%Z);
     ("appearances", ints [38; 38]%Z)].

(** Integers of 64 bits, and the figures of a league: small enough for the
    sums of the validator to stay within 64 bits. *)
Definition int64 (z : Z) : Prop := (- 2 ^ 63 <= z < 2 ^ 63)%Z.

Definition league_figure (z : Z) : Prop := (- 2 ^ 61 <= z < 2 ^ 61)%Z.

(** The rules as the arithmetic of 64-bit columns has them. *)
Definition standings_rules64 (teams : list string)
    (points played wins draws losses : list Z) : Prop :=
  NoDup teams /\
  Forall (fun p => (0 <= p)%Z) points /\
  (forall i p w d,
     points !! i = Some p -> wins !! i = Some w -> draws !! i = Some d ->
     p = wrap64 (wrap64 (w * 3) + d)) /\
  (forall i g w d l,
     played !! i = Some g -> wins !! i = Some w -> draws !! i = Some d ->
     losses !! i = Some l -> g = wrap64 (wrap64 (w + d) + l)).

(** The standings of the tests with a second points column. *)
Definition repeated_points_df : DataFrame :=
  mkDF (columns valid_standings_df ++ ["points"])
       (map (fun r => r ++ [VInt 0]) (rows valid_standings_df)).

(** Scorers with two goals columns, 29 in one and -5 in the other. *)
Definition repeated_goals_df : DataFrame :=
  mkDF ["player"; "team"; "goals"; "appearances"; "goals"]
       [[VStr "Salah"; VStr "Liverpool"; VInt 29; VInt 38; VInt (-5)]].

(** Scorers whose player cells are lists, twice the same. *)
Definition list_players_df : DataFrame :=
  frame_of_columns
    [("player", [VList [VStr "Mohamed"; VStr "Salah"];
                 VList [VStr "Mohamed"; VStr "Salah"]]);
     ("team", strs ["Liverpool"; "Liverpool"]);
     ("goals", ints [29; 29]%Z);
     ("appearances", ints [38; 38]%Z)].

(** A table whose points agree with its wins only modulo 2^64. *)
Definition wrapped_standings_df : DataFrame :=
  frame_of_columns
    [("rank", ints [1]%Z); ("team", strs ["Liverpool"]);
     ("points", ints [2]%Z); ("played", ints [0]%Z);
     ("wins", ints [6148914691236517206]%Z); ("draws", ints [0]%Z);
     ("losses", ints [(-6148914691236517206)]%Z);
     ("goals_for", ints [86]%Z); ("goals_against", ints [41]%Z);
     ("goal_difference", ints [45]%Z)].

(** The rules a standings table is checked against, column by column. *)
Definition standings_rules (teams : list string)
    (points played wins draws losses : list Z) : Prop :=
  NoDup teams /\
  Forall (fun p => (0 <= p)%Z) points /\
  (forall i p w d,
     points !! i = Some p -> wins !! i = Some w -> draws !! i = Some d ->
     p = (w * 3 + d)%Z) /\
  (forall i g w d l,
     played !! i = Some g -> wins !! i = Some w -> draws !! i = Some d ->
     losses !! i = Some l -> g = (w + d + l)%Z).

Definition two_column_df : DataFrame :=
  frame_of_columns [("rank", ints [1; 2]%Z); ("team", strs ["Liverpool"; "Arsenal"])].

(** The rules a scorers or assists table is checked against. *)
Definition players_rules (df : DataFrame) (metric appearances : list Z) : Prop :=
  rows df <> [] /\
  Forall (fun g => (0 <= g)%Z) metric /\
  Forall (fun a => (0 < a)%Z) appearances.

Definition valid_assists_df : DataFrame :=
  frame_of_columns
    [("player", strs ["Mohamed Salah"; "Alexander Isak"; "Bruno Fernandes"]);
     ("team", strs ["Liverpool"; "Newcastle"; "Man United"]);
     ("assists", ints [18; 11; 10]%Z);
     ("appearances", ints [38; 35; 37]%Z)].

Definition player_goals_df : DataFrame :=
  frame_of_columns [("player", strs ["Salah"]); ("goals", ints [29]%Z)].

(** A standings table whose points column holds text: the comparison with 0
    raises inside the validator, and the validator answers false. *)
Definition text_points_df : DataFrame :=
  frame_of_columns
    [("rank", ints [1]%Z); ("team", strs ["Liverpool"]);
     ("points", strs ["84"]); ("played", ints [38]%Z); ("wins", ints [25]%Z);
     ("draws", ints [9]%Z); ("losses", ints [4]%Z)].

(** An environment that answers the requests of a run from a script; past the
    script the connection fails.  The database accepts every transaction, the
    clock counts its readings, datetime columns are naive and are left as they
    are by the conversions. *)
Definition scripted (script : list http_result) : Env :=
  mkEnv (fun n _ => nth n script (GetRaises ConnectionError))
        (Ok tt)
        (fun _ _ _ => Ok tt)
        (fun n => VTime (Z.of_nat n))
        (fun _ => Ok false)
        (fun v => Ok v)
        (fun v => Ok v).

(** An attempt that leaves [api_get] in its loop: rate limited, or failed
    with a timeout or another [RequestException]. *)
Definition transient (r : http_result) : bool :=
  match r with
  | GetRaises e => is_RequestException e
  | GetResponse status body =>
      (status =? 429)%Z
      || ((400 <=? status) && (status <? 600))%Z
      || match body with
         | Raise e => is_RequestException e
         | Ok _ => false
         end
  end.

(** The pause that follows a transient attempt, as the loop takes it. *)
Definition backoff (max_retries attempt : Z) : list Z :=
  if (attempt <? max_retries - 1)%Z then [(2 ^ attempt)%Z] else [].

Definition pause (max_retries attempt : Z) (r : http_result) : list Z :=
  match r with
  | GetResponse status _ =>
      if (status =? 429)%Z then [60%Z] else backoff max_retries attempt
  | GetRaises _ => backoff max_retries attempt
  end.

Fixpoint pauses (E : Env) (endpoint : string) (max_retries : Z) (n : nat)
    (attempts : list Z) : list Z :=
  match attempts with
  | [] => []
  | a :: rest =>
      pause max_retries a (http E n endpoint)
      ++ pauses E endpoint max_retries (S n) rest
  end.

(** The world after [k] more requests to one endpoint and some sleeps. *)
Definition after_attempts (endpoint : string) (k : nat) (sl : list Z)
    (w : World) : World :=
  mkWorld (requests w ++ replicate k endpoint) (slept w ++ sl)
          (clock_reads w) (transactions w) (heap w) (sink w).

(** A deserialised envelope that carries results and reports no error. *)
Definition valid_payload (d : value) (results : list value) : Prop :=
  exists kv,
    d = VDict kv /\ assoc "response" kv = Some (VList results) /\
    (assoc "errors" kv = None \/
     exists e, assoc "errors" kv = Some e /\ truthy e = false).

(** A deserialised envelope without results, or with reported errors. *)
Definition failed_payload (d : value) : Prop :=
  contains "response" d = Ok false \/
  exists e, subscript d "errors" = Ok e /\ truthy e = true.

(** A status that is not rate limiting and passes [raise_for_status]. *)
Definition status_ok (status : Z) : Prop :=
  status <> 429%Z /\ ~ (400 <= status < 600)%Z.

Definition sample_results : list value :=
  [VDict [("league", VDict [("id", VInt 39); ("standings", VList [])])]].

Definition sample_envelope : value :=
  VDict [("get", VStr "standings"); ("errors", VList []);
         ("results", VInt 1); ("response", VList sample_results)].

Definition rate_limited : http_result := GetResponse 429 (Raise JSONDecodeError).

Definition scenario_d : Env :=
  scripted [rate_limited; rate_limited; GetResponse 200 (Ok sample_envelope)].

Definition all_transient : Env :=
  scripted [GetRaises Timeout; rate_limited; GetResponse 503 (Raise JSONDecodeError)].

Definition rate_limit_then_timeout : Env :=
  scripted [rate_limited; GetRaises Timeout; GetResponse 200 (Ok sample_envelope)].

Definition envelope_without_response : value :=
  VDict [("message", VStr "Too many requests")].

Definition envelope_with_errors : value :=
  VDict [("errors", VDict [("token", VStr "Error/Missing application key.")]);
         ("response", VList [])].

Definition timeout_then_no_response : Env :=
  scripted [GetRaises Timeout; GetResponse 200 (Ok envelope_without_response);
            GetResponse 200 (Ok sample_envelope)].

Definition errors_first : Env :=
  scripted [GetResponse 200 (Ok envelope_with_errors);
            GetResponse 200 (Ok sample_envelope)].

(** The rows a loop keeps: those of the entries that yield a record. *)
Definition kept_records (entry : value -> exc (option record))
    (items : list value) : list record :=
  omap (fun x => match entry x with
                 | Ok (Some r) => Some r
                 | _ => None
                 end) items.

(** An entry the loop passes over: no record, or an exception of the inner
    [except] clause. *)
Definition skipped (entry : value -> exc (option record))
    (caught : exn -> bool) (x : value) : Prop :=
  entry x = Ok None \/ exists e, entry x = Raise e /\ caught e = true.

(** An entry that does not stop the loop. *)
Definition passes (entry : value -> exc (option record))
    (caught : exn -> bool) (x : value) : Prop :=
  forall e, entry x = Raise e -> caught e = true.

(** [p["statistics"][0]["goals"][metric]] and
    [p["statistics"][0]["games"]["appearences"]] *)
Definition metric_of (metric : string) (p : value) : exc value :=
  let* statistics := subscript p "statistics" in
  let* stats := subscript0 statistics in
  let* goals := subscript stats "goals" in
  subscript goals metric.

Definition appearences_of (p : value) : exc value :=
  let* statistics := subscript p "statistics" in
  let* stats := subscript0 statistics in
  let* games := subscript stats "games" in
  subscript games "appearences".

(** A response of the standings endpoint whose first record carries a league
    with a list of groups, the first group being [table]. *)
Definition standings_table_of (data : value) (table : list value) : Prop :=
  exists kv0 rest kvl more,
    data = VList (VDict kv0 :: rest) /\
    assoc "league" kv0 = Some (VDict kvl) /\
    assoc "standings" kvl = Some (VList (VList table :: more)).

Definition standings_entry (t : value) : exc (option record) :=
  let* r := standings_record t in Ok (Some r).

(** The loop of a parser with the check that follows it. *)
Definition parse_loop (entry : value -> exc (option record))
    (caught : exn -> bool) (msg : string) (items : list value)
  : exc DataFrame :=
  let* rows := collect entry caught items [] in
  match rows with
  | [] => Raise (ValueError msg)
  | _ :: _ => Ok (frame_of_records rows)
  end.

(** A player record of the API, reduced to the fields the parsers read. *)
Definition player_json (name team : string) (goals assists appearences : value)
  : value :=
  VDict [("player", VDict [("id", VInt 306); ("name", VStr name)]);
         ("statistics",
          VList [VDict [("team", VDict [("id", VInt 40); ("name", VStr team)]);
                        ("games", VDict [("appearences", appearences);
                                         ("position", VStr "Attacker")]);
                        ("goals", VDict [("total", goals);
                                         ("assists", assists)])]])].

Definition salah : value :=
  player_json "Mohamed Salah" "Liverpool" (VInt 29) (VInt 18) (VInt 38).

Definition null_goals : value :=
  player_json "Alexander Isak" "Newcastle" VNone (VInt 6) (VInt 34).

Definition null_appearences : value :=
  player_json "Erling Haaland" "Man City" (VInt 22) (VInt 3) VNone.

Definition no_team_key : value :=
  VDict [("player", VDict [("name", VStr "Cole Palmer")]);
         ("statistics",
          VList [VDict [("goals", VDict [("total", VInt 15)]);
                        ("games", VDict [("appearences", VInt 37)])]])].

Definition empty_statistics : value :=
  VDict [("player", VDict [("name", VStr "Bryan Mbeumo")]);
         ("statistics", VList [])].

Definition null_statistics : value :=
  VDict [("player", VDict [("name", VStr "Chris Wood")]);
         ("statistics", VNone)].

Definition envelope (results : list value) : value :=
  VDict [("get", VStr "players/topscorers"); ("errors", VList []);
         ("response", VList results)].

(** What [overwrite] stores in the column when the frame already has one:
    the conversion of the [try] block, or of its handler when that fails. *)
Definition normalized (E : Env) (col : Series) : exc Series :=
  match is_datetime64tz_dtype E col with
  | Ok true =>
      match mapE (tz_convert_utc_naive E) col with
      | Ok col' => Ok col'
      | Raise _ => mapE (to_datetime E) col
      end
  | _ => mapE (to_datetime E) col
  end.

(** The world [overwrite] leaves: the copy at a new address, one more
    reading of the clock and one more transaction when they took place, the
    table in the database when the transaction succeeded. *)
Definition exported (w : World) (clock : nat) (tx : nat)
    (copy : DataFrame) (snk : gmap string DataFrame) : World :=
  mkWorld (requests w) (slept w) clock tx
          (<[fresh (dom (heap w)) := copy]> (heap w)) snk.

(** A frame that already carries exported_at, with two different naive
    timestamps, and a world that holds it at address 0. *)
Definition stale_df : DataFrame :=
  frame_of_columns
    [("team", strs ["Liverpool"; "Arsenal"]);
     ("points", ints [84; 74]%Z);
     ("exported_at", [VTime 1717200000; VTime 1719800000])].

Definition world_with (df : DataFrame) : World :=
  mkWorld [] [] 0 0 {[ 0%nat := df ]} ∅.

(** One dataset as the design words it: fetch and parse, then validate, then
    export; the dataset succeeds when the three stages do, and the world goes
    on from wherever the dataset stopped. *)
Definition dataset (E : Env) (get : M nat) (validate : pyobj -> exc bool)
    (table : string) (w : World) : bool * World :=
  match get w with
  | (Raise _, w1) => (false, w1)
  | (Ok l, w1) =>
      match validate_at validate l w1 with
      | (Ok true, w2) =>
          match overwrite E l table w2 with
          | (Ok true, w3) => (true, w3)
          | (_, w3) => (false, w3)
          end
      | (_, w2) => (false, w2)
      end
  end.

(** The three datasets in the order of the run, each from the world the one
    before it left. *)
Definition standings_run (E : Env) (w : World) : bool * World :=
  dataset E (get_standings E) validate_standings "epl_standings" w.

Definition scorers_run (E : Env) (w : World) : bool * World :=
  dataset E (get_top_scorers E) validate_top_scorers "epl_top_scorers"
          (snd (standings_run E w)).

Definition assists_run (E : Env) (w : World) : bool * World :=
  dataset E (get_top_assists E) validate_top_assists "epl_top_assists"
          (snd (scorers_run E w)).

(** The log of requests only grows. *)
Definition extends (w w' : World) : Prop :=
  exists more, requests w' = requests w ++ more.

Definition log_grows {A} (c : M A) : Prop :=
  forall w, extends w (snd (c w)).

(** A team of the standings endpoint, reduced to the fields the parser
    reads. *)
Definition team_json (rank : Z) (name : string)
    (points played win draw lose goals_for goals_against : Z) : value :=
  VDict [("rank", VInt rank);
         ("team", VDict [("id", VInt rank); ("name", VStr name)]);
         ("points", VInt points);
         ("goalsDiff", VInt (goals_for - goals_against));
         ("all", VDict [("played", VInt played); ("win", VInt win);
                        ("draw", VInt draw); ("lose", VInt lose);
                        ("goals", VDict [("for", VInt goals_for);
                                         ("against", VInt goals_against)])])].

Definition standings_envelope (teams : list value) : value :=
  VDict [("get", VStr "standings"); ("errors", VList []);
         ("response",
          VList [VDict [("league",
                         VDict [("id", VInt 39);
                                ("standings", VList [VList teams])])]])].

(** An environment that answers each endpoint with one fixed outcome. *)
Definition served (standings scorers assists : http_result)
    (connection : exc unit) : Env :=
  mkEnv (fun _ endpoint =>
           if String.eqb endpoint "/standings" then standings
           else if String.eqb endpoint "/players/topscorers" then scorers
           else assists)
        connection
        (fun _ _ _ => Ok tt)
        (fun n => VTime (Z.of_nat n))
        (fun _ => Ok false)
        (fun v => Ok v)
        (fun v => Ok v).

Definition good_standings : http_result :=
  GetResponse 200
    (Ok (standings_envelope
           [team_json 1 "Liverpool" 84 38 25 9 4 86 41;
            team_json 2 "Arsenal" 74 38 20 14 4 91 56])).

Definition good_players : http_result :=
  GetResponse 200 (Ok (envelope [salah; null_goals])).

Definition all_up : Env :=
  served good_standings good_players good_players (Ok tt).

Definition database_down : Env :=
  served good_standings good_players good_players
         (Raise (OtherError "Login timeout expired")).

Definition standings_down : Env :=
  served (GetRaises Timeout) good_players good_players (Ok tt).

(** Liverpool is credited 100 points for 25 wins and 9 draws. *)
Definition miscounted_standings : http_result :=
  GetResponse 200
    (Ok (standings_envelope
           [team_json 1 "Liverpool" 100 38 25 9 4 86 41;
            team_json 2 "Arsenal" 74 38 20 14 4 91 56])).

Definition miscounted_points : Env :=
  served miscounted_standings good_players good_players (Ok tt).

(** The three stages of a dataset, begun in world [w], all succeed: the
    fetch returns data, the parser makes a table of it, the validator
    accepts the table, and the transaction that replaces the table of the
    database by the stamped copy goes through. *)
Definition dataset_succeeds (E : Env) (endpoint : string)
    (parse : value -> exc DataFrame) (validate : pyobj -> exc bool)
    (table : string) (w : World) : Prop :=
  exists data df,
    fst (api_get E endpoint 3 w) = Ok data /\
    parse data = Ok df /\
    validate (ODataFrame df) = Ok true /\
    transaction E (transactions w) table
      (set_column df "exported_at"
         (replicate (len_df df) (now E (clock_reads w)))) = Ok tt.

(** ** Configuration (catching_data.py), and more vocabulary *)

(** [SEASON = datetime.now().year - 1 if datetime.now().month < 8
             else datetime.now().year]: the condition reads the clock, then
    the branch taken reads it again.  A reading is a year and a month. *)
Definition SEASON (first second : Z * Z) : Z :=
  if (snd first <? 8)%Z then fst second - 1 else fst second.

(** [validate_api_key()], with [API_KEY = os.getenv("API_FOOTBALL_KEY")];
    the value returned is the line it logs. *)
Definition validate_api_key (API_KEY : option string) : exc string :=
  match API_KEY with
  | None => Raise (ValueError "API_FOOTBALL_KEY environment variable not set")
  | Some key =>
      if String.eqb key ""
      then Raise (ValueError "API_FOOTBALL_KEY environment variable not set")
      else Ok ("API Key configured: " ++ str_prefix 10 key ++ "...")%string
  end.

(** The last statement of the module: [try: validate_api_key() except
    Exception as e: logger.error(...)].  The value is the line logged. *)
Definition validate_on_import (API_KEY : option string) : exc string :=
  match validate_api_key API_KEY with
  | Ok line => Ok line
  | Raise _ =>
      Ok "API configuration error: API_FOOTBALL_KEY environment variable not set"
  end.

(** The standings of the tests with the columns in another order, every rank
    set to 7 and a column the validator does not know. *)
Definition shuffled_standings_df : DataFrame :=
  frame_of_columns
    [("losses", ints [4; 4; 9]%Z);
     ("coach", strs ["Slot"; "Arteta"; "Guardiola"]);
     ("team", strs ["Liverpool"; "Arsenal"; "Man City"]);
     ("rank", ints [7; 7; 7]%Z);
     ("draws", ints [9; 14; 8]%Z);
     ("played", ints [38; 38; 38]%Z);
     ("points", ints [84; 74; 71]%Z);
     ("wins", ints [25; 20; 21]%Z)].

(** A cell that is an integer or missing. *)
Definition opt_cell (o : option Z) : value :=
  match o with
  | Some z => VInt z
  | None => VNone
  end.

(** The range checks as the code makes them: no value below 0 in the metric,
    no value at or below 0 in the appearances; a missing value is neither. *)
Definition players_range_checks (df : DataFrame)
    (metric appearances : list (option Z)) : Prop :=
  rows df <> [] /\
  Forall (fun o => forall z, o = Some z -> (0 <= z)%Z) metric /\
  Forall (fun o => forall z, o = Some z -> (0 < z)%Z) appearances.

Definition missing_goals_df : DataFrame :=
  frame_of_columns
    [("player", strs ["Mohamed Salah"; "Erling Haaland"]);
     ("team", strs ["Liverpool"; "Man City"]);
     ("goals", [VInt 29; VNone]);
     ("appearances", ints [38; 32]%Z)].

(** A value [len()] accepts. *)
Definition sized (v : value) : Prop := exists n, py_len v = Ok n.

(** A pause the loop of [api_get] can take. *)
Definition is_pause (max_retries : Z) (s : Z) : Prop :=
  s = 60%Z \/ exists a, (0 <= a < max_retries - 1)%Z /\ s = (2 ^ a)%Z.

Definition sum_list (l : list Z) : Z := fold_right Z.add 0%Z l.

(** What [api_get] makes of an envelope that reached it: its results when it
    is an object with a "response" that has a length and without truthy
    "errors", [None] otherwise. *)
Definition envelope_results (d : value) : value :=
  match d with
  | VDict kv =>
      match assoc "response" kv with
      | Some r =>
          if match assoc "errors" kv with
             | Some e => truthy e
             | None => false
             end
          then VNone
          else match py_len r with
               | Ok _ => r
               | Raise _ => VNone
               end
      | None => VNone
      end
  | _ => VNone
  end.

Definition null_response_envelope : value :=
  VDict [("errors", VList []); ("results", VInt 0); ("response", VNone)].

Definition standings_columns : list string :=
  ["rank"; "team"; "points"; "played"; "wins"; "draws"; "losses";
   "goals_for"; "goals_against"; "goal_difference"].

Definition players_columns (label : string) : list string :=
  ["player"; "team"; label; "appearances"].

(** The cell of a record under a label, as [pd.DataFrame(rows)] reads it. *)
Definition cell_of (c : string) (r : record) : value :=
  match assoc c r with
  | Some v => v
  | None => VNone
  end.

(** What a getter may do to the world: nothing to the database and the
    clock, nothing to the heap when it raises, one new frame at a free
    address when it returns. *)
Definition allocates_only_on_success (get : M nat) (w : World) : Prop :=
  sink (snd (get w)) = sink w /\
  clock_reads (snd (get w)) = clock_reads w /\
  transactions (snd (get w)) = transactions w /\
  (forall e, fst (get w) = Raise e -> heap (snd (get w)) = heap w) /\
  (forall l, fst (get w) = Ok l ->
     heap w !! l = None /\
     is_Some (heap (snd (get w)) !! l) /\
     forall l', l' <> l -> heap (snd (get w)) !! l' = heap w !! l').

(** The results of the standings endpoint for one group of teams: the
    "response" of [standings_envelope]. *)
Definition standings_results (teams : list value) : value :=
  VList [VDict [("league",
                 VDict [("id", VInt 39);
                        ("standings", VList [VList teams])])]].

(** The figures of one team as the standings endpoint gives them. *)
Record team_stats : Type := mkTeam {
  t_rank : Z;
  t_name : string;
  t_points : Z;
  t_played : Z;
  t_win : Z;
  t_draw : Z;
  t_lose : Z;
  t_goals_for : Z;
  t_goals_against : Z
}.

(** A team with the figures of a league. *)
Definition league_team (t : team_stats) : Prop :=
  int64 (t_points t) /\ int64 (t_played t) /\
  league_figure (t_win t) /\ league_figure (t_draw t) /\
  league_figure (t_lose t).

Definition team_entry (t : team_stats) : value :=
  team_json (t_rank t) (t_name t) (t_points t) (t_played t) (t_win t)
            (t_draw t) (t_lose t) (t_goals_for t) (t_goals_against t).

(** The dict [get_standings] appends for such a team. *)
Definition team_record (t : team_stats) : record :=
  [("rank", VInt (t_rank t)); ("team", VStr (t_name t));
   ("points", VInt (t_points t)); ("played", VInt (t_played t));
   ("wins", VInt (t_win t)); ("draws", VInt (t_draw t));
   ("losses", VInt (t_lose t)); ("goals_for", VInt (t_goals_for t));
   ("goals_against", VInt (t_goals_against t));
   ("goal_difference", VInt (t_goals_for t - t_goals_against t))].

Definition liverpool : team_stats := mkTeam 1 "Liverpool" 84 38 25 9 4 86 41.
Definition arsenal : team_stats := mkTeam 2 "Arsenal" 74 38 20 14 4 91 56.

(** A response with a second group, a second record and more fields. *)
Definition two_group_response : value :=
  VList [VDict [("league",
                 VDict [("name", VStr "Premier League");
                        ("standings",
                         VList [VList [team_entry liverpool];
                                VList [team_entry arsenal]])])];
         VDict [("league", VNone)]].

(** An environment whose conversions to datetime all fail. *)
Definition no_datetime : Env :=
  mkEnv (fun _ _ => GetRaises Timeout) (Ok tt) (fun _ _ _ => Ok tt)
        (fun n => VTime (Z.of_nat n)) (fun _ => Ok false)
        (fun _ => Raise (ValueError "out of bounds"))
        (fun _ => Raise (ValueError "unknown string format")).

(** A parse whose tables never carry an exported_at column. *)
Definition unstamped (parse : value -> exc DataFrame) : Prop :=
  forall data df,
    parse data = Ok df -> has_column "exported_at" (columns df) = false.

(** The table a dataset leaves in the database when it succeeds: the parse
    of what [api_get] returned, accepted by the validator, with one
    exported_at column that holds the reading of the clock in every row. *)
Definition stamped_export (E : Env) (endpoint : string)
    (parse : value -> exc DataFrame) (validate : pyobj -> exc bool)
    (w : World) (stored : DataFrame) : Prop :=
  exists data df,
    fst (api_get E endpoint 3 w) = Ok data /\
    parse data = Ok df /\
    validate (ODataFrame df) = Ok true /\
    stored = set_column df "exported_at"
               (replicate (len_df df) (now E (clock_reads w))).

(** What one dataset does to the world: between one and three requests to
    its endpoint, at most one transaction and one reading of the clock, no
    other table touched; its own table is replaced by a stamped export when
    the dataset succeeds and is left as it was when it fails. *)
Definition dataset_footprint (E : Env) (endpoint : string)
    (parse : value -> exc DataFrame) (validate : pyobj -> exc bool)
    (table : string) (ok : bool) (w w' : World) : Prop :=
  (exists k, (1 <= k <= 3)%nat /\
             requests w' = requests w ++ replicate k endpoint) /\
  (forall t, t <> table -> sink w' !! t = sink w !! t) /\
  (if ok
   then transactions w' = S (transactions w) /\
        clock_reads w' = S (clock_reads w) /\
        exists stored, sink w' = <[table := stored]> (sink w) /\
                       stamped_export E endpoint parse validate w stored
   else (transactions w' <= S (transactions w))%nat /\
        (clock_reads w' <= S (clock_reads w))%nat /\
        sink w' = sink w).

(** A database that holds the standings of an earlier run. *)
Definition world_after_earlier_run : World :=
  mkWorld [] [] 0 0 ∅ {[ "epl_standings" := valid_standings_df ]}.

(** The figures of one player as the endpoints give them; a figure may be
    null. *)
Record player_stats : Type := mkPlayer {
  p_name : string;
  p_team : string;
  p_goals : option Z;
  p_assists : option Z;
  p_appearences : option Z
}.

Definition player_entry (p : player_stats) : value :=
  player_json (p_name p) (p_team p) (opt_cell (p_goals p))
              (opt_cell (p_assists p)) (opt_cell (p_appearences p)).

(** The dict a player loop appends for a player whose metric is [m]. *)
Definition player_row (label : string) (p : player_stats) (m : Z) : record :=
  [("player", VStr (p_name p)); ("team", VStr (p_team p)); (label, VInt m);
   ("appearances", VInt (default 0%Z (p_appearences p)))].

(** The players a loop keeps, each with its metric. *)
Definition counted (sel : player_stats -> option Z)
    (players : list player_stats) : list (player_stats * Z) :=
  omap (fun p => option_map (pair p) (sel p)) players.

Definition salah_stats : player_stats :=
  mkPlayer "Mohamed Salah" "Liverpool" (Some 29%Z) (Some 18%Z) (Some 38%Z).

(** No goal count, and figures that would not pass on their own. *)
Definition benched_stats : player_stats :=
  mkPlayer "Reserve Keeper" "Liverpool" None (Some (-1)%Z) None.

(** * Properties *)

(** ** The tests of test_pipeline.py, run on the embedding *)

Example TestStandingsValidation :
  validate_standings (ODataFrame valid_standings_df) = Ok true /\
  validate_standings (ODataFrame two_column_df) = Ok false /\
  validate_standings (ODataFrame invalid_standings_df) = Ok false /\
  validate_standings (ODataFrame (liverpool_df (-10) 38 0 0 38)) = Ok false /\
  validate_standings (ODataFrame (liverpool_df 100 38 25 9 4)) = Ok false /\
  validate_standings (ODataFrame (liverpool_df 84 40 25 9 4)) = Ok false /\
  validate_standings (ODataFrame (mkDF [] [])) = Ok false.
Proof. repeat split. Qed.

Example TestTopScorersValidation :
  validate_top_scorers (ODataFrame valid_scorers_df) = Ok true /\
  validate_top_scorers (ODataFrame player_goals_df) = Ok false /\
  validate_top_scorers (ODataFrame invalid_scorers_df) = Ok false /\
  validate_top_scorers (ODataFrame (mkDF [] [])) = Ok false /\
  validate_top_scorers (ODataFrame duplicate_scorers_df) = Ok true.
Proof. repeat split. Qed.

Example TestTopAssistsValidation :
  validate_top_assists (ODataFrame valid_assists_df) = Ok true /\
  validate_top_assists (ODataFrame player_goals_df) = Ok false /\
  validate_top_assists (ODataFrame (salah_assists_df (-5) 38)) = Ok false /\
  validate_top_assists (ODataFrame (salah_assists_df 18 0)) = Ok false /\
  validate_top_assists (ODataFrame (mkDF [] [])) = Ok false.
Proof. repeat split. Qed.

(** ** Tables the tests leave out *)

(** Under a repeated label [df[c]] is a frame, the [if] on its comparison
    raises, and the validator answers false. *)
Example repeated_labels_rejected :
  getitem repeated_goals_df "goals"
  = Ok (Columns [[VInt 29]; [VInt (-5)]]) /\
  validate_top_scorers_body (ODataFrame repeated_goals_df) = Raise ambiguous /\
  validate_top_scorers (ODataFrame repeated_goals_df) = Ok false /\
  validate_standings (ODataFrame valid_standings_df) = Ok true /\
  validate_standings (ODataFrame repeated_points_df) = Ok false.
Proof. repeat split. Qed.

(** [duplicated()] marks equal lists like any other equal cells, and the
    scorers validator, which only warns about duplicates, goes on. *)
Example unhashable_cells_compared :
  duplicated [VList [VStr "Mohamed"; VStr "Salah"];
              VList [VStr "Mohamed"; VStr "Salah"]] = [false; true] /\
  validate_top_scorers (ODataFrame list_players_df) = Ok true.
Proof. repeat split. Qed.

(** ** Characters *)

Lemma chars_cons (a : Ascii.ascii) (s : string) :
  exists g gs, chars (String a s) = g :: gs.
Proof.
  simpl. destruct s as [|b s]; [eauto|].
  destruct (is_continuation b); [|eauto].
  destruct (chars (String b s)); eauto.
Qed.

Lemma append_nil_r (x : string) : String.append x "" = x.
Proof.
  induction x as [|a x IHx]; [reflexivity|].
  change (String a (String.append x "") = String a x).
  f_equal. exact IHx.
Qed.

Lemma concat_foldr (l : list string) :
  String.concat "" l = fold_right String.append "" l.
Proof.
  induction l as [|x [|y l] IH]; [reflexivity| |].
  - simpl. rewrite append_nil_r. reflexivity.
  - change (String.concat "" (x :: y :: l))
      with (x ++ "" ++ String.concat "" (y :: l))%string.
    rewrite IH. reflexivity.
Qed.

Lemma concat_chars (s : string) : String.concat "" (chars s) = s.
Proof.
  rewrite concat_foldr.
  induction s as [|a s IH]; [reflexivity|].
  destruct s as [|b s]; [reflexivity|].
  change (chars (String a (String b s)))
    with (if is_continuation b
          then match chars (String b s) with
               | g :: gs => String a g :: gs
               | [] => [String a EmptyString]
               end
          else String a EmptyString :: chars (String b s)).
  destruct (chars_cons b s) as (g & gs & Hg). rewrite Hg in *.
  destruct (is_continuation b); rewrite <- IH; reflexivity.
Qed.

(** The first [n] characters are a prefix. *)
Lemma str_prefix_prefix (n : nat) (s : string) :
  exists rest, s = String.append (str_prefix n s) rest.
Proof.
  unfold str_prefix. exists (String.concat "" (drop n (chars s))).
  rewrite <- (concat_chars s) at 1.
  rewrite <- (take_drop n (chars s)) at 1.
  rewrite !concat_foldr.
  induction (take n (chars s)) as [|g gs IH]; [reflexivity|].
  cbn [app fold_right]. rewrite IH.
  generalize (foldr String.append "" gs).
  generalize (foldr String.append "" (drop n (chars s))).
  intros t u. induction g as [|a g IHg]; [reflexivity|].
  change (String a (String.append g (String.append u t))
          = String a (String.append (String.append g u) t)).
  f_equal. exact IHg.
Qed.

(** The characters of an ASCII [str] are its bytes. *)
Lemma chars_ascii (s : string) :
  is_ascii s = true ->
  chars s = map (fun a => String a EmptyString) (list_ascii_of_string s).
Proof.
  unfold is_ascii.
  induction s as [|a s IH]; [reflexivity|].
  cbn [list_ascii_of_string forallb map]. intros H.
  apply andb_true_iff in H as [_ H].
  destruct s as [|b s]; [reflexivity|].
  change (chars (String a (String b s)))
    with (if is_continuation b
          then match chars (String b s) with
               | g :: gs => String a g :: gs
               | [] => [String a EmptyString]
               end
          else String a EmptyString :: chars (String b s)).
  rewrite (IH H).
  cbn [list_ascii_of_string forallb] in H.
  apply andb_true_iff in H as [Hb _].
  unfold is_continuation.
  apply Nat.ltb_lt in Hb.
  destruct (Nat.leb_spec 128 (Ascii.nat_of_ascii b)); [lia|]. reflexivity.
Qed.

Lemma str_prefix_ascii (n : nat) (s : string) :
  is_ascii s = true -> str_prefix n s = String.substring 0 n s.
Proof.
  intros H. unfold str_prefix. rewrite (chars_ascii s H), concat_foldr.
  clear H. revert n. induction s as [|a s IH]; intros [|n]; try reflexivity.
  cbn [list_ascii_of_string map take fold_right String.substring].
  rewrite IH. reflexivity.
Qed.

(** A key of at most [n] characters is its own prefix of [n] characters. *)
Lemma str_prefix_all (n : nat) (s : string) :
  (str_len s <= n)%nat -> str_prefix n s = s.
Proof.
  unfold str_len, str_prefix. intros H.
  rewrite take_ge by exact H. apply concat_chars.
Qed.

Lemma str_prefix_length (n : nat) (s : string) :
  (length (take n (chars s)) <= n)%nat.
Proof. rewrite length_take. lia. Qed.

(** ** Series of integers and of strings *)

Section TypedSeries.

Lemma mapE_cmp_ints cmp k (l : list Z) :
  mapE (cell_cmp cmp k) (ints l) = Ok (map (fun z => cmp z k) l).
Proof.
  induction l as [|z l IH]; [reflexivity|].
  simpl. rewrite IH. reflexivity.
Qed.

Lemma wrap64_id (z : Z) : int64 z -> wrap64 z = z.
Proof.
  unfold int64, wrap64.
  change (2 ^ 63)%Z with 9223372036854775808%Z.
  change (2 ^ 64)%Z with 18446744073709551616%Z.
  intros H. rewrite Z.mod_small; lia.
Qed.

Lemma in_int64_true (z : Z) : in_int64 z = true <-> int64 z.
Proof.
  unfold in_int64, int64. rewrite andb_true_iff, Z.leb_le, Z.ltb_lt. tauto.
Qed.

Lemma infer_dtype_ints (l : list Z) :
  Forall int64 l -> infer_dtype (ints l) = DInt64.
Proof.
  intros H. unfold infer_dtype.
  assert (Hall : forallb int64_cell (ints l) = true).
  { induction H as [|z l Hz _ IH]; [reflexivity|].
    simpl. rewrite (proj2 (in_int64_true z) Hz). exact IH. }
  rewrite Hall. reflexivity.
Qed.

Lemma as_column_ints (l : list Z) :
  Forall int64 l -> as_column (Column (ints l)) = Ok (mkColumn DInt64 (ints l)).
Proof. intros H. unfold as_column. rewrite (infer_dtype_ints l H). reflexivity. Qed.

Lemma column_mul_ints k (l : list Z) :
  column_mul (mkColumn DInt64 (ints l)) k
  = Ok (mkColumn DInt64 (ints (map (fun z => wrap64 (z * k)) l))).
Proof.
  unfold column_mul. cbn [dt cells]. do 2 f_equal.
  rewrite !map_map. reflexivity.
Qed.

Lemma column_add_ints (a b : list Z) :
  column_add (mkColumn DInt64 (ints a)) (mkColumn DInt64 (ints b))
  = Ok (mkColumn DInt64 (ints (zip_with (fun x y => wrap64 (x + y)) a b))).
Proof.
  unfold column_add. cbn [dt cells]. do 2 f_equal.
  revert b. induction a as [|x a IH]; intros [|y b]; try reflexivity.
  simpl. rewrite IH. reflexivity.
Qed.

Lemma all_series_eq_ints (a b : list Z) :
  all (series_eq (ints a) (ints b)) = true <->
  forall i x y, a !! i = Some x -> b !! i = Some y -> x = y.
Proof.
  revert b. induction a as [|x a IH]; intros [|y b]; simpl.
  - split; [intros _ i x y H; destruct i; discriminate | reflexivity].
  - split; [intros _ i x0 y0 H; destruct i; discriminate | reflexivity].
  - split; [intros _ i x0 y0 _ H; destruct i; discriminate | reflexivity].
  - unfold all, series_eq in *. simpl. rewrite andb_true_iff, IH, Z.eqb_eq.
    split.
    + intros [Hxy Hrest] [|i] x0 y0 Hx Hy; simpl in *.
      * congruence.
      * eauto.
    + intros H. split.
      * apply (H 0%nat); reflexivity.
      * intros i. apply (H (S i)).
Qed.

Lemma any_map_false {A} (f : A -> bool) (l : list A) :
  any (map f l) = false <-> Forall (fun a => f a = false) l.
Proof.
  unfold any. induction l as [|a l IH]; simpl.
  - split; [constructor | reflexivity].
  - rewrite orb_false_iff, IH. split.
    + intros [? ?]. constructor; assumption.
    + intros H. inversion H; subst. split; assumption.
Qed.

Lemma existsb_py_eq_strs (x : string) (seen : list string) :
  existsb (py_eq (VStr x)) (strs seen) = true <-> x ∈ seen.
Proof.
  induction seen as [|y seen IH]; simpl.
  - split; [discriminate | intros H; inversion H].
  - rewrite orb_true_iff, IH, String.eqb_eq, elem_of_cons. reflexivity.
Qed.

Lemma duplicated_from_strs (seen l : list string) :
  any (duplicated_from (strs seen) (strs l)) = false <->
  NoDup l /\ (forall x, x ∈ l -> x ∉ seen).
Proof.
  revert seen. induction l as [|x l IH]; intros seen.
  - split; [intros _; split; [constructor | intros x H; inversion H] | reflexivity].
  - unfold any in *. cbn [map duplicated_from existsb]. rewrite orb_false_iff.
    change (VStr x :: strs seen) with (strs (x :: seen)).
    rewrite IH, NoDup_cons.
    rewrite <- not_true_iff_false, existsb_py_eq_strs.
    split.
    + intros (Hx & Hnd & Hfresh). split; [split; [|assumption]|].
      * intros Hin. apply (Hfresh x Hin). left.
      * intros y Hy. apply elem_of_cons in Hy as [->|Hy]; [assumption|].
        intros Hys. apply (Hfresh y Hy). right. assumption.
    + intros ((Hx & Hnd) & Hfresh). split; [|split; [assumption|]].
      * apply Hfresh. left.
      * intros y Hy Hys. apply elem_of_cons in Hys as [->|Hys]; [contradiction|].
        apply (Hfresh y); [right|]; assumption.
Qed.

Lemma any_duplicated_strs (l : list string) :
  any (duplicated_from [] (strs l)) = false <-> NoDup l.
Proof.
  rewrite (duplicated_from_strs [] l). split; [tauto|].
  intros H. split; [assumption|]. intros x _ Hx. inversion Hx.
Qed.

End TypedSeries.

(** ** Labels and selections *)

Lemma col_index_head c cols : col_index c cols = head (col_indices c cols).
Proof.
  induction cols as [|c' cols IH]; [reflexivity|]. simpl.
  destruct (String.eqb c c'); [reflexivity|].
  rewrite IH. destruct (col_indices c cols); reflexivity.
Qed.

Lemma col_indices_absent c cols : c ∉ cols -> col_indices c cols = [].
Proof.
  induction cols as [|c' cols IH]; [reflexivity|]. intros Hc.
  apply not_elem_of_cons in Hc as [Hne Hc]. simpl.
  destruct (String.eqb_spec c c'); [contradiction|].
  rewrite (IH Hc). reflexivity.
Qed.

Lemma col_indices_once c cols i :
  NoDup cols -> col_index c cols = Some i -> col_indices c cols = [i].
Proof.
  intros Hnd. revert i. induction Hnd as [|c' cols Hc' _ IH]; intros i;
    [discriminate|]. simpl.
  destruct (String.eqb_spec c c') as [->|Hne].
  - intros [= <-]. rewrite (col_indices_absent _ _ Hc'). reflexivity.
  - destruct (col_index c cols) as [j|]; [|discriminate].
    intros [= <-]. rewrite (IH j eq_refl). reflexivity.
Qed.

(** A column that exists is not reported missing. *)
Lemma getitem_has_column df c s :
  getitem df c = Ok s -> has_column c (columns df) = true.
Proof.
  unfold getitem, has_column. rewrite col_index_head.
  destruct (col_indices c (columns df)); [discriminate|reflexivity].
Qed.

Lemma has_column_getitem df c :
  has_column c (columns df)
  = match getitem df c with Ok _ => true | Raise _ => false end.
Proof.
  unfold has_column, getitem. rewrite col_index_head.
  destruct (col_indices c (columns df)) as [|i [|j more]]; reflexivity.
Qed.

(** A selection that is a column is the column at the one position of the
    label. *)
Lemma getitem_Column df c s :
  getitem df c = Ok (Column s) ->
  exists i, col_index c (columns df) = Some i /\ s = column_at df i.
Proof.
  unfold getitem. rewrite col_index_head.
  destruct (col_indices c (columns df)) as [|i [|j more]]; try discriminate.
  intros [= <-]. exists i. auto.
Qed.

(** In a frame with distinct labels every selection is a column. *)
Lemma getitem_distinct df c i :
  NoDup (columns df) -> col_index c (columns df) = Some i ->
  getitem df c = Ok (Column (column_at df i)).
Proof.
  intros Hnd Hi. unfold getitem. rewrite (col_indices_once _ _ _ Hnd Hi).
  reflexivity.
Qed.

Lemma missing_cols_nil required cols :
  Forall (fun c => has_column c cols = true) required ->
  missing_cols required cols = [].
Proof.
  unfold missing_cols. induction 1 as [|c l Hc _ IH]; simpl; [reflexivity|].
  rewrite Hc. simpl. exact IH.
Qed.

Lemma missing_cols_cons required cols c :
  In c required -> has_column c cols = false ->
  exists m ms, missing_cols required cols = m :: ms.
Proof.
  intros Hin Hc. unfold missing_cols.
  assert (H : In c (List.filter (fun c => negb (has_column c cols)) required)).
  { apply filter_In. split; [assumption|]. rewrite Hc. reflexivity. }
  destruct (List.filter _ required) as [|m ms]; [destruct H | eauto].
Qed.

Lemma lookup_map {A B} (f : A -> B) (l : list A) (i : nat) :
  map f l !! i = f <$> (l !! i).
Proof.
  revert i. induction l as [|a l IH]; intros [|i]; simpl; auto.
Qed.

(** ** Validators *)

Lemma validate_standings_body_typed df teams points played wins draws losses :
  has_column "rank" (columns df) = true ->
  getitem df "team" = Ok (Column (strs teams)) ->
  getitem df "points" = Ok (Column (ints points)) ->
  getitem df "played" = Ok (Column (ints played)) ->
  getitem df "wins" = Ok (Column (ints wins)) ->
  getitem df "draws" = Ok (Column (ints draws)) ->
  getitem df "losses" = Ok (Column (ints losses)) ->
  Forall int64 points -> Forall int64 played ->
  Forall int64 wins -> Forall int64 draws -> Forall int64 losses ->
  validate_standings_body (ODataFrame df) =
  Ok (negb (any (duplicated_from [] (strs teams)))
      && negb (any (map (fun z => (z <? 0)%Z) points))
      && all (series_eq (ints points)
                (ints (zip_with (fun x y => wrap64 (x + y))
                         (map (fun z => wrap64 (z * 3)) wins) draws)))
      && all (series_eq (ints played)
                (ints (zip_with (fun x y => wrap64 (x + y))
                         (zip_with (fun x y => wrap64 (x + y)) wins draws)
                         losses)))).
Proof.
  intros Hrank Hteam Hpoints Hplayed Hwins Hdraws Hlosses
         Ip Ig Iw Id Il.
  unfold validate_standings_body. cbn [get_columns bindE].
  rewrite missing_cols_nil.
  2:{ unfold standings_required_cols.
      repeat (constructor; [solve [eauto using getitem_has_column]|]).
      constructor. }
  cbn [as_frame bindE].
  rewrite Hteam. cbn [bindE duplicated_any]. unfold duplicated.
  destruct (any (duplicated_from [] (strs teams))); [reflexivity|].
  rewrite Hpoints. cbn [bindE lt_any]. unfold series_lt.
  rewrite mapE_cmp_ints. cbn [bindE].
  destruct (any (map (fun z => (z <? 0)%Z) points)); [reflexivity|].
  rewrite Hwins. cbn [bindE]. rewrite (as_column_ints wins Iw). cbn [bindE].
  rewrite column_mul_ints. cbn [bindE].
  rewrite Hdraws. cbn [bindE]. rewrite (as_column_ints draws Id). cbn [bindE].
  rewrite column_add_ints. cbn [bindE].
  rewrite (as_column_ints points Ip). cbn [bindE].
  unfold column_eq at 1. cbn [cells].
  destruct (all (series_eq (ints points) _)); [|reflexivity].
  cbn [negb]. rewrite column_add_ints. cbn [bindE].
  rewrite Hlosses. cbn [bindE]. rewrite (as_column_ints losses Il). cbn [bindE].
  rewrite column_add_ints. cbn [bindE].
  rewrite Hplayed. cbn [bindE]. rewrite (as_column_ints played Ig). cbn [bindE].
  unfold column_eq. cbn [cells].
  destruct (all (series_eq (ints played) _)); reflexivity.
Qed.

Lemma standings_checks64_iff teams points played wins draws losses :
  negb (any (duplicated_from [] (strs teams)))
  && negb (any (map (fun z => (z <? 0)%Z) points))
  && all (series_eq (ints points)
            (ints (zip_with (fun x y => wrap64 (x + y))
                     (map (fun z => wrap64 (z * 3)) wins) draws)))
  && all (series_eq (ints played)
            (ints (zip_with (fun x y => wrap64 (x + y))
                     (zip_with (fun x y => wrap64 (x + y)) wins draws)
                     losses))) = true
  <-> standings_rules64 teams points played wins draws losses.
Proof.
  unfold standings_rules64.
  rewrite !andb_true_iff, !negb_true_iff, any_duplicated_strs, any_map_false,
    !all_series_eq_ints.
  split.
  - intros (((Hnd & Hneg) & Hpts) & Hplayed). repeat split.
    + assumption.
    + eapply Forall_impl; [exact Hneg|]. simpl. intros p Hp.
      apply Z.ltb_ge. assumption.
    + intros i p w d Hp Hw Hd.
      apply (Hpts i p (wrap64 (wrap64 (w * 3) + d)) Hp).
      apply lookup_zip_with_Some. exists (wrap64 (w * 3)), d.
      repeat split; [|assumption].
      rewrite lookup_map, Hw. reflexivity.
    + intros i g w d l Hg Hw Hd Hl.
      apply (Hplayed i g (wrap64 (wrap64 (w + d) + l)) Hg).
      apply lookup_zip_with_Some. exists (wrap64 (w + d)), l.
      repeat split; [|assumption].
      apply lookup_zip_with_Some. exists w, d. auto.
  - intros (Hnd & Hneg & Hpts & Hplayed). repeat split.
    + assumption.
    + eapply Forall_impl; [exact Hneg|]. simpl. intros p Hp.
      apply Z.ltb_ge. assumption.
    + intros i p y Hp Hy.
      apply lookup_zip_with_Some in Hy as (w3 & d & -> & Hw3 & Hd).
      rewrite lookup_map in Hw3. destruct (wins !! i) as [w|] eqn:Hw; [|discriminate].
      injection Hw3 as <-. eauto.
    + intros i g y Hg Hy.
      apply lookup_zip_with_Some in Hy as (wd & l & -> & Hwd & Hl).
      apply lookup_zip_with_Some in Hwd as (w & d & -> & Hw & Hd). eauto.
Qed.

Lemma league_figure_int64 (z : Z) : league_figure z -> int64 z.
Proof.
  unfold league_figure, int64.
  change (2 ^ 61)%Z with 2305843009213693952%Z.
  change (2 ^ 63)%Z with 9223372036854775808%Z. lia.
Qed.

Lemma league_figures_sums (w d l : Z) :
  league_figure w -> league_figure d -> league_figure l ->
  wrap64 (wrap64 (w * 3) + d) = (w * 3 + d)%Z /\
  wrap64 (wrap64 (w + d) + l) = (w + d + l)%Z.
Proof.
  unfold league_figure. intros Hw Hd Hl.
  change (2 ^ 61)%Z with 2305843009213693952%Z in *.
  assert (Hr : forall z, (- 9223372036854775808 <= z < 9223372036854775808)%Z ->
                         wrap64 z = z).
  { intros z Hz. apply wrap64_id. unfold int64.
    change (2 ^ 63)%Z with 9223372036854775808%Z. exact Hz. }
  rewrite (Hr (w * 3)%Z) by lia. rewrite (Hr (w + d)%Z) by lia.
  rewrite (Hr (w * 3 + d)%Z) by lia. rewrite (Hr (w + d + l)%Z) by lia.
  split; reflexivity.
Qed.

(** With figures of a league, 64-bit arithmetic is arithmetic. *)
Lemma standings_rules64_league teams points played wins draws losses :
  Forall league_figure wins -> Forall league_figure draws ->
  Forall league_figure losses ->
  standings_rules64 teams points played wins draws losses <->
  standings_rules teams points played wins draws losses.
Proof.
  intros Hw Hd Hl. rewrite !Forall_lookup in *.
  unfold standings_rules64, standings_rules.
  split; intros (Hnd & Hneg & Hpts & Hplayed);
    (split; [exact Hnd|]; split; [exact Hneg|]; split).
  - intros i p w d Hp Hwi Hdi. rewrite (Hpts i p w d Hp Hwi Hdi).
    apply (league_figures_sums w d 0); eauto.
    unfold league_figure. change (2 ^ 61)%Z with 2305843009213693952%Z. lia.
  - intros i g w d l Hg Hwi Hdi Hli. rewrite (Hplayed i g w d l Hg Hwi Hdi Hli).
    apply (league_figures_sums w d l); eauto.
  - intros i p w d Hp Hwi Hdi. rewrite (Hpts i p w d Hp Hwi Hdi).
    symmetry. apply (league_figures_sums w d 0); eauto.
    unfold league_figure. change (2 ^ 61)%Z with 2305843009213693952%Z. lia.
  - intros i g w d l Hg Hwi Hdi Hli. rewrite (Hplayed i g w d l Hg Hwi Hdi Hli).
    symmetry. apply (league_figures_sums w d l); eauto.
Qed.

Lemma Forall_league_int64 (l : list Z) : Forall league_figure l -> Forall int64 l.
Proof.
  intros H. eapply Forall_impl; [exact H|exact league_figure_int64].
Qed.

Lemma Ok_bool_true_iff (b : bool) : @Ok bool b = Ok true <-> b = true.
Proof. split; [intros [= ->]; reflexivity | intros ->; reflexivity]. Qed.

Lemma validate_is_false (c : exc bool) :
  except_return c false <> Ok true -> except_return c false = Ok false.
Proof. destruct c as [[|]|e]; simpl; congruence. Qed.

(** The verdict on a table of 64-bit integers. *)
Lemma validate_standings_int64 df teams points played wins draws losses :
  has_column "rank" (columns df) = true ->
  getitem df "team" = Ok (Column (strs teams)) ->
  getitem df "points" = Ok (Column (ints points)) ->
  getitem df "played" = Ok (Column (ints played)) ->
  getitem df "wins" = Ok (Column (ints wins)) ->
  getitem df "draws" = Ok (Column (ints draws)) ->
  getitem df "losses" = Ok (Column (ints losses)) ->
  Forall int64 points -> Forall int64 played ->
  Forall int64 wins -> Forall int64 draws -> Forall int64 losses ->
  validate_standings (ODataFrame df) = Ok true <->
  standings_rules64 teams points played wins draws losses.
Proof.
  intros Hrank Ht Hp Hg Hw Hd Hl Ip Ig Iw Id Il.
  unfold validate_standings.
  rewrite (validate_standings_body_typed df _ _ _ _ _ _
             Hrank Ht Hp Hg Hw Hd Hl Ip Ig Iw Id Il).
  cbn [except_return]. rewrite Ok_bool_true_iff.
  apply standings_checks64_iff.
Qed.

(** The verdict on a table of league figures. *)
Lemma validate_standings_league df teams points played wins draws losses :
  has_column "rank" (columns df) = true ->
  getitem df "team" = Ok (Column (strs teams)) ->
  getitem df "points" = Ok (Column (ints points)) ->
  getitem df "played" = Ok (Column (ints played)) ->
  getitem df "wins" = Ok (Column (ints wins)) ->
  getitem df "draws" = Ok (Column (ints draws)) ->
  getitem df "losses" = Ok (Column (ints losses)) ->
  Forall int64 points -> Forall int64 played ->
  Forall league_figure wins -> Forall league_figure draws ->
  Forall league_figure losses ->
  validate_standings (ODataFrame df) = Ok true <->
  standings_rules teams points played wins draws losses.
Proof.
  intros Hrank Ht Hp Hg Hw Hd Hl Ip Ig Fw Fd Fl.
  rewrite (validate_standings_int64 df _ _ _ _ _ _ Hrank Ht Hp Hg Hw Hd Hl
             Ip Ig (Forall_league_int64 _ Fw) (Forall_league_int64 _ Fd)
             (Forall_league_int64 _ Fl)).
  apply standings_rules64_league; assumption.
Qed.

(** C1. A table lacking one of rank, team, points, played, wins, draws, losses
    is rejected.  On a table that has them, each once, with team names in the
    team column and 64-bit integers in the five numeric ones,
    [validate_standings] answers true exactly when the names are pairwise
    distinct, no points are negative, and every row has
    points = wins*3 + draws and played = wins + draws + losses as 64-bit
    arithmetic computes them.  When wins, draws and losses are figures of a
    league (below 2^61 in absolute value) nothing wraps around, and the
    answer is true exactly when every row has points = wins*3 + draws and
    played = wins + draws + losses.  The number of rows takes no part in the
    answer: a table of any length other than 20 that meets the rules is
    accepted. *)
Theorem validate_standings_spec (df : DataFrame) :
  (forall c, In c standings_required_cols ->
     has_column c (columns df) = false ->
     validate_standings (ODataFrame df) = Ok false)
  /\
  (forall teams points played wins draws losses,
     has_column "rank" (columns df) = true ->
     getitem df "team" = Ok (Column (strs teams)) ->
     getitem df "points" = Ok (Column (ints points)) ->
     getitem df "played" = Ok (Column (ints played)) ->
     getitem df "wins" = Ok (Column (ints wins)) ->
     getitem df "draws" = Ok (Column (ints draws)) ->
     getitem df "losses" = Ok (Column (ints losses)) ->
     Forall int64 points -> Forall int64 played ->
     (Forall int64 wins -> Forall int64 draws -> Forall int64 losses ->
      (validate_standings (ODataFrame df) = Ok true <->
       standings_rules64 teams points played wins draws losses))
     /\
     (Forall league_figure wins -> Forall league_figure draws ->
      Forall league_figure losses ->
      (validate_standings (ODataFrame df) = Ok true <->
       standings_rules teams points played wins draws losses)
      /\
      (len_df df <> 20%nat ->
       standings_rules teams points played wins draws losses ->
       validate_standings (ODataFrame df) = Ok true))).
Proof.
  split.
  - intros c Hin Hc. unfold validate_standings, validate_standings_body.
    cbn [get_columns bindE].
    destruct (missing_cols_cons _ _ _ Hin Hc) as (m & ms & ->). reflexivity.
  - intros teams points played wins draws losses Hrank Ht Hp Hg Hw Hd Hl Ip Ig.
    split.
    + intros Iw Id Il.
      apply (validate_standings_int64 df teams points played wins draws losses);
        assumption.
    + intros Fw Fd Fl.
      assert (Hiff : validate_standings (ODataFrame df) = Ok true <->
                     standings_rules teams points played wins draws losses).
      { apply validate_standings_league; assumption. }
      split; [exact Hiff|]. intros _ Hrules. apply Hiff. exact Hrules.
Qed.

Lemma validate_standings_spec_witness :
  validate_standings (ODataFrame two_column_df) = Ok false /\
  (validate_standings (ODataFrame valid_standings_df) = Ok true <->
   standings_rules ["Liverpool"; "Arsenal"; "Man City"]
     [84; 74; 71]%Z [38; 38; 38]%Z [25; 20; 21]%Z [9; 14; 8]%Z [4; 4; 9]%Z) /\
  (validate_standings (ODataFrame wrapped_standings_df) = Ok true <->
   standings_rules64 ["Liverpool"] [2]%Z [0]%Z
     [6148914691236517206]%Z [0]%Z [(-6148914691236517206)]%Z).
Proof.
  split; [|split].
  - apply (proj1 (validate_standings_spec two_column_df) "points").
    + simpl. tauto.
    + reflexivity.
  - apply (proj2 (validate_standings_spec valid_standings_df)
             ["Liverpool"; "Arsenal"; "Man City"]
             [84; 74; 71]%Z [38; 38; 38]%Z [25; 20; 21]%Z [9; 14; 8]%Z
             [4; 4; 9]%Z); try reflexivity;
      repeat (constructor; [unfold int64, league_figure; lia|]);
      constructor.
  - apply (proj2 (validate_standings_spec wrapped_standings_df)
             ["Liverpool"] [2]%Z [0]%Z
             [6148914691236517206]%Z [0]%Z [(-6148914691236517206)]%Z);
      try reflexivity;
      repeat (constructor; [unfold int64; lia|]); constructor.
Defined.

(** Beyond the figures of a league the arithmetic of the columns wraps
    around: 6148914691236517206 wins are worth 2 points. *)
Example wrapped_standings_accepted :
  validate_standings (ODataFrame wrapped_standings_df) = Ok true.
Proof. vm_compute. reflexivity. Qed.

Lemma players_checks_iff df (metric appearances : list Z) :
  negb (Nat.eqb (len_df df) 0)
  && negb (any (map (fun z => (z <? 0)%Z) metric))
  && negb (any (map (fun z => (z <=? 0)%Z) appearances)) = true
  <-> players_rules df metric appearances.
Proof.
  unfold players_rules, len_df.
  rewrite !andb_true_iff, !negb_true_iff, !any_map_false, Nat.eqb_neq.
  assert (Hlen : length (rows df) <> 0%nat <-> rows df <> []).
  { destruct (rows df); simpl; split; congruence. }
  rewrite Hlen.
  assert (Hm : Forall (fun a => (a <? 0)%Z = false) metric <->
               Forall (fun g => (0 <= g)%Z) metric).
  { split; intros H; (eapply Forall_impl; [exact H|]); simpl; intros z;
      apply Z.ltb_ge. }
  assert (Ha : Forall (fun a => (a <=? 0)%Z = false) appearances <->
               Forall (fun a => (0 < a)%Z) appearances).
  { split; intros H; (eapply Forall_impl; [exact H|]); simpl; intros z;
      apply Z.leb_gt. }
  rewrite Hm, Ha. tauto.
Qed.

Lemma validate_top_scorers_body_typed df players goals appearances :
  has_column "team" (columns df) = true ->
  getitem df "player" = Ok (Column (strs players)) ->
  getitem df "goals" = Ok (Column (ints goals)) ->
  getitem df "appearances" = Ok (Column (ints appearances)) ->
  validate_top_scorers_body (ODataFrame df) =
  Ok (negb (Nat.eqb (len_df df) 0)
      && negb (any (map (fun z => (z <? 0)%Z) goals))
      && negb (any (map (fun z => (z <=? 0)%Z) appearances))).
Proof.
  intros Hteam Hplayer Hgoals Happ.
  unfold validate_top_scorers_body. cbn [get_columns bindE].
  rewrite missing_cols_nil.
  2:{ unfold scorers_required_cols.
      repeat (constructor; [solve [eauto using getitem_has_column]|]).
      constructor. }
  cbn [as_frame bindE].
  destruct (Nat.eqb (len_df df) 0); [reflexivity|].
  rewrite Hgoals. cbn [bindE lt_any]. unfold series_lt. rewrite mapE_cmp_ints.
  cbn [bindE]. destruct (any (map _ goals)); [reflexivity|].
  rewrite Happ. cbn [bindE le_any]. unfold series_le. rewrite mapE_cmp_ints.
  cbn [bindE]. destruct (any (map _ appearances)); [reflexivity|].
  rewrite Hplayer. reflexivity.
Qed.

Lemma validate_top_assists_body_typed df players assists appearances :
  has_column "team" (columns df) = true ->
  getitem df "player" = Ok (Column (strs players)) ->
  getitem df "assists" = Ok (Column (ints assists)) ->
  getitem df "appearances" = Ok (Column (ints appearances)) ->
  validate_top_assists_body (ODataFrame df) =
  Ok (negb (Nat.eqb (len_df df) 0)
      && negb (any (map (fun z => (z <? 0)%Z) assists))
      && negb (any (map (fun z => (z <=? 0)%Z) appearances))).
Proof.
  intros Hteam Hplayer Hassists Happ.
  unfold validate_top_assists_body. cbn [get_columns bindE].
  rewrite missing_cols_nil.
  2:{ unfold assists_required_cols.
      repeat (constructor; [solve [eauto using getitem_has_column]|]).
      constructor. }
  cbn [as_frame bindE].
  destruct (Nat.eqb (len_df df) 0); [reflexivity|].
  rewrite Hassists. cbn [bindE lt_any]. unfold series_lt. rewrite mapE_cmp_ints.
  cbn [bindE]. destruct (any (map _ assists)); [reflexivity|].
  rewrite Happ. cbn [bindE le_any]. unfold series_le. rewrite mapE_cmp_ints.
  cbn [bindE]. destruct (any (map _ appearances)); [reflexivity|].
  rewrite Hplayer. reflexivity.
Qed.

(** C2. A scorers (resp. assists) table lacking one of player, team, goals
    (resp. assists), appearances is rejected.  On a table that has them, with
    the player, metric and appearances labels once each, names in the player
    column and integers in the metric and appearances columns, the validator
    answers true exactly when the table has a row, the metric is >= 0 in
    every row and appearances are > 0 in every row.  Repeated player names
    take no part in the answer.  A scorers table with a row of goals -5 and
    appearances 0 is rejected. *)
Theorem validate_top_scorers_assists_spec (df : DataFrame) :
  ((forall c, In c scorers_required_cols ->
      has_column c (columns df) = false ->
      validate_top_scorers (ODataFrame df) = Ok false)
   /\
   (forall players goals appearances,
      has_column "team" (columns df) = true ->
      getitem df "player" = Ok (Column (strs players)) ->
      getitem df "goals" = Ok (Column (ints goals)) ->
      getitem df "appearances" = Ok (Column (ints appearances)) ->
      (validate_top_scorers (ODataFrame df) = Ok true <->
       players_rules df goals appearances)
      /\
      (~ NoDup players -> players_rules df goals appearances ->
       validate_top_scorers (ODataFrame df) = Ok true)
      /\
      (forall i, goals !! i = Some (-5)%Z -> appearances !! i = Some 0%Z ->
       validate_top_scorers (ODataFrame df) = Ok false)))
  /\
  ((forall c, In c assists_required_cols ->
      has_column c (columns df) = false ->
      validate_top_assists (ODataFrame df) = Ok false)
   /\
   (forall players assists appearances,
      has_column "team" (columns df) = true ->
      getitem df "player" = Ok (Column (strs players)) ->
      getitem df "assists" = Ok (Column (ints assists)) ->
      getitem df "appearances" = Ok (Column (ints appearances)) ->
      (validate_top_assists (ODataFrame df) = Ok true <->
       players_rules df assists appearances)
      /\
      (~ NoDup players -> players_rules df assists appearances ->
       validate_top_assists (ODataFrame df) = Ok true))).
Proof.
  split; split.
  - intros c Hin Hc. unfold validate_top_scorers, validate_top_scorers_body.
    cbn [get_columns bindE].
    destruct (missing_cols_cons _ _ _ Hin Hc) as (m & ms & ->). reflexivity.
  - intros players goals appearances Hteam Hplayer Hgoals Happ.
    assert (Hiff : validate_top_scorers (ODataFrame df) = Ok true <->
                   players_rules df goals appearances).
    { unfold validate_top_scorers.
      rewrite (validate_top_scorers_body_typed df _ _ _ Hteam Hplayer Hgoals Happ).
      cbn [except_return]. rewrite Ok_bool_true_iff. apply players_checks_iff. }
    split; [exact Hiff|]. split.
    + intros _ Hrules. apply Hiff. exact Hrules.
    + intros i Hg Ha. apply validate_is_false.
      fold (validate_top_scorers (ODataFrame df)). rewrite Hiff.
      intros (_ & Hnonneg & _).
      rewrite Forall_lookup in Hnonneg. specialize (Hnonneg i _ Hg). lia.
  - intros c Hin Hc. unfold validate_top_assists, validate_top_assists_body.
    cbn [get_columns bindE].
    destruct (missing_cols_cons _ _ _ Hin Hc) as (m & ms & ->). reflexivity.
  - intros players assists appearances Hteam Hplayer Hassists Happ.
    assert (Hiff : validate_top_assists (ODataFrame df) = Ok true <->
                   players_rules df assists appearances).
    { unfold validate_top_assists.
      rewrite (validate_top_assists_body_typed df _ _ _ Hteam Hplayer Hassists Happ).
      cbn [except_return]. rewrite Ok_bool_true_iff. apply players_checks_iff. }
    split; [exact Hiff|]. intros _ Hrules. apply Hiff. exact Hrules.
Qed.

Lemma validate_top_scorers_assists_spec_witness :
  validate_top_scorers (ODataFrame player_goals_df) = Ok false /\
  validate_top_scorers (ODataFrame duplicate_scorers_df) = Ok true /\
  validate_top_scorers (ODataFrame invalid_scorers_df) = Ok false /\
  validate_top_assists (ODataFrame player_goals_df) = Ok false /\
  (validate_top_assists (ODataFrame valid_assists_df) = Ok true <->
   players_rules valid_assists_df [18; 11; 10]%Z [38; 35; 37]%Z).
Proof.
  split; [|split; [|split; [|split]]].
  - apply (proj1 (proj1 (validate_top_scorers_assists_spec player_goals_df)) "team").
    + simpl. tauto.
    + reflexivity.
  - apply (proj2 (proj1 (validate_top_scorers_assists_spec duplicate_scorers_df))
             ["Salah"; "Salah"] [29; 29]%Z [38; 38]%Z); try reflexivity.
    + intros H. apply NoDup_cons in H as [H _]. apply H. left.
    + repeat split; [discriminate | |]; repeat constructor; lia.
  - apply (proj2 (proj1 (validate_top_scorers_assists_spec invalid_scorers_df))
             ["Mohamed Salah"] [-5]%Z [0]%Z eq_refl eq_refl eq_refl eq_refl)
      with (i := 0%nat); reflexivity.
  - apply (proj1 (proj2 (validate_top_scorers_assists_spec player_goals_df)) "team").
    + simpl. tauto.
    + reflexivity.
  - apply (proj2 (proj2 (validate_top_scorers_assists_spec valid_assists_df))
             ["Mohamed Salah"; "Alexander Isak"; "Bruno Fernandes"]
             [18; 11; 10]%Z [38; 35; 37]%Z); reflexivity.
Defined.

(** C8. Whatever a validator is handed, a DataFrame of any content or an
    object that is no DataFrame at all, it returns a boolean and raises
    nothing; when the checks themselves raise, the answer is false. *)
Theorem validators_never_raise (x : pyobj) :
  (exists b, validate_standings x = Ok b) /\
  (exists b, validate_top_scorers x = Ok b) /\
  (exists b, validate_top_assists x = Ok b) /\
  (forall e, validate_standings_body x = Raise e ->
             validate_standings x = Ok false) /\
  (forall e, validate_top_scorers_body x = Raise e ->
             validate_top_scorers x = Ok false) /\
  (forall e, validate_top_assists_body x = Raise e ->
             validate_top_assists x = Ok false) /\
  (forall v, x = OValue v ->
             validate_standings x = Ok false /\
             validate_top_scorers x = Ok false /\
             validate_top_assists x = Ok false).
Proof.
  unfold validate_standings, validate_top_scorers, validate_top_assists.
  repeat split.
  - destruct (validate_standings_body x); simpl; eauto.
  - destruct (validate_top_scorers_body x); simpl; eauto.
  - destruct (validate_top_assists_body x); simpl; eauto.
  - intros e ->. reflexivity.
  - intros e ->. reflexivity.
  - intros e ->. reflexivity.
  - subst x. reflexivity.
  - subst x. reflexivity.
  - subst x. reflexivity.
Qed.

Lemma validators_never_raise_witness :
  validate_standings_body (ODataFrame text_points_df) = Raise TypeError /\
  validate_standings (ODataFrame text_points_df) = Ok false /\
  validate_top_scorers (OValue VNone) = Ok false.
Proof.
  split; [reflexivity|]. split.
  - apply (proj1 (proj2 (proj2 (proj2
             (validators_never_raise (ODataFrame text_points_df)))))
             TypeError).
    reflexivity.
  - apply (proj2 (proj2 (proj2 (proj2 (proj2 (proj2
             (validators_never_raise (OValue VNone))))))) VNone).
    reflexivity.
Defined.

(** ** Fetcher *)

Section Fetcher.

Context (E : Env) (endpoint : string) (max_retries : Z).

Lemma after_attempts_0 w : after_attempts endpoint 0 [] w = w.
Proof. destruct w. unfold after_attempts. simpl. rewrite !app_nil_r. reflexivity. Qed.

Lemma after_attempts_after_attempts k1 k2 sl1 sl2 w :
  after_attempts endpoint k2 sl2 (after_attempts endpoint k1 sl1 w)
  = after_attempts endpoint (k1 + k2) (sl1 ++ sl2) w.
Proof.
  unfold after_attempts. simpl.
  rewrite <- !app_assoc, replicate_add. reflexivity.
Qed.

Lemma with_request_after w :
  with_request endpoint w = after_attempts endpoint 1 [] w.
Proof. unfold with_request, after_attempts. simpl. rewrite app_nil_r. reflexivity. Qed.

(** After an exception of the [requests] family the loop backs off and
    goes on. *)
Lemma api_get_except_request e attempt w :
  is_RequestException e = true ->
  exists u,
    api_get_except max_retries attempt e w = (Ok None, u) /\
    requests u = requests w /\
    slept u = slept w ++ backoff max_retries attempt /\
    clock_reads u = clock_reads w /\ transactions u = transactions w /\
    heap u = heap w /\ sink u = sink w.
Proof.
  intros He. unfold api_get_except, backoff.
  assert (Hsame : forall A (x y : A), (if is_Timeout e then x
                    else if is_RequestException e then x else y) = x).
  { intros A x y. rewrite He. destruct (is_Timeout e); reflexivity. }
  rewrite Hsame.
  destruct (attempt <? max_retries - 1)%Z.
  - eexists. split; [reflexivity|]. simpl. repeat split.
  - eexists. split; [reflexivity|]. simpl. rewrite app_nil_r. repeat split.
Qed.

Lemma world_eq (u v : World) :
  requests u = requests v -> slept u = slept v ->
  clock_reads u = clock_reads v -> transactions u = transactions v ->
  heap u = heap v -> sink u = sink v -> u = v.
Proof. destruct u, v. simpl. intros; subst; reflexivity. Qed.

(** One transient attempt: the loop moves to the next attempt, one request
    and the pause of that attempt later. *)
Lemma api_get_loop_transient attempt rest w :
  transient (http E (length (requests w)) endpoint) = true ->
  api_get_loop E endpoint max_retries (attempt :: rest) w =
  api_get_loop E endpoint max_retries rest
    (after_attempts endpoint 1
       (pause max_retries attempt (http E (length (requests w)) endpoint)) w).
Proof.
  intros Ht. cbn [api_get_loop].
  unfold api_get_try, bindM, requests_get, pause.
  destruct (http E (length (requests w)) endpoint) as [e|status body]; simpl in Ht.
  - destruct (api_get_except_request e attempt (with_request endpoint w) Ht)
      as (u & -> & Hr & Hs & Hc & Htx & Hh & Hk).
    f_equal. apply world_eq; simpl in *; congruence.
  - cbn [fst snd]. destruct (status =? 429)%Z eqn:H429.
    + reflexivity.
    + simpl in Ht. unfold raise_for_status.
      destruct ((400 <=? status) && (status <? 600))%Z eqn:Hst.
      * unfold raise.
        destruct (api_get_except_request HTTPError attempt
                    (with_request endpoint w) eq_refl)
          as (u & -> & Hr & Hs & Hc & Htx & Hh & Hk).
        f_equal. apply world_eq; simpl in *; congruence.
      * simpl in Ht. unfold ret, liftE. destruct body as [d|e]; [discriminate|].
        destruct (api_get_except_request e attempt
                    (with_request endpoint w) Ht)
          as (u & -> & Hr & Hs & Hc & Htx & Hh & Hk).
        f_equal. apply world_eq; simpl in *; congruence.
Qed.

(** A run of transient attempts. *)
Lemma api_get_loop_prefix pre rest w :
  (forall i, (i < length pre)%nat ->
     transient (http E (length (requests w) + i) endpoint) = true) ->
  api_get_loop E endpoint max_retries (pre ++ rest) w =
  api_get_loop E endpoint max_retries rest
    (after_attempts endpoint (length pre)
       (pauses E endpoint max_retries (length (requests w)) pre) w).
Proof.
  revert w. induction pre as [|a pre IH]; intros w Ht.
  - simpl. rewrite after_attempts_0. reflexivity.
  - cbn [app]. rewrite api_get_loop_transient.
    2:{ specialize (Ht 0%nat). rewrite Nat.add_0_r in Ht. apply Ht. simpl. lia. }
    rewrite IH.
    2:{ intros i Hi. simpl. rewrite length_app. simpl.
        replace (length (requests w) + 1 + i)%nat
          with (length (requests w) + S i)%nat by lia.
        apply Ht. simpl. lia. }
    rewrite after_attempts_after_attempts. simpl.
    rewrite length_app. simpl.
    replace (length (requests w) + 1)%nat with (S (length (requests w))) by lia.
    reflexivity.
Qed.

(** An attempt that gets a valid envelope returns its results. *)
Lemma api_get_loop_valid attempt rest w status d results :
  http E (length (requests w)) endpoint = GetResponse status (Ok d) ->
  status_ok status -> valid_payload d results ->
  api_get_loop E endpoint max_retries (attempt :: rest) w =
  (Ok (VList results), with_request endpoint w).
Proof.
  intros Hhttp [H429 Hst] (kv & -> & Hresp & Herr). cbn [api_get_loop].
  unfold api_get_try, bindM, requests_get. rewrite Hhttp. cbn [fst snd].
  apply Z.eqb_neq in H429. rewrite H429.
  unfold raise_for_status.
  assert (Hrange : ((400 <=? status) && (status <? 600))%Z = false).
  { apply not_true_is_false. intros H. apply andb_true_iff in H as [H1 H2].
    apply Hst. lia. }
  rewrite Hrange. unfold ret, liftE. simpl. rewrite Hresp. simpl.
  destruct Herr as [-> | (e & -> & He)]; simpl.
  - reflexivity.
  - rewrite He. reflexivity.
Qed.

(** An attempt that gets an envelope without results, or with errors, ends
    the call with [None]. *)
Lemma api_get_loop_failed attempt rest w status d :
  http E (length (requests w)) endpoint = GetResponse status (Ok d) ->
  status_ok status -> failed_payload d ->
  api_get_loop E endpoint max_retries (attempt :: rest) w =
  (Ok VNone, with_request endpoint w).
Proof.
  intros Hhttp [H429 Hst] Hbad. cbn [api_get_loop].
  unfold api_get_try, bindM, requests_get. rewrite Hhttp. cbn [fst snd].
  apply Z.eqb_neq in H429. rewrite H429.
  unfold raise_for_status.
  assert (Hrange : ((400 <=? status) && (status <? 600))%Z = false).
  { apply not_true_is_false. intros H. apply andb_true_iff in H as [H1 H2].
    apply Hst. lia. }
  rewrite Hrange. unfold ret, liftE.
  destruct Hbad as [Hc | (e & Hsub & He)].
  - rewrite Hc. reflexivity.
  - destruct d; try discriminate Hsub. simpl in Hsub |- *.
    destruct (assoc "response" kv); [|reflexivity].
    simpl. destruct (assoc "errors" kv) as [e'|]; [|discriminate].
    injection Hsub as ->. simpl. rewrite He. reflexivity.
Qed.

Lemma range_split (k : nat) :
  (Z.of_nat k <= max_retries)%Z ->
  range max_retries =
  map Z.of_nat (seq 0 k) ++ map Z.of_nat (seq k (Z.to_nat max_retries - k)).
Proof.
  intros Hk. unfold range. rewrite <- map_app, <- seq_app.
  do 2 f_equal. lia.
Qed.

End Fetcher.

Section FetcherRuns.

Context (E : Env) (endpoint : string) (max_retries : Z).

(** The pauses of a run of rate-limited attempts are all 60 seconds. *)
Lemma pauses_rate_limited n attempts :
  (forall i, (i < length attempts)%nat ->
     exists b, http E (n + i) endpoint = GetResponse 429 b) ->
  pauses E endpoint max_retries n attempts = replicate (length attempts) 60%Z.
Proof.
  revert n. induction attempts as [|a l IH]; intros n H; [reflexivity|].
  simpl. destruct (H 0%nat) as [b Hb]; [simpl; lia|].
  rewrite Nat.add_0_r in Hb. rewrite Hb. simpl. f_equal.
  apply IH. intros i Hi. replace (S n + i)%nat with (n + S i)%nat by lia.
  apply H. simpl. lia.
Qed.

Lemma length_attempts a k : length (map Z.of_nat (seq a k)) = k.
Proof. rewrite length_map, length_seq. reflexivity. Qed.

(** [k] transient attempts, then a valid envelope, within the budget. *)
Lemma api_get_valid_after w (k : nat) status d results :
  (Z.of_nat k < max_retries)%Z ->
  (forall i, (i < k)%nat ->
     transient (http E (length (requests w) + i) endpoint) = true) ->
  http E (length (requests w) + k) endpoint = GetResponse status (Ok d) ->
  status_ok status -> valid_payload d results ->
  api_get E endpoint max_retries w =
  (Ok (VList results),
   after_attempts endpoint (S k)
     (pauses E endpoint max_retries (length (requests w))
        (map Z.of_nat (seq 0 k))) w).
Proof.
  intros Hk Ht Hhttp Hst Hvalid. unfold api_get.
  rewrite (range_split max_retries k) by lia.
  rewrite api_get_loop_prefix by (rewrite length_attempts; exact Ht).
  rewrite length_attempts.
  destruct (Z.to_nat max_retries - k)%nat as [|m] eqn:Hm; [lia|].
  cbn [seq map].
  erewrite api_get_loop_valid; [|simpl; rewrite length_app, length_replicate; exact Hhttp|exact Hst|exact Hvalid].
  rewrite with_request_after, after_attempts_after_attempts, app_nil_r.
  replace (k + 1)%nat with (S k) by lia. reflexivity.
Qed.

(** [k] transient attempts, then a failed envelope, within the budget. *)
Lemma api_get_failed_after w (k : nat) status d :
  (Z.of_nat k < max_retries)%Z ->
  (forall i, (i < k)%nat ->
     transient (http E (length (requests w) + i) endpoint) = true) ->
  http E (length (requests w) + k) endpoint = GetResponse status (Ok d) ->
  status_ok status -> failed_payload d ->
  api_get E endpoint max_retries w =
  (Ok VNone,
   after_attempts endpoint (S k)
     (pauses E endpoint max_retries (length (requests w))
        (map Z.of_nat (seq 0 k))) w).
Proof.
  intros Hk Ht Hhttp Hst Hbad. unfold api_get.
  rewrite (range_split max_retries k) by lia.
  rewrite api_get_loop_prefix by (rewrite length_attempts; exact Ht).
  rewrite length_attempts.
  destruct (Z.to_nat max_retries - k)%nat as [|m] eqn:Hm; [lia|].
  cbn [seq map].
  erewrite api_get_loop_failed; [|simpl; rewrite length_app, length_replicate; exact Hhttp|exact Hst|exact Hbad].
  rewrite with_request_after, after_attempts_after_attempts, app_nil_r.
  replace (k + 1)%nat with (S k) by lia. reflexivity.
Qed.

(** Every attempt of the budget transient: the call returns [None]. *)
Lemma api_get_exhausted w :
  (forall i, (i < Z.to_nat max_retries)%nat ->
     transient (http E (length (requests w) + i) endpoint) = true) ->
  api_get E endpoint max_retries w =
  (Ok VNone,
   after_attempts endpoint (Z.to_nat max_retries)
     (pauses E endpoint max_retries (length (requests w))
        (range max_retries)) w).
Proof.
  intros Ht. unfold api_get.
  rewrite <- (app_nil_r (range max_retries)) at 1.
  rewrite api_get_loop_prefix.
  - unfold range at 1. rewrite length_attempts. reflexivity.
  - unfold range. rewrite length_attempts. exact Ht.
Qed.

End FetcherRuns.

(** The handlers of [api_get] raise nothing, so neither does the loop. *)
Lemma api_get_except_returns max_retries attempt e w :
  exists r, fst (api_get_except max_retries attempt e w) = Ok r.
Proof.
  unfold api_get_except, bindM, sleep, ret.
  destruct (is_Timeout e), (is_RequestException e),
    (attempt <? max_retries - 1)%Z; simpl; eauto.
Qed.

Lemma api_get_loop_returns E endpoint max_retries attempts w :
  exists v, fst (api_get_loop E endpoint max_retries attempts w) = Ok v.
Proof.
  revert w. induction attempts as [|a rest IH]; intros w; [simpl; eauto|].
  cbn [api_get_loop].
  destruct (api_get_try E endpoint w) as [[[|v]|e] u]; [apply IH|simpl; eauto|].
  destruct (api_get_except_returns max_retries a e u) as [r Hr].
  destruct (api_get_except max_retries a e u) as [[[v|]|e'] u'];
    simpl in Hr; [simpl; eauto|apply IH|discriminate].
Qed.

(** C3. With a budget of 3, the answers 429, 429, valid envelope make
    [api_get] return the results of the envelope.  Each 429 takes one attempt
    of the budget: after [k] of them a valid envelope is still returned when
    [k] is below the budget, and when the whole budget is answered by 429 the
    call returns [None] after exactly that many requests.  Whenever every
    attempt of the budget is rate limited or fails with a timeout or another
    request error, the call returns [None] and raises nothing.  In no case
    does the call raise. *)
Theorem api_get_attempt_budget (E : Env) (endpoint : string) (w : World) :
  (forall b1 b2 status d results,
     http E (length (requests w)) endpoint = GetResponse 429 b1 ->
     http E (length (requests w) + 1) endpoint = GetResponse 429 b2 ->
     http E (length (requests w) + 2) endpoint = GetResponse status (Ok d) ->
     status_ok status -> valid_payload d results ->
     api_get E endpoint 3 w =
     (Ok (VList results), after_attempts endpoint 3 [60; 60]%Z w))
  /\
  (forall max_retries (k : nat) status d results,
     (forall i, (i < k)%nat ->
        exists b, http E (length (requests w) + i) endpoint = GetResponse 429 b) ->
     http E (length (requests w) + k) endpoint = GetResponse status (Ok d) ->
     status_ok status -> valid_payload d results ->
     (Z.of_nat k < max_retries)%Z ->
     api_get E endpoint max_retries w =
     (Ok (VList results), after_attempts endpoint (S k) (replicate k 60%Z) w))
  /\
  (forall max_retries,
     (forall i, (i < Z.to_nat max_retries)%nat ->
        exists b, http E (length (requests w) + i) endpoint = GetResponse 429 b) ->
     api_get E endpoint max_retries w =
     (Ok VNone,
      after_attempts endpoint (Z.to_nat max_retries)
        (replicate (Z.to_nat max_retries) 60%Z) w))
  /\
  (forall max_retries,
     (forall i, (i < Z.to_nat max_retries)%nat ->
        transient (http E (length (requests w) + i) endpoint) = true) ->
     api_get E endpoint max_retries w =
     (Ok VNone,
      after_attempts endpoint (Z.to_nat max_retries)
        (pauses E endpoint max_retries (length (requests w))
           (range max_retries)) w))
  /\
  (forall max_retries,
     exists v, fst (api_get E endpoint max_retries w) = Ok v).
Proof.
  assert (Hk : forall max_retries (k : nat) status d results,
     (forall i, (i < k)%nat ->
        exists b, http E (length (requests w) + i) endpoint = GetResponse 429 b) ->
     http E (length (requests w) + k) endpoint = GetResponse status (Ok d) ->
     status_ok status -> valid_payload d results ->
     (Z.of_nat k < max_retries)%Z ->
     api_get E endpoint max_retries w =
     (Ok (VList results), after_attempts endpoint (S k) (replicate k 60%Z) w)).
  { intros max_retries k status d results H429 Hhttp Hst Hvalid Hlt.
    rewrite (api_get_valid_after E endpoint max_retries w k status d results);
      try assumption.
    - rewrite pauses_rate_limited; rewrite length_attempts; [reflexivity|].
      exact H429.
    - intros i Hi. destruct (H429 i Hi) as [b ->]. reflexivity. }
  split; [|split; [exact Hk|split; [|split]]].
  - intros b1 b2 status d results H0 H1 H2 Hst Hvalid.
    apply (Hk 3%Z 2%nat status d results); try assumption; [|lia].
    intros [|[|i]] Hi; [rewrite Nat.add_0_r; eauto | eauto | lia].
  - intros max_retries H429. rewrite api_get_exhausted.
    + rewrite pauses_rate_limited; unfold range; rewrite length_attempts;
        [reflexivity | exact H429].
    + intros i Hi. destruct (H429 i Hi) as [b ->]. reflexivity.
  - intros max_retries Ht. apply api_get_exhausted. exact Ht.
  - intros max_retries. apply api_get_loop_returns.
Qed.

Ltac break_match_hyp H :=
  repeat match type of H with
         | context [match ?x with _ => _ end] => destruct x eqn:?
         | context [if ?b then _ else _] => destruct b eqn:?
         end.

Ltac break_all :=
  repeat (cbv beta in *;
          match goal with
          | H : context [if ?b then _ else _] |- _ => destruct b eqn:?
          | H : context [match ?x with _ => _ end] |- _ => destruct x eqn:?
          | H : (_, _) = (_, _) |- _ => injection H as ? ?; subst
          end).

(** Whatever one pass through the [try] block meets, it makes one request
    and, at most, sleeps the rate-limit cooldown. *)
Lemma api_get_try_frame E endpoint w r u :
  api_get_try E endpoint w = (r, u) ->
  exists sl, u = after_attempts endpoint 1 sl w.
Proof.
  unfold api_get_try, bindM, requests_get, raise_for_status, liftE, ret,
    raise, sleep.
  intros H.
  destruct (http E (length (requests w)) endpoint) as [e|status body].
  - injection H as <- <-. exists []. apply with_request_after.
  - cbn [fst snd] in H. destruct (status =? 429)%Z.
    + injection H as <- <-. exists [60%Z]. reflexivity.
    + exists []. rewrite <- with_request_after.
      destruct ((400 <=? status)%Z && (status <? 600)%Z); [congruence|].
      break_all; try congruence; reflexivity.
Qed.

Lemma api_get_except_frame max_retries attempt e w r u :
  api_get_except max_retries attempt e w = (r, u) ->
  exists sl, u = after_attempts "" 0 sl w.
Proof.
  unfold api_get_except, bindM, sleep, ret. intros H.
  break_match_hyp H; injection H as <- <-;
    solve [ exists []; symmetry; apply after_attempts_0
          | eexists [_]; unfold after_attempts, with_sleep; simpl;
            rewrite app_nil_r; reflexivity ].
Qed.

Lemma after_attempts_mixed endpoint k sl1 sl2 w :
  after_attempts "" 0 sl2 (after_attempts endpoint k sl1 w)
  = after_attempts endpoint k (sl1 ++ sl2) w.
Proof.
  unfold after_attempts. simpl. rewrite app_nil_r, <- app_assoc. reflexivity.
Qed.

(** The loop only adds requests to its endpoint and sleeps. *)
Lemma api_get_loop_frame E endpoint max_retries attempts w :
  exists k sl,
    snd (api_get_loop E endpoint max_retries attempts w)
    = after_attempts endpoint k sl w.
Proof.
  revert w. induction attempts as [|a rest IH]; intros w.
  - exists 0%nat, []. simpl. symmetry. apply after_attempts_0.
  - cbn [api_get_loop].
    destruct (api_get_try E endpoint w) as [r u] eqn:Htry.
    destruct (api_get_try_frame _ _ _ _ _ Htry) as [sl ->].
    destruct r as [[|v]|e].
    + destruct (IH (after_attempts endpoint 1 sl w)) as (k & sl' & ->).
      rewrite after_attempts_after_attempts. eauto.
    + simpl. eauto.
    + destruct (api_get_except max_retries a e _) as [r' u'] eqn:Hex.
      destruct (api_get_except_frame _ _ _ _ _ _ Hex) as [sl2 ->].
      rewrite after_attempts_mixed.
      destruct r' as [[v|]|e'].
      * simpl. eauto.
      * destruct (IH (after_attempts endpoint 1 (sl ++ sl2) w)) as (k & sl' & ->).
        rewrite after_attempts_after_attempts. eauto.
      * simpl. eauto.
Qed.

(** C4, as the code has it.  A rate-limited attempt is followed by a pause of
    60 seconds.  A timeout or a transport failure at loop index [attempt] is
    followed by a pause of 2^attempt seconds when another attempt remains,
    and the index counts every earlier attempt, the rate-limited ones
    included: after a 429 and then a timeout the pause is 2^1 = 2 seconds. *)
Theorem api_get_backoff_schedule (E : Env) (endpoint : string)
    (max_retries : Z) (w : World) :
  (forall k : nat,
     (Z.of_nat k <= max_retries)%Z ->
     (forall i, (i < k)%nat ->
        transient (http E (length (requests w) + i) endpoint) = true) ->
     exists sl,
       slept (snd (api_get E endpoint max_retries w))
       = slept w
         ++ pauses E endpoint max_retries (length (requests w))
              (map Z.of_nat (seq 0 k))
         ++ sl)
  /\
  (forall b e,
     (2 < max_retries)%Z ->
     http E (length (requests w)) endpoint = GetResponse 429 b ->
     http E (length (requests w) + 1) endpoint = GetRaises e ->
     is_RequestException e = true ->
     exists sl,
       slept (snd (api_get E endpoint max_retries w))
       = slept w ++ [60; 2]%Z ++ sl).
Proof.
  assert (Hgen : forall k : nat,
     (Z.of_nat k <= max_retries)%Z ->
     (forall i, (i < k)%nat ->
        transient (http E (length (requests w) + i) endpoint) = true) ->
     exists sl,
       slept (snd (api_get E endpoint max_retries w))
       = slept w
         ++ pauses E endpoint max_retries (length (requests w))
              (map Z.of_nat (seq 0 k))
         ++ sl).
  { intros k Hk Ht. unfold api_get.
    rewrite (range_split max_retries k) by lia.
    rewrite api_get_loop_prefix by (rewrite length_attempts; exact Ht).
    rewrite length_attempts.
    match goal with
    | |- context [api_get_loop E endpoint max_retries ?l ?u] =>
        destruct (api_get_loop_frame E endpoint max_retries l u)
          as (k' & sl & ->)
    end.
    exists sl. simpl. rewrite <- app_assoc. reflexivity. }
  split; [exact Hgen|].
  intros b e Hmax H0 H1 He.
  destruct (Hgen 2%nat) as [sl Hsl]; [lia| |].
  - intros [|[|i]] Hi; [| |lia].
    + rewrite Nat.add_0_r, H0. reflexivity.
    + rewrite H1. exact He.
  - exists sl. rewrite Hsl. simpl. rewrite H0.
    replace (S (length (requests w))) with (length (requests w) + 1)%nat by lia.
    rewrite H1. simpl. unfold backoff.
    replace (Z.of_nat 1 <? max_retries - 1)%Z with true
      by (symmetry; apply Z.ltb_lt; lia).
    reflexivity.
Qed.

(** C5. When an attempt gets a response that deserialises to an envelope
    without a "response" field, or with a non-empty "errors" field, the call
    returns [None] at once: the requests made are those of the transient
    attempts before it and this one, however large the budget is. *)
Theorem api_get_failed_payload_returns_at_once (E : Env) (endpoint : string)
    (max_retries : Z) (w : World) (k : nat) (status : Z) (d : value) :
  (Z.of_nat k < max_retries)%Z ->
  (forall i, (i < k)%nat ->
     transient (http E (length (requests w) + i) endpoint) = true) ->
  http E (length (requests w) + k) endpoint = GetResponse status (Ok d) ->
  status_ok status ->
  failed_payload d ->
  api_get E endpoint max_retries w =
  (Ok VNone,
   after_attempts endpoint (S k)
     (pauses E endpoint max_retries (length (requests w))
        (map Z.of_nat (seq 0 k))) w).
Proof. apply api_get_failed_after. Qed.

Lemma api_get_attempt_budget_witness :
  api_get scenario_d "/standings" 3 init_world =
  (Ok (VList sample_results),
   after_attempts "/standings" 3 [60; 60]%Z init_world)
  /\
  api_get all_transient "/standings" 3 init_world =
  (Ok VNone,
   after_attempts "/standings" 3
     (pauses all_transient "/standings" 3 0 (range 3)) init_world).
Proof.
  split.
  - apply (proj1 (api_get_attempt_budget scenario_d "/standings" init_world)
             (Raise JSONDecodeError) (Raise JSONDecodeError) 200%Z
             sample_envelope sample_results); try reflexivity.
    + split; lia.
    + eexists. split; [reflexivity|]. split; [reflexivity|].
      right. exists (VList []). split; reflexivity.
  - apply (proj1 (proj2 (proj2 (proj2
             (api_get_attempt_budget all_transient "/standings" init_world))))
             3%Z).
    intros [|[|[|i]]] Hi; try reflexivity. simpl in Hi. lia.
Defined.

(** C4 as worded fails: the exponent is the loop index, which the 429 has
    already advanced, so the timeout that follows a 429 is followed by a
    pause of 2 seconds and not of 2^0 = 1 second. *)
Lemma backoff_counts_rate_limited_attempt :
  slept (snd (api_get rate_limit_then_timeout "/standings" 3 init_world))
  = [60; 2]%Z
  /\
  slept (snd (api_get rate_limit_then_timeout "/standings" 3 init_world))
  <> [60; 2 ^ 0]%Z.
Proof.
  split; [reflexivity|]. vm_compute. discriminate.
Qed.

Lemma api_get_backoff_schedule_witness :
  exists sl,
    slept (snd (api_get rate_limit_then_timeout "/standings" 3 init_world))
    = slept init_world ++ [60; 2]%Z ++ sl.
Proof.
  apply (proj2 (api_get_backoff_schedule rate_limit_then_timeout "/standings"
                  3%Z init_world) (Raise JSONDecodeError) Timeout).
  - lia.
  - reflexivity.
  - reflexivity.
  - reflexivity.
Defined.

Lemma api_get_failed_payload_returns_at_once_witness :
  api_get timeout_then_no_response "/standings" 3 init_world =
  (Ok VNone, after_attempts "/standings" 2 [1%Z] init_world)
  /\
  api_get errors_first "/standings" 3 init_world =
  (Ok VNone, after_attempts "/standings" 1 [] init_world).
Proof.
  split.
  - apply (api_get_failed_payload_returns_at_once timeout_then_no_response
             "/standings" 3%Z init_world 1 200%Z envelope_without_response).
    + lia.
    + intros [|i] Hi; [reflexivity|lia].
    + reflexivity.
    + split; lia.
    + left. reflexivity.
  - apply (api_get_failed_payload_returns_at_once errors_first
             "/standings" 3%Z init_world 0 200%Z envelope_with_errors).
    + lia.
    + intros i Hi. lia.
    + reflexivity.
    + split; lia.
    + right. eexists. split; reflexivity.
Defined.

(** ** Parsers *)

Section Collect.

Context (entry : value -> exc (option record)) (caught : exn -> bool).

Lemma collect_passes items rows :
  Forall (passes entry caught) items ->
  collect entry caught items rows = Ok (rows ++ kept_records entry items).
Proof.
  intros H. revert rows. induction H as [|x items Hx _ IH]; intros rows.
  - simpl. rewrite app_nil_r. reflexivity.
  - unfold kept_records in *. simpl.
    destruct (entry x) as [[r|]|e] eqn:Hex.
    + rewrite IH, <- app_assoc. reflexivity.
    + apply IH.
    + rewrite (Hx e Hex). apply IH.
Qed.

Lemma collect_returns items rows rs :
  collect entry caught items rows = Ok rs ->
  rs = rows ++ kept_records entry items.
Proof.
  revert rows. induction items as [|x items IH]; intros rows H.
  - simpl in *. rewrite app_nil_r. congruence.
  - unfold kept_records in *. simpl in *.
    destruct (entry x) as [[r|]|e].
    + rewrite (IH _ H), <- app_assoc. reflexivity.
    + apply IH, H.
    + destruct (caught e); [apply IH, H | discriminate].
Qed.

Lemma collect_skip xs x ys rows :
  skipped entry caught x ->
  collect entry caught (xs ++ x :: ys) rows
  = collect entry caught (xs ++ ys) rows.
Proof.
  intros Hx. revert rows. induction xs as [|y xs IH]; intros rows.
  - simpl. destruct Hx as [-> | (e & -> & ->)]; reflexivity.
  - simpl. destruct (entry y) as [[r|]|e]; [apply IH | apply IH|].
    destruct (caught e); [apply IH | reflexivity].
Qed.

Lemma collect_abort xs x ys rows e :
  Forall (passes entry caught) xs ->
  entry x = Raise e -> caught e = false ->
  collect entry caught (xs ++ x :: ys) rows = Raise e.
Proof.
  intros Hxs Hx He. revert rows. induction Hxs as [|y xs Hy _ IH]; intros rows.
  - simpl. rewrite Hx, He. reflexivity.
  - simpl. destruct (entry y) as [[r|]|e'] eqn:Hey; [apply IH | apply IH|].
    rewrite (Hy e' Hey). apply IH.
Qed.

Lemma kept_records_skip xs x ys :
  skipped entry caught x ->
  kept_records entry (xs ++ x :: ys) = kept_records entry (xs ++ ys).
Proof.
  intros Hx. unfold kept_records. rewrite !omap_app. f_equal. simpl.
  destruct Hx as [-> | (e & -> & _)]; reflexivity.
Qed.

Lemma kept_records_In r items :
  In r (kept_records entry items) <->
  exists x, In x items /\ entry x = Ok (Some r).
Proof.
  unfold kept_records. rewrite <- list_elem_of_In, list_elem_of_omap.
  split.
  - intros (x & Hx & Hr). exists x. rewrite <- list_elem_of_In. split; [assumption|].
    destruct (entry x) as [[r'|]|e]; congruence.
  - intros (x & Hx & Hr). exists x. rewrite list_elem_of_In, Hr. auto.
Qed.

End Collect.

Lemma players_of_response_list metric label what (items : list value) :
  items <> [] ->
  players_of_response metric label what (VList items) =
  let* rows := collect (player_record metric label)
                       is_KeyError_or_IndexError items [] in
  match rows with
  | [] => Raise (ValueError ("No valid " ++ what ++ " data parsed"))
  | _ :: _ => Ok (frame_of_records rows)
  end.
Proof.
  intros Hne. unfold players_of_response. destruct items; [congruence|].
  reflexivity.
Qed.

Lemma standings_of_response_table data table :
  standings_table_of data table -> table <> [] ->
  standings_of_response data =
  let* rows := collect standings_entry is_KeyError table [] in
  match rows with
  | [] => Raise (ValueError "No valid team data parsed")
  | _ :: _ => Ok (frame_of_records rows)
  end.
Proof.
  intros (kv0 & rest & kvl & more & -> & Hl & Hs) Hne.
  unfold standings_of_response. simpl. rewrite Hl. simpl. rewrite Hs. simpl.
  destruct table; [congruence|]. reflexivity.
Qed.

Lemma parse_loop_skip entry caught msg xs x ys :
  skipped entry caught x ->
  parse_loop entry caught msg (xs ++ x :: ys)
  = parse_loop entry caught msg (xs ++ ys).
Proof. intros H. unfold parse_loop. rewrite collect_skip by exact H. reflexivity. Qed.

Lemma parse_loop_no_rows entry caught msg items :
  Forall (passes entry caught) items ->
  kept_records entry items = [] ->
  parse_loop entry caught msg items = Raise (ValueError msg).
Proof.
  intros Hp Hk. unfold parse_loop. rewrite collect_passes by exact Hp.
  rewrite Hk. reflexivity.
Qed.

Lemma parse_loop_some_row entry caught msg items x r :
  Forall (passes entry caught) items ->
  In x items -> entry x = Ok (Some r) ->
  parse_loop entry caught msg items
  = Ok (frame_of_records (kept_records entry items)) /\
  rows (frame_of_records (kept_records entry items)) <> [].
Proof.
  intros Hp Hin Hx. unfold parse_loop. rewrite collect_passes by exact Hp.
  assert (Hr : In r (kept_records entry items)).
  { apply kept_records_In. eauto. }
  simpl. destruct (kept_records entry items) as [|r0 rs] eqn:Hk; [destruct Hr|].
  split; [reflexivity|]. discriminate.
Qed.

Lemma parse_loop_raises_iff entry caught msg items :
  Forall (passes entry caught) items ->
  (exists e, parse_loop entry caught msg items = Raise e) <->
  kept_records entry items = [].
Proof.
  intros Hp. unfold parse_loop. rewrite collect_passes by exact Hp. simpl.
  destruct (kept_records entry items); split; eauto; try congruence.
  intros [e He]. discriminate.
Qed.

Lemma parse_loop_abort entry caught msg xs x ys e :
  Forall (passes entry caught) xs ->
  entry x = Raise e -> caught e = false ->
  parse_loop entry caught msg (xs ++ x :: ys) = Raise e.
Proof.
  intros Hxs Hx He. unfold parse_loop.
  rewrite (collect_abort entry caught xs x ys [] e Hxs Hx He). reflexivity.
Qed.

Lemma players_of_response_loop metric label what items :
  items <> [] ->
  players_of_response metric label what (VList items)
  = parse_loop (player_record metric label) is_KeyError_or_IndexError
      ("No valid " ++ what ++ " data parsed") items.
Proof. apply players_of_response_list. Qed.

Lemma standings_of_response_loop data table :
  standings_table_of data table -> table <> [] ->
  standings_of_response data
  = parse_loop standings_entry is_KeyError "No valid team data parsed" table.
Proof. apply standings_of_response_table. Qed.

(** A getter is [api_get], then the parse of what it returned, then a new
    frame for the table. *)
Lemma getter_outcome E endpoint (parse : value -> exc DataFrame) w data w1 :
  api_get E endpoint 3 w = (Ok data, w1) ->
  (forall e, parse data = Raise e ->
     (let! data := api_get E endpoint 3 in
      let! df := liftE (parse data) in
      alloc df) w = (Raise e, w1))
  /\
  (forall df, parse data = Ok df ->
     exists l w2,
       (let! data := api_get E endpoint 3 in
        let! df := liftE (parse data) in
        alloc df) w = (Ok l, w2) /\
       heap w2 !! l = Some df).
Proof.
  intros Hget. unfold bindM, liftE, alloc. rewrite Hget. split.
  - intros e ->. reflexivity.
  - intros df ->. eexists _, _. split; [reflexivity|]. cbn [heap].
    apply lookup_insert_eq.
Qed.

(** C6, as the code has it.  In each parser an entry whose extraction raises
    a missing-key error ([KeyError]; also [IndexError] in the scorer and
    assist parsers), or whose metric is null, is passed over, and the parse
    of the other entries is what it is without that entry.  When no entry
    raises anything else, the parser raises [ValueError] exactly when no
    row is left, and with one well-formed entry it returns the table of the
    rows kept, which is not empty.  An entry that raises another exception
    stops the parse with that exception.  Without data, without the
    league and standings structure or with an empty group the parser raises
    [ValueError].  Each of [get_standings], [get_top_scorers] and
    [get_top_assists] raises what this parse of the result of [api_get]
    raises, and returns a new frame holding the table it returns. *)
Theorem parsers_skip_or_fail (metric label what : string) :
  (forall xs x ys,
     xs ++ ys <> [] ->
     skipped (player_record metric label) is_KeyError_or_IndexError x ->
     players_of_response metric label what (VList (xs ++ x :: ys))
     = players_of_response metric label what (VList (xs ++ ys)))
  /\
  (forall items,
     items <> [] ->
     Forall (passes (player_record metric label) is_KeyError_or_IndexError)
            items ->
     ((exists e, players_of_response metric label what (VList items) = Raise e)
      <-> kept_records (player_record metric label) items = [])
     /\
     (kept_records (player_record metric label) items = [] ->
      players_of_response metric label what (VList items)
      = Raise (ValueError ("No valid " ++ what ++ " data parsed")))
     /\
     (forall x r,
        In x items -> player_record metric label x = Ok (Some r) ->
        players_of_response metric label what (VList items)
        = Ok (frame_of_records
                (kept_records (player_record metric label) items)) /\
        rows (frame_of_records
                (kept_records (player_record metric label) items)) <> []))
  /\
  (forall xs x ys e,
     Forall (passes (player_record metric label) is_KeyError_or_IndexError) xs ->
     player_record metric label x = Raise e ->
     is_KeyError_or_IndexError e = false ->
     players_of_response metric label what (VList (xs ++ x :: ys)) = Raise e)
  /\
  (forall data xs x ys,
     standings_table_of data (xs ++ x :: ys) ->
     xs ++ ys <> [] ->
     skipped standings_entry is_KeyError x ->
     standings_of_response data
     = parse_loop standings_entry is_KeyError "No valid team data parsed"
         (xs ++ ys))
  /\
  (forall data table,
     standings_table_of data table ->
     table <> [] ->
     Forall (passes standings_entry is_KeyError) table ->
     ((exists e, standings_of_response data = Raise e)
      <-> kept_records standings_entry table = [])
     /\
     (kept_records standings_entry table = [] ->
      standings_of_response data
      = Raise (ValueError "No valid team data parsed"))
     /\
     (forall x r,
        In x table -> standings_entry x = Ok (Some r) ->
        standings_of_response data
        = Ok (frame_of_records (kept_records standings_entry table)) /\
        rows (frame_of_records (kept_records standings_entry table)) <> []))
  /\
  (forall data xs x ys e,
     standings_table_of data (xs ++ x :: ys) ->
     Forall (passes standings_entry is_KeyError) xs ->
     standings_entry x = Raise e ->
     is_KeyError e = false ->
     standings_of_response data = Raise e)
  /\
  (forall data,
     truthy data = false ->
     (exists msg, players_of_response metric label what data
                  = Raise (ValueError msg)) /\
     (exists msg, standings_of_response data = Raise (ValueError msg)))
  /\
  (forall data,
     standings_table_of data [] ->
     exists msg, standings_of_response data = Raise (ValueError msg))
  /\
  (forall kv0 rest,
     assoc "league" kv0 = None ->
     exists msg, standings_of_response (VList (VDict kv0 :: rest))
                 = Raise (ValueError msg))
  /\
  (forall E w data w1,
     api_get E "/standings" 3 w = (Ok data, w1) ->
     (forall e, standings_of_response data = Raise e ->
                get_standings E w = (Raise e, w1)) /\
     (forall df, standings_of_response data = Ok df ->
                 exists l w2, get_standings E w = (Ok l, w2) /\
                              heap w2 !! l = Some df))
  /\
  (forall E w data w1,
     api_get E "/players/topscorers" 3 w = (Ok data, w1) ->
     (forall e,
        players_of_response "total" "goals" "top scorers" data = Raise e ->
        get_top_scorers E w = (Raise e, w1)) /\
     (forall df,
        players_of_response "total" "goals" "top scorers" data = Ok df ->
        exists l w2, get_top_scorers E w = (Ok l, w2) /\
                     heap w2 !! l = Some df))
  /\
  (forall E w data w1,
     api_get E "/players/topassists" 3 w = (Ok data, w1) ->
     (forall e,
        players_of_response "assists" "assists" "top assists" data = Raise e ->
        get_top_assists E w = (Raise e, w1)) /\
     (forall df,
        players_of_response "assists" "assists" "top assists" data = Ok df ->
        exists l w2, get_top_assists E w = (Ok l, w2) /\
                     heap w2 !! l = Some df)).
Proof.
  repeat match goal with |- _ /\ _ => split end.
  - intros xs x ys Hne Hx.
    rewrite !players_of_response_loop by (try assumption; destruct xs; discriminate).
    apply parse_loop_skip. exact Hx.
  - intros items Hne Hp. rewrite players_of_response_loop by exact Hne.
    split; [apply parse_loop_raises_iff; exact Hp|]. split.
    + apply parse_loop_no_rows. exact Hp.
    + intros x r. apply parse_loop_some_row. exact Hp.
  - intros xs x ys e Hxs Hx He.
    rewrite players_of_response_loop by (destruct xs; discriminate).
    apply (parse_loop_abort _ _ _ xs x ys e Hxs Hx He).
  - intros data xs x ys Hdata Hne Hx.
    rewrite (standings_of_response_loop data _ Hdata)
      by (destruct xs; discriminate).
    apply parse_loop_skip. exact Hx.
  - intros data table Hdata Hne Hp.
    rewrite (standings_of_response_loop data _ Hdata Hne).
    split; [apply parse_loop_raises_iff; exact Hp|]. split.
    + apply parse_loop_no_rows. exact Hp.
    + intros x r. apply parse_loop_some_row. exact Hp.
  - intros data xs x ys e Hdata Hxs Hx He.
    rewrite (standings_of_response_loop data _ Hdata)
      by (destruct xs; discriminate).
    apply (parse_loop_abort _ _ _ xs x ys e Hxs Hx He).
  - intros data Hd. split.
    + unfold players_of_response. rewrite Hd. simpl. eauto.
    + unfold standings_of_response. rewrite Hd. simpl. eauto.
  - intros data (kv0 & rest & kvl & more & -> & Hl & Hs).
    unfold standings_of_response. simpl. rewrite Hl. simpl. rewrite Hs.
    simpl. eauto.
  - intros kv0 rest Hl. unfold standings_of_response. simpl. rewrite Hl.
    simpl. eauto.
  - intros E w data w1. apply getter_outcome.
  - intros E w data w1. apply getter_outcome.
  - intros E w data w1. apply getter_outcome.
Qed.

Lemma parsers_skip_or_fail_witness :
  players_of_response "total" "goals" "top scorers"
    (VList [salah; null_goals; no_team_key; empty_statistics])
  = Ok (frame_of_records
          (kept_records (player_record "total" "goals")
             [salah; null_goals; no_team_key; empty_statistics]))
  /\
  rows (frame_of_records
          (kept_records (player_record "total" "goals")
             [salah; null_goals; no_team_key; empty_statistics])) <> [].
Proof.
  refine (proj2 (proj2
            (proj1 (proj2 (parsers_skip_or_fail "total" "goals" "top scorers"))
               [salah; null_goals; no_team_key; empty_statistics] _ _))
            salah _ _ _).
  - discriminate.
  - repeat constructor; intros e H; vm_compute in H;
      first [discriminate H | injection H as <-; reflexivity].
  - left. reflexivity.
  - reflexivity.
Defined.

(** C6 as worded fails: a record whose statistics are null raises
    [TypeError], which the inner [except (KeyError, IndexError)] does not
    catch; the parser raises although a well-formed record came before it. *)
Lemma null_statistics_stops_the_parse :
  (exists r, player_record "total" "goals" salah = Ok (Some r)) /\
  fst (get_top_scorers
         (scripted [GetResponse 200 (Ok (envelope [salah; null_statistics]))])
         init_world)
  = Raise TypeError.
Proof.
  split; [eexists; reflexivity|]. vm_compute. reflexivity.
Qed.

Lemma player_record_null_metric metric label p :
  metric_of metric p = Ok VNone -> player_record metric label p = Ok None.
Proof.
  unfold metric_of, player_record.
  destruct (subscript p "statistics") as [st|]; cbn [bindE]; [|discriminate].
  destruct (subscript0 st) as [s0|]; cbn [bindE]; [|discriminate].
  destruct (subscript s0 "goals") as [g|]; cbn [bindE]; [|discriminate].
  intros ->. reflexivity.
Qed.

Lemma match_not_None {A} (m : value) (x y : A) :
  m <> VNone -> match m with VNone => x | _ => y end = y.
Proof. destruct m; congruence. Qed.

Lemma player_record_row metric label p r :
  player_record metric label p = Ok (Some r) ->
  exists name team m a,
    r = [("player", name); ("team", team); (label, m);
         ("appearances", if truthy a then a else VInt 0)] /\
    metric_of metric p = Ok m /\ m <> VNone /\
    appearences_of p = Ok a.
Proof.
  unfold metric_of, appearences_of, player_record.
  destruct (subscript p "statistics") as [st|]; cbn [bindE]; [|discriminate].
  destruct (subscript0 st) as [s0|]; cbn [bindE]; [|discriminate].
  destruct (subscript s0 "goals") as [g|]; cbn [bindE]; [|discriminate].
  destruct (subscript g metric) as [m|] eqn:Hm; cbn [bindE]; [|discriminate].
  intros H.
  assert (Hnn : m <> VNone) by (intros ->; discriminate H).
  rewrite match_not_None in H by exact Hnn. revert H.
  destruct (subscript p "player") as [pl|]; cbn [bindE]; [|discriminate].
  destruct (subscript pl "name") as [name|]; cbn [bindE]; [|discriminate].
  destruct (subscript s0 "team") as [tm|]; cbn [bindE]; [|discriminate].
  destruct (subscript tm "name") as [tname|]; cbn [bindE]; [|discriminate].
  destruct (subscript s0 "games") as [gm|]; cbn [bindE]; [|discriminate].
  destruct (subscript gm "appearences") as [a|]; cbn [bindE]; [|discriminate].
  intros [= <-]. exists name, tname, m, a. auto.
Qed.

Lemma players_of_response_returns metric label what data df :
  players_of_response metric label what data = Ok df ->
  exists items,
    py_iter data = Ok items /\
    df = frame_of_records (kept_records (player_record metric label) items).
Proof.
  unfold players_of_response.
  destruct (negb (truthy data)); [discriminate|].
  destruct (py_iter data) as [items|]; cbn [bindE]; [|discriminate].
  destruct (collect _ _ items []) as [rs|] eqn:Hc; cbn [bindE]; [|discriminate].
  apply collect_returns in Hc. simpl in Hc. subst rs.
  destruct (kept_records _ items) eqn:Hk; [discriminate|].
  intros [= <-]. exists items. rewrite Hk. auto.
Qed.

Lemma getter_returns E endpoint (parse : value -> exc DataFrame) w l w2 :
  (let! data := api_get E endpoint 3 in
   let! df := liftE (parse data) in
   alloc df) w = (Ok l, w2) ->
  exists data w1 df,
    api_get E endpoint 3 w = (Ok data, w1) /\
    parse data = Ok df /\
    heap w2 !! l = Some df.
Proof.
  unfold bindM, liftE, alloc.
  destruct (api_get E endpoint 3 w) as [[data|e] w1]; [|discriminate].
  destruct (parse data) as [df|e] eqn:Hparse; [|discriminate].
  intros [= <- <-]. exists data, w1, df.
  split; [reflexivity|]. split; [exact Hparse|]. cbn [heap].
  apply lookup_insert_eq.
Qed.

(** C7. In the scorer parser ([metric] "total") and in the assist parser
    ([metric] "assists"): a record whose metric is null yields no row, and
    the table is the one parsed without that record; every row of the table
    comes from a record whose metric is not null and carries that metric;
    a row made from a record whose appearance count is null has
    appearances 0.  The frame [get_top_scorers] or [get_top_assists] returns
    is the table of this parse of the result of [api_get]. *)
Theorem null_metric_dropped_appearances_defaulted (metric label what : string) :
  (forall p,
     metric_of metric p = Ok VNone ->
     player_record metric label p = Ok None)
  /\
  (forall p r,
     player_record metric label p = Ok (Some r) ->
     (exists a,
        appearences_of p = Ok a /\
        nth 3 r ("", VNone)
        = ("appearances", if truthy a then a else VInt 0)) /\
     (appearences_of p = Ok VNone ->
      nth 3 r ("", VNone) = ("appearances", VInt 0)))
  /\
  (forall data df,
     players_of_response metric label what data = Ok df ->
     exists items,
       py_iter data = Ok items /\
       df = frame_of_records (kept_records (player_record metric label) items) /\
       (forall xs p ys,
          items = xs ++ p :: ys -> metric_of metric p = Ok VNone ->
          df = frame_of_records
                 (kept_records (player_record metric label) (xs ++ ys))) /\
       (forall r,
          In r (kept_records (player_record metric label) items) ->
          exists p m,
            In p items /\ metric_of metric p = Ok m /\ m <> VNone /\
            nth 2 r ("", VNone) = (label, m)))
  /\
  (forall E w l w2,
     get_top_scorers E w = (Ok l, w2) ->
     exists data w1 df,
       api_get E "/players/topscorers" 3 w = (Ok data, w1) /\
       players_of_response "total" "goals" "top scorers" data = Ok df /\
       heap w2 !! l = Some df)
  /\
  (forall E w l w2,
     get_top_assists E w = (Ok l, w2) ->
     exists data w1 df,
       api_get E "/players/topassists" 3 w = (Ok data, w1) /\
       players_of_response "assists" "assists" "top assists" data = Ok df /\
       heap w2 !! l = Some df).
Proof.
  split; [|split; [|split; [|split]]];
    [| | |intros E w l w2; apply getter_returns..].
  - apply player_record_null_metric.
  - intros p r Hr.
    destruct (player_record_row _ _ _ _ Hr) as (name & team & m & a & -> & _ & _ & Ha').
    split; [exists a; auto|].
    intros Ha. rewrite Ha in Ha'. injection Ha' as <-. reflexivity.
  - intros data df Hdf.
    destruct (players_of_response_returns _ _ _ _ _ Hdf) as (items & Hit & ->).
    exists items. split; [exact Hit|]. split; [reflexivity|]. split.
    + intros xs p ys -> Hp.
      rewrite (kept_records_skip _ is_KeyError_or_IndexError); [reflexivity|].
      left. apply player_record_null_metric. exact Hp.
    + intros r Hr. apply kept_records_In in Hr as (p & Hp & Hrec).
      destruct (player_record_row _ _ _ _ Hrec) as (name & team & m & a & -> & Hm & Hnn & _).
      exists p, m. auto.
Qed.

Lemma null_metric_dropped_appearances_defaulted_witness :
  player_record "total" "goals" null_goals = Ok None /\
  (exists r,
     player_record "total" "goals" null_appearences = Ok (Some r) /\
     nth 3 r ("", VNone) = ("appearances", VInt 0)) /\
  exists items,
    py_iter (VList [salah; null_goals; null_appearences]) = Ok items /\
    frame_of_records
      (kept_records (player_record "total" "goals")
         [salah; null_goals; null_appearences])
    = frame_of_records (kept_records (player_record "total" "goals") items).
Proof.
  pose proof (null_metric_dropped_appearances_defaulted
                "total" "goals" "top scorers") as (H1 & H2 & H3 & _).
  split; [|split].
  - apply H1. reflexivity.
  - eexists. split; [reflexivity|].
    apply (proj2 (H2 null_appearences _ eq_refl)). reflexivity.
  - destruct (H3 (VList [salah; null_goals; null_appearences]) _ eq_refl)
      as (items & Hit & Hdf & _).
    exists items. split; assumption.
Defined.

(** ** Exporter *)

Lemma overwrite_new_column E l table w df :
  heap w !! l = Some df ->
  has_column "exported_at" (columns df) = false ->
  overwrite E l table w =
  let df' := set_column df "exported_at"
               (replicate (len_df df) (now E (clock_reads w))) in
  match transaction E (transactions w) table df' with
  | Ok _ => (Ok true,
             exported w (S (clock_reads w)) (S (transactions w)) df'
                      (<[table := df']> (sink w)))
  | Raise _ => (Ok false,
                exported w (S (clock_reads w)) (S (transactions w)) df'
                         (sink w))
  end.
Proof.
  intros Hl Hcol.
  unfold overwrite, try_except, bindM, deref, copy, bindM, deref, alloc,
    datetime_now, setitem, bindM, deref, begin_drop_to_sql, bindM, deref, ret.
  rewrite Hl, Hcol. cbn [negb]. rewrite Hl.
  do 6 (rewrite ?lookup_insert_eq, ?insert_insert_eq;
        cbn [heap clock_reads transactions sink requests slept]).
  unfold exported.
  destruct (transaction E (transactions w) table _); reflexivity.
Qed.

Lemma overwrite_existing_column E l table w df col :
  heap w !! l = Some df ->
  getitem df "exported_at" = Ok (Column col) ->
  overwrite E l table w =
  match normalized E col with
  | Raise _ =>
      (Ok false, exported w (clock_reads w) (transactions w) df (sink w))
  | Ok col' =>
      let df' := set_column df "exported_at" col' in
      match transaction E (transactions w) table df' with
      | Ok _ => (Ok true,
                 exported w (clock_reads w) (S (transactions w)) df'
                          (<[table := df']> (sink w)))
      | Raise _ => (Ok false,
                    exported w (clock_reads w) (S (transactions w)) df'
                             (sink w))
      end
  end.
Proof.
  intros Hl Hcol.
  pose proof (getitem_has_column _ _ _ Hcol) as Hhas.
  unfold overwrite, normalize_to_datetime, try_except, bindM, deref, copy,
    bindM, deref, alloc, liftE, setitem, bindM, deref, begin_drop_to_sql,
    bindM, deref, ret, normalized, exported.
  rewrite Hl, Hhas. cbn [negb]. rewrite Hl.
  do 2 (rewrite ?lookup_insert_eq, ?insert_insert_eq, ?Hcol;
        cbn [heap clock_reads transactions sink requests slept
             is_datetime64tz_dtype_selection tz_convert_selection
             to_datetime_selection]).
  destruct (is_datetime64tz_dtype E col) as [[|]|e1];
    [destruct (mapE (tz_convert_utc_naive E) col) as [c1|e2] eqn:Htz| |];
    try (destruct (mapE (to_datetime E) col) as [c2|e3] eqn:Htd);
    do 6 (rewrite ?lookup_insert_eq, ?insert_insert_eq, ?Hcol, ?Htd;
          cbn [heap clock_reads transactions sink requests slept
               is_datetime64tz_dtype_selection tz_convert_selection
               to_datetime_selection]);
    try reflexivity;
    match goal with
    | |- context [transaction E ?n ?t ?d] => destruct (transaction E n t d)
    end; reflexivity.
Qed.

(** Under a repeated exported_at label the selection is a frame, both
    conversions raise, and nothing reaches the database. *)
Lemma overwrite_repeated_column E l table w df cs :
  heap w !! l = Some df ->
  getitem df "exported_at" = Ok (Columns cs) ->
  overwrite E l table w =
  (Ok false, exported w (clock_reads w) (transactions w) df (sink w)).
Proof.
  intros Hl Hcol.
  pose proof (getitem_has_column _ _ _ Hcol) as Hhas.
  unfold overwrite, normalize_to_datetime, try_except, bindM, deref, copy,
    bindM, deref, alloc, liftE, setitem, bindM, deref, begin_drop_to_sql,
    bindM, deref, ret, exported.
  rewrite Hl, Hhas. cbn [negb]. rewrite Hl.
  do 4 (rewrite ?lookup_insert_eq, ?insert_insert_eq, ?Hcol;
        cbn [heap clock_reads transactions sink requests slept
             is_datetime64tz_dtype_selection tz_convert_selection
             to_datetime_selection]).
  reflexivity.
Qed.

Lemma col_index_lt c cols i : col_index c cols = Some i -> (i < length cols)%nat.
Proof.
  revert i. induction cols as [|c' cols IH]; intros i; simpl; [discriminate|].
  destruct (String.eqb c c').
  - intros [= <-]. lia.
  - destruct (col_index c cols) as [j|]; simpl; [|discriminate].
    intros [= <-]. specialize (IH j eq_refl). lia.
Qed.

Lemma nth_resize (n i : nat) (r : list value) :
  (i < n)%nat -> nth i (resize n VNone r) VNone = nth i r VNone.
Proof.
  intros Hi. rewrite !nth_lookup.
  destruct (decide (i < length r)%nat) as [Hlt|Hge].
  - rewrite lookup_resize by assumption. reflexivity.
  - rewrite lookup_resize_new by lia.
    rewrite (lookup_ge_None_2 r i) by lia. reflexivity.
Qed.

Lemma nth_resize_app (n i : nat) (r more : list value) :
  (i < n)%nat -> nth i (resize n VNone r ++ more) VNone = nth i r VNone.
Proof.
  intros Hi. rewrite app_nth1 by (rewrite length_resize; exact Hi).
  apply nth_resize. exact Hi.
Qed.

Lemma nth_resize_snoc (n : nat) (r : list value) (v : value) :
  nth n (resize n VNone r ++ [v]) VNone = v.
Proof.
  rewrite app_nth2 by (rewrite length_resize; lia).
  rewrite length_resize, Nat.sub_diag. reflexivity.
Qed.

Lemma nth_insert_resize_eq (n i : nat) (r : list value) (v : value) :
  (i < n)%nat -> nth i (<[i := v]> (resize n VNone r)) VNone = v.
Proof.
  intros Hi. rewrite nth_lookup, list_lookup_insert_eq; [reflexivity|].
  rewrite length_resize. exact Hi.
Qed.

Lemma nth_insert_resize_ne (n i j : nat) (r : list value) (v : value) :
  (j < n)%nat -> i <> j ->
  nth j (<[i := v]> (resize n VNone r)) VNone = nth j r VNone.
Proof.
  intros Hj Hne. rewrite nth_lookup, list_lookup_insert_ne by exact Hne.
  rewrite <- nth_lookup. apply nth_resize. exact Hj.
Qed.

Lemma map_zip_with_fst {A B C} (f : A -> B -> A) (g : A -> C)
    (l : list A) (k : list B) :
  length k = length l ->
  (forall a b, g (f a b) = g a) ->
  map g (zip_with f l k) = map g l.
Proof.
  revert k. induction l as [|a l IH]; intros [|b k] Hlen Hg; simpl in *;
    try discriminate; [reflexivity|].
  rewrite Hg, IH by (auto; lia). reflexivity.
Qed.

Lemma map_zip_with_snd {A B} (f : A -> B -> A) (g : A -> B)
    (l : list A) (k : list B) :
  length k = length l ->
  (forall a b, g (f a b) = b) ->
  map g (zip_with f l k) = k.
Proof.
  revert k. induction l as [|a l IH]; intros [|b k] Hlen Hg; simpl in *;
    try discriminate; [reflexivity|].
  rewrite Hg, IH by (auto; lia). reflexivity.
Qed.

Lemma mapE_length {A B} (f : A -> exc B) (l : list A) (l' : list B) :
  mapE f l = Ok l' -> length l' = length l.
Proof.
  revert l'. induction l as [|a l IH]; intros l'; simpl.
  - intros [= <-]. reflexivity.
  - destruct (f a); simpl; [|discriminate].
    destruct (mapE f l) as [bs|]; simpl; [|discriminate].
    intros [= <-]. simpl. rewrite (IH bs eq_refl). reflexivity.
Qed.

Lemma getitem_length df c s :
  getitem df c = Ok (Column s) -> length s = len_df df.
Proof.
  intros H. destruct (getitem_Column _ _ _ H) as (i & _ & ->).
  apply length_map.
Qed.

Lemma col_indices_spec c cols i :
  In i (col_indices c cols) <-> cols !! i = Some c.
Proof.
  revert i. induction cols as [|c' cols IH]; intros i; simpl.
  - split; [intros []|discriminate].
  - assert (Hrest : In i (map S (col_indices c cols)) <->
                    exists j, i = S j /\ cols !! j = Some c).
    { rewrite in_map_iff. split.
      - intros (j & <- & Hj). exists j. split; [reflexivity|]. apply IH, Hj.
      - intros (j & -> & Hj). exists j. split; [reflexivity|]. apply IH, Hj. }
    destruct (String.eqb_spec c c') as [->|Hne].
    + simpl. rewrite Hrest. destruct i as [|i]; simpl.
      * split; [reflexivity|auto].
      * split.
        -- intros [H|(j & [= <-] & Hj)]; [discriminate|exact Hj].
        -- intros Hi. right. eauto.
    + rewrite Hrest. destruct i as [|i]; simpl.
      * split; [intros (j & H & _); discriminate|congruence].
      * split; [intros (j & [= <-] & Hj); exact Hj|eauto].
Qed.

Lemma col_indices_app c cols more :
  col_indices c (cols ++ more)
  = col_indices c cols ++ map (Nat.add (length cols)) (col_indices c more).
Proof.
  induction cols as [|c' cols IH]; simpl.
  - rewrite map_id. reflexivity.
  - rewrite IH, map_app, map_map.
    destruct (String.eqb c c'); reflexivity.
Qed.

(** Two frames select alike under a label when the label sits at the same
    positions and the cells there agree. *)
Lemma getitem_ext df1 df2 c :
  col_indices c (columns df1) = col_indices c (columns df2) ->
  (forall i, In i (col_indices c (columns df1)) ->
             column_at df1 i = column_at df2 i) ->
  getitem df1 c = getitem df2 c.
Proof.
  intros Hidx Hcells. unfold getitem. rewrite <- Hidx.
  destruct (col_indices c (columns df1)) as [|i [|j more]] eqn:Hc;
    [reflexivity| |].
  - rewrite (Hcells i) by (left; reflexivity). reflexivity.
  - do 2 f_equal. apply map_ext_in. exact Hcells.
Qed.

(** Assigning a column under a new label: the label comes last, the column
    reads back, every label that was there selects as before. *)
Lemma set_column_new df c s :
  has_column c (columns df) = false -> length s = len_df df ->
  columns (set_column df c s) = columns df ++ [c] /\
  len_df (set_column df c s) = len_df df /\
  getitem (set_column df c s) c = Ok (Column s) /\
  (forall c', has_column c' (columns df) = true ->
     getitem (set_column df c s) c' = getitem df c').
Proof.
  unfold has_column, set_column, len_df. intros Hc Hlen.
  destruct (col_index c (columns df)) eqn:Hidx; [discriminate|].
  assert (Hnone : col_indices c (columns df) = []).
  { rewrite col_index_head in Hidx.
    destruct (col_indices c (columns df)); [reflexivity|discriminate]. }
  rewrite Hnone.
  cbn [columns rows]. split; [reflexivity|]. split; [|split].
  - rewrite length_zip_with. lia.
  - unfold getitem, column_at. cbn [columns rows].
    rewrite col_indices_app, Hnone.
    simpl. rewrite String.eqb_refl. simpl. rewrite Nat.add_0_r.
    do 2 f_equal.
    apply map_zip_with_snd; [exact Hlen|]. intros r v. apply nth_resize_snoc.
  - intros c' Hc'.
    assert (Hne : String.eqb c' c = false).
    { destruct (String.eqb_spec c' c) as [->|]; [|reflexivity].
      rewrite Hidx in Hc'. discriminate. }
    apply getitem_ext; cbn [columns].
    + rewrite col_indices_app. simpl. rewrite Hne. simpl.
      apply app_nil_r.
    + intros i Hi. rewrite col_indices_app in Hi. simpl in Hi.
      rewrite Hne in Hi. simpl in Hi. rewrite app_nil_r in Hi.
      apply col_indices_spec, lookup_lt_Some in Hi.
      unfold column_at. cbn [rows].
      apply map_zip_with_fst; [exact Hlen|]. intros r v.
      apply nth_resize_app. exact Hi.
Qed.

(** Assigning a column under a label the frame has once: the labels stay,
    the column reads back, every other label selects as before. *)
Lemma set_column_existing df c s old :
  getitem df c = Ok (Column old) -> length s = len_df df ->
  columns (set_column df c s) = columns df /\
  len_df (set_column df c s) = len_df df /\
  getitem (set_column df c s) c = Ok (Column s) /\
  (forall c', c' <> c -> getitem (set_column df c s) c' = getitem df c').
Proof.
  intros Hc Hlen.
  assert (Hone : exists i, col_indices c (columns df) = [i]).
  { unfold getitem in Hc.
    destruct (col_indices c (columns df)) as [|i [|j more]];
      try discriminate. eauto. }
  destruct Hone as [i Hone].
  assert (Hidx : col_index c (columns df) = Some i).
  { rewrite col_index_head, Hone. reflexivity. }
  unfold set_column, len_df in *. rewrite Hone.
  cbn [columns rows fold_right]. split; [reflexivity|]. split; [|split].
  - rewrite length_zip_with. lia.
  - unfold getitem, column_at. cbn [columns rows]. rewrite Hone.
    do 2 f_equal.
    apply map_zip_with_snd; [exact Hlen|]. intros r v.
    apply nth_insert_resize_eq. eapply col_index_lt. exact Hidx.
  - intros c' Hne. apply getitem_ext; cbn [columns]; [reflexivity|].
    intros j Hj. apply col_indices_spec in Hj.
    unfold column_at. cbn [rows].
    apply map_zip_with_fst; [exact Hlen|]. intros r v.
    apply nth_insert_resize_ne.
    + eapply lookup_lt_Some. exact Hj.
    + intros <-.
      assert (Hi : columns df !! i = Some c).
      { apply col_indices_spec. rewrite Hone. left. reflexivity. }
      congruence.
Qed.

Lemma fresh_address_ne (w : World) (l : nat) (df : DataFrame) :
  heap w !! l = Some df -> fresh (dom (heap w)) <> l.
Proof.
  intros Hl Heq. apply (is_fresh (dom (heap w))). rewrite Heq.
  apply elem_of_dom. eauto.
Qed.

Lemma heap_exported w l df clock tx copy snk :
  heap w !! l = Some df ->
  heap (exported w clock tx copy snk) !! l = Some df.
Proof.
  intros Hl. unfold exported. cbn [heap].
  rewrite lookup_insert_ne by (eapply fresh_address_ne; exact Hl). exact Hl.
Qed.

(** C10, as the code has it.  [overwrite] leaves the frame it was given as it
    was: the timestamp column is written to a copy.  It always returns a
    boolean.  When it returns true, the table of the database holds: for a
    frame without an exported_at column, the columns of the frame as they
    were, followed by one exported_at column that carries the same reading
    of the clock in every row; for a frame that has the column, the same
    labels, the other columns as they were, and under exported_at the
    conversion of the input's column ([normalized]), cell by cell. *)
Theorem overwrite_leaves_input_alone (E : Env) (l : nat) (table : string)
    (w : World) (df : DataFrame) :
  heap w !! l = Some df ->
  heap (snd (overwrite E l table w)) !! l = Some df
  /\
  (exists b, fst (overwrite E l table w) = Ok b)
  /\
  (has_column "exported_at" (columns df) = false ->
   fst (overwrite E l table w) = Ok true ->
   exists df',
     sink (snd (overwrite E l table w)) !! table = Some df' /\
     columns df' = columns df ++ ["exported_at"] /\
     len_df df' = len_df df /\
     getitem df' "exported_at"
     = Ok (Column (replicate (len_df df) (now E (clock_reads w)))) /\
     (forall c, has_column c (columns df) = true ->
                getitem df' c = getitem df c))
  /\
  (forall col,
     getitem df "exported_at" = Ok (Column col) ->
     fst (overwrite E l table w) = Ok true ->
     exists df' col',
       sink (snd (overwrite E l table w)) !! table = Some df' /\
       normalized E col = Ok col' /\
       length col' = length col /\
       columns df' = columns df /\
       len_df df' = len_df df /\
       getitem df' "exported_at" = Ok (Column col') /\
       (forall c, c <> "exported_at" -> getitem df' c = getitem df c)).
Proof.
  intros Hl.
  destruct (getitem df "exported_at") as [[col|cs]|e] eqn:Hcol.
  - rewrite (overwrite_existing_column E l table w df col Hl Hcol).
    pose proof (getitem_has_column _ _ _ Hcol) as Hhas.
    destruct (normalized E col) as [col'|e] eqn:Hnorm.
    + assert (Hlen' : length col' = length col).
      { unfold normalized in Hnorm.
        destruct (is_datetime64tz_dtype E col) as [[|]|];
          [destruct (mapE (tz_convert_utc_naive E) col) eqn:Htz| |];
          try (injection Hnorm as <-);
          eauto using mapE_length. }
      assert (Hlen : length col' = len_df df).
      { rewrite Hlen'. apply (getitem_length _ _ _ Hcol). }
      destruct (set_column_existing df "exported_at" col' col Hcol Hlen)
        as (Hc & Hn & Hg & Hothers).
      cbn zeta.
      destruct (transaction E (transactions w) table _); cbn [fst snd].
      * split; [apply heap_exported; exact Hl|]. split; [eauto|].
        split; [congruence|].
        intros col0 Hcol0 _. unfold exported. cbn [sink].
        assert (col0 = col) as -> by congruence.
        rewrite lookup_insert_eq. eexists _, col'. repeat split; eauto.
      * split; [apply heap_exported; exact Hl|]. split; [eauto|].
        split; [congruence|]. intros col0 _ [=].
    + cbn [fst snd]. split; [apply heap_exported; exact Hl|]. split; [eauto|].
      split; [congruence|]. intros col0 _ [=].
  - rewrite (overwrite_repeated_column E l table w df cs Hl Hcol).
    pose proof (getitem_has_column _ _ _ Hcol) as Hhas.
    cbn [fst snd]. split; [apply heap_exported; exact Hl|]. split; [eauto|].
    split; [congruence|]. intros col0 _ [=].
  - assert (Hhas : has_column "exported_at" (columns df) = false).
    { rewrite has_column_getitem, Hcol. reflexivity. }
    rewrite (overwrite_new_column E l table w df Hl Hhas). cbn zeta.
    destruct (set_column_new df "exported_at"
                (replicate (len_df df) (now E (clock_reads w))) Hhas
                (length_replicate _ _))
      as (Hc & Hn & Hg & Hothers).
    destruct (transaction E (transactions w) table _); cbn [fst snd].
    + split; [apply heap_exported; exact Hl|]. split; [eauto|]. split.
      * intros _ _. unfold exported. cbn [sink]. rewrite lookup_insert_eq.
        eexists. repeat split; eauto.
      * intros col [=].
    + split; [apply heap_exported; exact Hl|]. split; [eauto|]. split.
      * intros _ [=].
      * intros col [=].
Qed.

Lemma overwrite_leaves_input_alone_witness :
  heap (snd (overwrite (scripted []) 0 "epl_standings"
               (world_with valid_standings_df))) !! 0%nat
  = Some valid_standings_df
  /\
  exists df',
    sink (snd (overwrite (scripted []) 0 "epl_standings"
                 (world_with valid_standings_df))) !! "epl_standings"
    = Some df' /\
    getitem df' "exported_at" = Ok (Column (replicate 3 (VTime 0))) /\
    getitem df' "points" = getitem valid_standings_df "points".
Proof.
  pose proof (overwrite_leaves_input_alone (scripted []) 0 "epl_standings"
                (world_with valid_standings_df) valid_standings_df eq_refl)
    as (Hframe & _ & Hnew & _).
  split; [exact Hframe|].
  destruct (Hnew eq_refl eq_refl) as (df' & Hsink & _ & _ & Hts & Hothers).
  exists df'. split; [exact Hsink|]. split; [exact Hts|].
  apply Hothers. reflexivity.
Defined.

(** C10 as worded fails in its last part: a frame that comes with an
    exported_at column keeps the values of that column, converted one by
    one, and they need not be the same in every row. *)
Lemma exported_at_not_uniform :
  fst (overwrite (scripted []) 0 "epl_standings" (world_with stale_df))
  = Ok true
  /\
  exists df',
    sink (snd (overwrite (scripted []) 0 "epl_standings"
                 (world_with stale_df))) !! "epl_standings"
    = Some df' /\
    getitem df' "exported_at"
    = Ok (Column [VTime 1717200000; VTime 1719800000]) /\
    VTime 1717200000 <> VTime 1719800000.
Proof.
  split; [vm_compute; reflexivity|].
  eexists. split; [vm_compute; reflexivity|].
  split; [reflexivity|discriminate].
Qed.

(** ** Orchestrator *)

(** One guarded block of [run_pipeline]. *)
Lemma guarded_block E (get : M nat) validate table (pipeline_success : bool) w :
  try_except
    (let! df := get in
     let! valid := validate_at validate df in
     if valid then
       let! written := overwrite E df table in
       if written then ret pipeline_success else ret false
     else ret false)
    (fun _ => ret false) w
  = (Ok (pipeline_success && fst (dataset E get validate table w)),
     snd (dataset E get validate table w)).
Proof.
  unfold try_except, bindM, dataset, ret.
  destruct (get w) as [[l|e] w1]; [|rewrite andb_false_r; reflexivity].
  destruct (validate_at validate l w1) as [[[|]|e] w2];
    [|rewrite andb_false_r; reflexivity..].
  destruct (overwrite E l table w2) as [[[|]|e] w3]; cbn [fst snd];
    rewrite ?andb_true_r, ?andb_false_r; reflexivity.
Qed.

Lemma run_pipeline_connected E w :
  connect E = Ok tt ->
  run_pipeline E w =
  (Ok (fst (standings_run E w) && fst (scorers_run E w)
       && fst (assists_run E w)),
   snd (assists_run E w)).
Proof.
  intros Hc. unfold run_pipeline.
  unfold try_except at 1. unfold bindM at 1.
  unfold create_db_engine, liftE. rewrite Hc.
  unfold bindM at 1. rewrite guarded_block.
  unfold bindM at 1. rewrite guarded_block.
  unfold bindM at 1. rewrite guarded_block.
  unfold ret, assists_run, scorers_run, standings_run. cbn [andb].
  reflexivity.
Qed.

Lemma run_pipeline_not_connected E w e :
  connect E = Raise e -> run_pipeline E w = (Ok false, w).
Proof.
  intros Hc. unfold run_pipeline.
  unfold try_except at 1. unfold bindM at 1.
  unfold create_db_engine, liftE. rewrite Hc. reflexivity.
Qed.

Lemma extends_refl w : extends w w.
Proof. exists []. rewrite app_nil_r. reflexivity. Qed.

Lemma extends_trans w1 w2 w3 : extends w1 w2 -> extends w2 w3 -> extends w1 w3.
Proof.
  intros [m1 H1] [m2 H2]. exists (m1 ++ m2). rewrite H2, H1, app_assoc.
  reflexivity.
Qed.

Lemma extends_In w w' x : extends w w' -> In x (requests w) -> In x (requests w').
Proof. intros [m ->] H. apply in_or_app. auto. Qed.

Lemma grows_ret {A} (a : A) : log_grows (ret a).
Proof. intros w. apply extends_refl. Qed.

Lemma grows_liftE {A} (c : exc A) : log_grows (liftE c).
Proof. intros w. apply extends_refl. Qed.

Lemma grows_bind {A B} (c : M A) (k : A -> M B) :
  log_grows c -> (forall a, log_grows (k a)) -> log_grows (bindM c k).
Proof.
  intros Hc Hk w. unfold bindM. specialize (Hc w).
  destruct (c w) as [[a|e] w1]; [|exact Hc].
  eapply extends_trans; [exact Hc|]. apply Hk.
Qed.

Lemma grows_try {A} (body : M A) (handler : exn -> M A) :
  log_grows body -> (forall e, log_grows (handler e)) ->
  log_grows (try_except body handler).
Proof.
  intros Hb Hh w. unfold try_except. specialize (Hb w).
  destruct (body w) as [[a|e] w1]; [exact Hb|].
  eapply extends_trans; [exact Hb|]. apply Hh.
Qed.

Lemma grows_if {A} (b : bool) (c1 c2 : M A) :
  log_grows c1 -> log_grows c2 -> log_grows (if b then c1 else c2).
Proof. destruct b; auto. Qed.

Lemma grows_deref l : log_grows (deref l).
Proof.
  intros w. unfold deref. destruct (heap w !! l); apply extends_refl.
Qed.

Lemma grows_alloc df : log_grows (alloc df).
Proof. intros w. exists []. simpl. rewrite app_nil_r. reflexivity. Qed.

Lemma grows_datetime_now E : log_grows (datetime_now E).
Proof. intros w. exists []. simpl. rewrite app_nil_r. reflexivity. Qed.

Lemma grows_setitem l c s : log_grows (setitem l c s).
Proof.
  apply grows_bind; [apply grows_deref|].
  intros df w. exists []. simpl. rewrite app_nil_r. reflexivity.
Qed.

Lemma grows_begin_drop_to_sql E l table : log_grows (begin_drop_to_sql E l table).
Proof.
  apply grows_bind; [apply grows_deref|].
  intros df w. exists [].
  destruct (transaction E (transactions w) table df); simpl;
    rewrite app_nil_r; reflexivity.
Qed.

Create HintDb grows.
#[local] Hint Resolve grows_ret grows_liftE grows_deref grows_alloc
  grows_datetime_now grows_setitem grows_begin_drop_to_sql : grows.

Ltac grows :=
  repeat first
    [ solve [auto with grows]
    | apply grows_bind; [|intros ?]
    | apply grows_try; [|intros ?]
    | apply grows_if ].

Lemma grows_overwrite E l table : log_grows (overwrite E l table).
Proof. unfold overwrite, copy, normalize_to_datetime. grows. Qed.

Lemma grows_validate_at validate l : log_grows (validate_at validate l).
Proof. unfold validate_at. grows. Qed.

Lemma api_get_loop_cons E endpoint max_retries attempt rest w :
  api_get_loop E endpoint max_retries (attempt :: rest) w =
  match api_get_try E endpoint w with
  | (Ok Continue, w') => api_get_loop E endpoint max_retries rest w'
  | (Ok (Return v), w') => (Ok v, w')
  | (Raise e, w') =>
      match api_get_except max_retries attempt e w' with
      | (Ok None, w'') => api_get_loop E endpoint max_retries rest w''
      | (Ok (Some v), w'') => (Ok v, w'')
      | (Raise e', w'') => (Raise e', w'')
      end
  end.
Proof. reflexivity. Qed.

(** With a budget of 3 the first request is always made. *)
Lemma api_get_first_request E endpoint w :
  exists more,
    requests (snd (api_get E endpoint 3 w)) = requests w ++ endpoint :: more.
Proof.
  unfold api_get. change (range 3) with [0; 1; 2]%Z.
  rewrite api_get_loop_cons.
  destruct (api_get_try E endpoint w) as [r u] eqn:Htry.
  destruct (api_get_try_frame _ _ _ _ _ Htry) as [sl ->].
  assert (Hnext : forall (c : M value),
            log_grows c ->
            exists more,
              requests (snd (c (after_attempts endpoint 1 sl w)))
              = requests w ++ endpoint :: more).
  { intros c Hc. destruct (Hc (after_attempts endpoint 1 sl w)) as [m ->].
    simpl. rewrite <- app_assoc. eauto. }
  assert (Hloop : log_grows (api_get_loop E endpoint 3 [1; 2]%Z)).
  { intros w0.
    destruct (api_get_loop_frame E endpoint 3 [1; 2]%Z w0) as (k & sl' & ->).
    eexists. reflexivity. }
  destruct r as [[|v]|e].
  - apply Hnext. exact Hloop.
  - apply (Hnext (ret v)). apply grows_ret.
  - destruct (api_get_except 3 0 e _) as [r' u'] eqn:Hex.
    destruct (api_get_except_frame _ _ _ _ _ _ Hex) as [sl2 ->].
    rewrite after_attempts_mixed.
    destruct r' as [[v|]|e'].
    + simpl. eauto.
    + destruct (api_get_loop_frame E endpoint 3 [1; 2]%Z
                  (after_attempts endpoint 1 (sl ++ sl2) w)) as (k & sl' & ->).
      simpl. rewrite <- app_assoc. eauto.
    + simpl. eauto.
Qed.

(** Whatever becomes of a dataset, its endpoint has been asked. *)
Lemma dataset_requests E (get : M nat) validate table endpoint w :
  (forall w0, exists more,
      requests (snd (get w0)) = requests w0 ++ endpoint :: more) ->
  extends w (snd (dataset E get validate table w)) /\
  In endpoint (requests (snd (dataset E get validate table w))).
Proof.
  intros Hget.
  assert (Hext : extends (snd (get w)) (snd (dataset E get validate table w))).
  { unfold dataset. destruct (get w) as [[l|e] w1]; [|apply extends_refl].
    pose proof (grows_validate_at validate l w1) as Hv.
    destruct (validate_at validate l w1) as [[[|]|e] w2]; try exact Hv.
    pose proof (grows_overwrite E l table w2) as Ho.
    cbn [snd] in *.
    destruct (overwrite E l table w2) as [[[|]|e] w3];
      (eapply extends_trans; [exact Hv|exact Ho]). }
  destruct (Hget w) as [more Hreq]. split.
  - eapply extends_trans; [|exact Hext]. eexists. exact Hreq.
  - eapply extends_In; [exact Hext|]. rewrite Hreq.
    apply in_or_app. right. left. reflexivity.
Qed.

Lemma get_requests E endpoint (parse : value -> exc DataFrame) w :
  exists more,
    requests (snd ((let! data := api_get E endpoint 3 in
                    let! df := liftE (parse data) in
                    alloc df) w))
    = requests w ++ endpoint :: more.
Proof.
  destruct (api_get_first_request E endpoint w) as [more Hreq].
  exists more. unfold bindM, liftE, alloc.
  destruct (api_get E endpoint 3 w) as [[data|e] w1]; [|exact Hreq].
  destruct (parse data); exact Hreq.
Qed.

Lemma runs_requests E w :
  In "/standings" (requests (snd (assists_run E w))) /\
  In "/players/topscorers" (requests (snd (assists_run E w))) /\
  In "/players/topassists" (requests (snd (assists_run E w))).
Proof.
  destruct (dataset_requests E (get_standings E) validate_standings
              "epl_standings" "/standings" w
              (get_requests E "/standings" standings_of_response))
    as [_ H1].
  destruct (dataset_requests E (get_top_scorers E) validate_top_scorers
              "epl_top_scorers" "/players/topscorers" (snd (standings_run E w))
              (get_requests E "/players/topscorers"
                 (players_of_response "total" "goals" "top scorers")))
    as [E2 H2].
  destruct (dataset_requests E (get_top_assists E) validate_top_assists
              "epl_top_assists" "/players/topassists" (snd (scorers_run E w))
              (get_requests E "/players/topassists"
                 (players_of_response "assists" "assists" "top assists")))
    as [E3 H3].
  fold (standings_run E w) in H1. fold (scorers_run E w) in E2, H2.
  fold (assists_run E w) in E3, H3.
  split; [|split].
  - apply (extends_In _ _ _ E3). apply (extends_In _ _ _ E2). exact H1.
  - apply (extends_In _ _ _ E3). exact H2.
  - exact H3.
Qed.

(** * More of the code *)

(** ** Configuration (catching_data.py) *)

(** X1. When the year does not change between the two readings of the
    clock, SEASON is [s] exactly for the twelve months from August of [s] to
    July of [s+1]. *)
Theorem SEASON_window (y m s : Z) (second_month : Z) :
  (1 <= m <= 12)%Z ->
  (SEASON (y, m) (y, second_month) = s <->
   (y = s /\ 8 <= m)%Z \/ (y = s + 1 /\ m <= 7)%Z).
Proof.
  intros Hm. unfold SEASON. cbn [fst snd].
  destruct (m <? 8)%Z eqn:H8.
  - apply Z.ltb_lt in H8. lia.
  - apply Z.ltb_ge in H8. lia.
Qed.

Lemma SEASON_window_witness :
  SEASON (2025, 3)%Z (2025, 3)%Z = 2024%Z <->
  (2025 = 2024 /\ 8 <= 3)%Z \/ (2025 = 2024 + 1 /\ 3 <= 7)%Z.
Proof. apply (SEASON_window 2025 3 2024 3). lia. Defined.

(** X2. [validate_api_key] raises [ValueError] exactly when the key is unset
    or empty.  Otherwise it logs the first ten characters of the key
    ([API_KEY[:10]]): a prefix of the key, made of at most ten of its
    characters, and the whole key when the key has no more than ten; for a
    key of ASCII characters these are its first ten bytes.  The check made
    when the module is imported never raises: a missing key is logged and
    the import goes on. *)
Theorem api_key_check (API_KEY : option string) :
  ((exists msg, validate_api_key API_KEY = Raise (ValueError msg)) <->
   API_KEY = None \/ API_KEY = Some "") /\
  (forall key line,
     API_KEY = Some key -> validate_api_key API_KEY = Ok line ->
     exists shown,
       line = ("API Key configured: " ++ shown ++ "...")%string /\
       shown = str_prefix 10 key /\
       (exists cs, shown = String.concat "" cs /\ (length cs <= 10)%nat /\
                   exists more, chars key = cs ++ more) /\
       (exists rest, key = (shown ++ rest)%string) /\
       ((str_len key <= 10)%nat -> shown = key) /\
       (is_ascii key = true -> shown = String.substring 0 10 key)) /\
  (exists line, validate_on_import API_KEY = Ok line).
Proof.
  split; [|split].
  - unfold validate_api_key. destruct API_KEY as [key|].
    + destruct (String.eqb key "") eqn:Hk.
      * apply String.eqb_eq in Hk. subst. split; eauto.
      * split; [intros [msg H]; discriminate|].
        intros [H|[= ->]]; [discriminate|]. discriminate.
    + split; eauto.
  - intros key line -> H. unfold validate_api_key in H.
    destruct (String.eqb key ""); [discriminate|]. injection H as <-.
    exists (str_prefix 10 key).
    split; [reflexivity|]. split; [reflexivity|]. split; [|split; [|split]].
    + exists (take 10 (chars key)). split; [reflexivity|].
      split; [apply str_prefix_length|].
      exists (drop 10 (chars key)). symmetry. apply take_drop.
    + apply str_prefix_prefix.
    + apply str_prefix_all.
    + apply str_prefix_ascii.
  - unfold validate_on_import. destruct (validate_api_key API_KEY); eauto.
Qed.

Lemma api_key_check_witness :
  exists shown,
    "API Key configured: ééééééé..."
    = ("API Key configured: " ++ shown ++ "...")%string /\
    shown = "ééééééé" /\
    str_len "ééééééé" = 7%nat.
Proof.
  destruct (proj1 (proj2 (api_key_check (Some "ééééééé")))
              "ééééééé" "API Key configured: ééééééé..." eq_refl eq_refl)
    as (shown & Hline & _ & _ & _ & Hall & _).
  exists shown. split; [exact Hline|].
  split; [apply Hall; vm_compute; lia|reflexivity].
Defined.

(** A key of hexadecimal digits is cut after ten of them. *)
Example api_key_hex :
  validate_api_key (Some "0123456789abcdef")
  = Ok "API Key configured: 0123456789...".
Proof. reflexivity. Qed.

(** ** More on the validators *)

Lemma missing_cols_agree required cols1 cols2 :
  (forall c, In c required -> has_column c cols1 = has_column c cols2) ->
  missing_cols required cols1 = missing_cols required cols2.
Proof.
  intros H. unfold missing_cols. apply filter_ext_in.
  intros c Hc. rewrite (H c Hc). reflexivity.
Qed.

Lemma getitem_rows df c sel :
  getitem df c = Ok sel ->
  len_df df = match sel with
              | Column s => length s
              | Columns cs => match cs with
                              | s :: _ => length s
                              | [] => 0%nat
                              end
              end.
Proof.
  unfold getitem, len_df, column_at.
  destruct (col_indices c (columns df)) as [|i [|j more]]; [discriminate| |];
    intros [= <-]; simpl; rewrite length_map; reflexivity.
Qed.

(** X3. [validate_standings] looks at whether a rank column exists and at
    what [df[c]] is for the team, points, played, wins, draws and losses
    labels, and at nothing else: two frames that agree there (the same
    column, or the same frame of columns when the label is repeated) get the
    same verdict, whatever their rank values, their other columns and the
    order of their columns.  The same holds for [validate_top_scorers] and
    [validate_top_assists] with the team column (existence only) and the
    player, metric and appearances labels. *)
Theorem validators_read_checked_columns_only (df1 df2 : DataFrame) :
  (has_column "rank" (columns df1) = has_column "rank" (columns df2) ->
   (forall c, In c ["team"; "points"; "played"; "wins"; "draws"; "losses"] ->
              getitem df1 c = getitem df2 c) ->
   validate_standings (ODataFrame df1) = validate_standings (ODataFrame df2))
  /\
  (forall metric,
     has_column "team" (columns df1) = has_column "team" (columns df2) ->
     (forall c, In c ["player"; metric; "appearances"] ->
                getitem df1 c = getitem df2 c) ->
     (metric = "goals" ->
      validate_top_scorers (ODataFrame df1)
      = validate_top_scorers (ODataFrame df2)) /\
     (metric = "assists" ->
      validate_top_assists (ODataFrame df1)
      = validate_top_assists (ODataFrame df2))).
Proof.
  split.
  - intros Hrank Hcols.
    unfold validate_standings, validate_standings_body. f_equal.
    cbn [get_columns as_frame bindE].
    rewrite (missing_cols_agree _ (columns df1) (columns df2)).
    2:{ intros c [<-|Hc]; [exact Hrank|].
        rewrite !has_column_getitem, (Hcols c Hc). reflexivity. }
    destruct (missing_cols _ (columns df2)); [|reflexivity].
    cbn [bindE].
    rewrite !(Hcols "team"), !(Hcols "points"), !(Hcols "played"),
      !(Hcols "wins"), !(Hcols "draws"), !(Hcols "losses")
      by (simpl; tauto).
    reflexivity.
  - intros metric Hteam Hcols.
    assert (Hlen : forall s, getitem df1 "appearances" = Ok s ->
                             len_df df1 = len_df df2).
    { intros s Hs. rewrite (getitem_rows _ _ _ Hs).
      rewrite (Hcols "appearances") in Hs by (simpl; tauto).
      rewrite (getitem_rows _ _ _ Hs). reflexivity. }
    split; intros ->.
    + unfold validate_top_scorers, validate_top_scorers_body. f_equal.
      cbn [get_columns as_frame bindE].
      rewrite (missing_cols_agree _ (columns df1) (columns df2)).
      2:{ intros c [<-|[<-|Hc]];
            [rewrite !has_column_getitem, (Hcols "player") by (simpl; tauto);
             reflexivity
            |exact Hteam
            |rewrite !has_column_getitem, (Hcols c) by (simpl; tauto);
             reflexivity]. }
      destruct (missing_cols _ (columns df2)) eqn:Hmiss; [|reflexivity].
      cbn [bindE].
      destruct (getitem df1 "appearances") as [s|e] eqn:Happ.
      * rewrite (Hlen s eq_refl).
        rewrite !(Hcols "goals"), !(Hcols "player") by (simpl; tauto).
        rewrite <- (Hcols "appearances"), Happ by (simpl; tauto).
        reflexivity.
      * exfalso.
        assert (Hin : In "appearances"
                        (missing_cols scorers_required_cols (columns df2))).
        { apply filter_In. split; [simpl; tauto|].
          rewrite has_column_getitem, <- (Hcols "appearances"), Happ
            by (simpl; tauto).
          reflexivity. }
        rewrite Hmiss in Hin. destruct Hin.
    + unfold validate_top_assists, validate_top_assists_body. f_equal.
      cbn [get_columns as_frame bindE].
      rewrite (missing_cols_agree _ (columns df1) (columns df2)).
      2:{ intros c [<-|[<-|Hc]];
            [rewrite !has_column_getitem, (Hcols "player") by (simpl; tauto);
             reflexivity
            |exact Hteam
            |rewrite !has_column_getitem, (Hcols c) by (simpl; tauto);
             reflexivity]. }
      destruct (missing_cols _ (columns df2)) eqn:Hmiss; [|reflexivity].
      cbn [bindE].
      destruct (getitem df1 "appearances") as [s|e] eqn:Happ.
      * rewrite (Hlen s eq_refl).
        rewrite !(Hcols "assists"), !(Hcols "player") by (simpl; tauto).
        rewrite <- (Hcols "appearances"), Happ by (simpl; tauto).
        reflexivity.
      * exfalso.
        assert (Hin : In "appearances"
                        (missing_cols assists_required_cols (columns df2))).
        { apply filter_In. split; [simpl; tauto|].
          rewrite has_column_getitem, <- (Hcols "appearances"), Happ
            by (simpl; tauto).
          reflexivity. }
        rewrite Hmiss in Hin. destruct Hin.
Qed.

Lemma validators_read_checked_columns_only_witness :
  validate_standings (ODataFrame valid_standings_df)
  = validate_standings (ODataFrame shuffled_standings_df).
Proof.
  apply (proj1 (validators_read_checked_columns_only
                  valid_standings_df shuffled_standings_df)).
  - reflexivity.
  - intros c Hc. simpl in Hc.
    repeat (destruct Hc as [<-|Hc]; [reflexivity|]). destruct Hc.
Defined.

Lemma mapE_cmp_opts cmp k (l : list (option Z)) :
  mapE (cell_cmp cmp k) (map opt_cell l)
  = Ok (map (fun o => match o with Some z => cmp z k | None => false end) l).
Proof.
  induction l as [|[z|] l IH]; [reflexivity| |]; simpl; rewrite IH; reflexivity.
Qed.

Lemma any_cmp_opts_false (cmp : Z -> Z -> bool) (k : Z) (P : Z -> Prop)
    (l : list (option Z)) :
  (forall z, cmp z k = false <-> P z) ->
  any (map (fun o => match o with Some z => cmp z k | None => false end) l)
  = false
  <-> Forall (fun o => forall z, o = Some z -> P z) l.
Proof.
  intros HP. rewrite any_map_false. split; intros H;
    (eapply Forall_impl; [exact H|]); simpl.
  - intros [z|] Hz z' [= <-]. apply HP. exact Hz.
  - intros [z|] Hz; [apply HP, Hz; reflexivity | reflexivity].
Qed.

Lemma players_checks_opt_iff df (metric appearances : list (option Z)) :
  negb (Nat.eqb (len_df df) 0)
  && negb (any (map (fun o => match o with
                              | Some z => (z <? 0)%Z
                              | None => false
                              end) metric))
  && negb (any (map (fun o => match o with
                              | Some z => (z <=? 0)%Z
                              | None => false
                              end) appearances)) = true
  <-> players_range_checks df metric appearances.
Proof.
  unfold players_range_checks, len_df.
  rewrite !andb_true_iff, !negb_true_iff, Nat.eqb_neq.
  rewrite (any_cmp_opts_false Z.ltb 0 (fun z => (0 <= z)%Z))
    by (intros z; apply Z.ltb_ge).
  rewrite (any_cmp_opts_false Z.leb 0 (fun z => (0 < z)%Z))
    by (intros z; apply Z.leb_gt).
  assert (Hlen : length (rows df) <> 0%nat <-> rows df <> []).
  { destruct (rows df); simpl; split; congruence. }
  rewrite Hlen. tauto.
Qed.

(** X4. The range checks of the scorers and assists validators are
    [(col < 0).any()] and [(col <= 0).any()], and a missing value compares
    false: on a table where the player, metric and appearances labels each
    select a column, with names in the player column and integers or
    missing values in the metric and appearances columns, the validator
    answers true exactly when the table has a row and no present metric is
    negative and no present appearances value is at most 0.  A row whose
    metric or appearances are missing is accepted. *)
Theorem missing_values_pass_range_checks (df : DataFrame)
    (players : list string) (metric appearances : list (option Z)) :
  has_column "team" (columns df) = true ->
  getitem df "player" = Ok (Column (strs players)) ->
  getitem df "appearances" = Ok (Column (map opt_cell appearances)) ->
  (getitem df "goals" = Ok (Column (map opt_cell metric)) ->
   (validate_top_scorers (ODataFrame df) = Ok true <->
    players_range_checks df metric appearances))
  /\
  (getitem df "assists" = Ok (Column (map opt_cell metric)) ->
   (validate_top_assists (ODataFrame df) = Ok true <->
    players_range_checks df metric appearances)).
Proof.
  intros Hteam Hplayer Happ. split; intros Hmetric.
  - unfold validate_top_scorers, validate_top_scorers_body.
    cbn [get_columns bindE].
    rewrite missing_cols_nil.
    2:{ unfold scorers_required_cols.
        repeat (constructor; [solve [eauto using getitem_has_column]|]).
        constructor. }
    cbn [as_frame bindE].
    rewrite <- players_checks_opt_iff.
    destruct (Nat.eqb (len_df df) 0); [simpl; split; discriminate|].
    rewrite Hmetric. cbn [bindE lt_any]. unfold series_lt.
    rewrite mapE_cmp_opts.
    cbn [bindE]. destruct (any (map _ metric)); [simpl; split; discriminate|].
    rewrite Happ. cbn [bindE le_any]. unfold series_le. rewrite mapE_cmp_opts.
    cbn [bindE].
    destruct (any (map _ appearances)); [simpl; split; discriminate|].
    rewrite Hplayer. simpl. tauto.
  - unfold validate_top_assists, validate_top_assists_body.
    cbn [get_columns bindE].
    rewrite missing_cols_nil.
    2:{ unfold assists_required_cols.
        repeat (constructor; [solve [eauto using getitem_has_column]|]).
        constructor. }
    cbn [as_frame bindE].
    rewrite <- players_checks_opt_iff.
    destruct (Nat.eqb (len_df df) 0); [simpl; split; discriminate|].
    rewrite Hmetric. cbn [bindE lt_any]. unfold series_lt.
    rewrite mapE_cmp_opts.
    cbn [bindE]. destruct (any (map _ metric)); [simpl; split; discriminate|].
    rewrite Happ. cbn [bindE le_any]. unfold series_le. rewrite mapE_cmp_opts.
    cbn [bindE].
    destruct (any (map _ appearances)); [simpl; split; discriminate|].
    rewrite Hplayer. simpl. tauto.
Qed.

Lemma missing_values_pass_range_checks_witness :
  validate_top_scorers (ODataFrame missing_goals_df) = Ok true <->
  players_range_checks missing_goals_df
    [Some 29%Z; None] [Some 38%Z; Some 32%Z].
Proof.
  apply (proj1 (missing_values_pass_range_checks missing_goals_df
                  ["Mohamed Salah"; "Erling Haaland"]
                  [Some 29%Z; None] [Some 38%Z; Some 32%Z]
                  eq_refl eq_refl eq_refl)).
  reflexivity.
Defined.

(** X5. A standings frame with distinct labels, the required ones among
    them, and no row is accepted: every check of [validate_standings] holds
    of no row at all, and the row count only warns.  The scorers and assists
    validators reject every frame without rows. *)
Theorem empty_tables (cols : list string) :
  (NoDup cols ->
   Forall (fun c => has_column c cols = true) standings_required_cols ->
   validate_standings (ODataFrame (mkDF cols [])) = Ok true)
  /\
  validate_top_scorers (ODataFrame (mkDF cols [])) = Ok false
  /\
  validate_top_assists (ODataFrame (mkDF cols [])) = Ok false.
Proof.
  split; [|split].
  - intros Hnd Hall.
    assert (Hget : forall c, has_column c cols = true ->
                             getitem (mkDF cols []) c = Ok (Column [])).
    { intros c Hc. unfold has_column in Hc.
      destruct (col_index c cols) as [i|] eqn:Hi; [|discriminate].
      apply (getitem_distinct (mkDF cols []) c i Hnd Hi). }
    unfold validate_standings, validate_standings_body.
    cbn [get_columns as_frame bindE columns].
    rewrite (missing_cols_nil _ _ Hall).
    unfold standings_required_cols in Hall.
    repeat match type of Hall with
           | Forall _ (_ :: _) =>
               let H := fresh "Hc" in
               apply Forall_cons_iff in Hall as [H Hall];
               apply Hget in H
           end.
    rewrite Hc0, Hc1, Hc2, Hc3, Hc4, Hc5. reflexivity.
  - unfold validate_top_scorers, validate_top_scorers_body.
    cbn [get_columns as_frame bindE columns].
    destruct (missing_cols scorers_required_cols cols); reflexivity.
  - unfold validate_top_assists, validate_top_assists_body.
    cbn [get_columns as_frame bindE columns].
    destruct (missing_cols assists_required_cols cols); reflexivity.
Qed.

Lemma empty_tables_witness :
  validate_standings (ODataFrame (mkDF standings_required_cols [])) = Ok true.
Proof.
  apply (proj1 (empty_tables standings_required_cols)).
  - apply (bool_decide_unpack _). vm_compute. exact I.
  - repeat constructor.
Defined.

(** ** More on the fetcher *)

Lemma api_get_try_cases E endpoint w r u :
  api_get_try E endpoint w = (r, u) ->
  (r = Ok Continue /\ u = after_attempts endpoint 1 [60%Z] w) \/
  ((exists v, r = Ok (Return v) /\ (v = VNone \/ sized v)) /\
   u = after_attempts endpoint 1 [] w) \/
  ((exists e, r = Raise e) /\ u = after_attempts endpoint 1 [] w).
Proof.
  unfold api_get_try, bindM, requests_get, raise_for_status, liftE, ret,
    raise, sleep, sized.
  intros H. rewrite <- with_request_after.
  destruct (http E (length (requests w)) endpoint) as [e|status body].
  - injection H as <- <-. right. right. eauto.
  - cbn [fst snd] in H. destruct (status =? 429)%Z.
    + injection H as <- <-. left. split; reflexivity.
    + right.
      destruct ((400 <=? status)%Z && (status <? 600)%Z);
        [injection H as <- <-; right; eauto|].
      break_all; eauto 8.
Qed.

Lemma api_get_except_cases max_retries attempt e w r u :
  api_get_except max_retries attempt e w = (r, u) ->
  (r = Ok (Some VNone) /\ u = w) \/
  (r = Ok None /\
   (u = w \/ ((attempt < max_retries - 1)%Z /\ u = with_sleep (2 ^ attempt) w))).
Proof.
  unfold api_get_except, bindM, sleep, ret. intros H.
  destruct (attempt <? max_retries - 1)%Z eqn:Hlt;
    [apply Z.ltb_lt in Hlt|];
    destruct (is_Timeout e), (is_RequestException e);
    injection H as <- <-; auto.
Qed.

Lemma with_sleep_after endpoint k sl s w :
  with_sleep s (after_attempts endpoint k sl w)
  = after_attempts endpoint k (sl ++ [s]) w.
Proof. unfold with_sleep, after_attempts. simpl. rewrite <- app_assoc. reflexivity. Qed.

(** Everything the loop of [api_get] does, attempt by attempt. *)
Lemma api_get_loop_account E endpoint max_retries attempts w :
  Forall (fun a => (0 <= a)%Z) attempts ->
  exists v k sl,
    api_get_loop E endpoint max_retries attempts w
    = (Ok v, after_attempts endpoint k sl w) /\
    (k <= length attempts)%nat /\
    (attempts <> [] -> (1 <= k)%nat) /\
    (length sl <= k)%nat /\
    Forall (is_pause max_retries) sl /\
    (v = VNone \/ sized v).
Proof.
  intros Hpos. revert w. induction Hpos as [|a rest Ha _ IH]; intros w.
  - exists VNone, 0%nat, []. simpl. rewrite after_attempts_0.
    repeat split; auto. congruence.
  - rewrite api_get_loop_cons.
    destruct (api_get_try E endpoint w) as [r u] eqn:Htry.
    destruct (api_get_try_cases _ _ _ _ _ Htry)
      as [[-> ->] | [[(v & -> & Hv) ->] | [[e ->] ->]]].
    + destruct (IH (after_attempts endpoint 1 [60%Z] w))
        as (v & k & sl & -> & Hk & _ & Hsl & Hp & Hv).
      rewrite after_attempts_after_attempts.
      exists v, (1 + k)%nat, ([60%Z] ++ sl). simpl.
      repeat split; auto; try lia.
      constructor; [left; reflexivity | exact Hp].
    + exists v, 1%nat, []. simpl. repeat split; auto; lia.
    + destruct (api_get_except max_retries a e _) as [r' u'] eqn:Hex.
      destruct (api_get_except_cases _ _ _ _ _ _ Hex)
        as [[-> ->] | [-> [-> | [Hlt ->]]]].
      * exists VNone, 1%nat, []. simpl. repeat split; auto; lia.
      * destruct (IH (after_attempts endpoint 1 [] w))
          as (v & k & sl & -> & Hk & _ & Hsl & Hp & Hv).
        rewrite after_attempts_after_attempts.
        exists v, (1 + k)%nat, sl. simpl. repeat split; auto; lia.
      * rewrite with_sleep_after.
        destruct (IH (after_attempts endpoint 1 ([] ++ [(2 ^ a)%Z]) w))
          as (v & k & sl & -> & Hk & _ & Hsl & Hp & Hv).
        rewrite after_attempts_after_attempts.
        exists v, (1 + k)%nat, (([] ++ [(2 ^ a)%Z]) ++ sl). simpl.
        repeat split; auto; try lia.
        constructor; [right; exists a; split; [lia|reflexivity] | exact Hp].
Qed.

Lemma range_nonneg n : Forall (fun a => (0 <= a)%Z) (range n).
Proof.
  unfold range. apply Forall_forall. intros a Ha.
  apply list_elem_of_In, in_map_iff in Ha as (i & <- & _). lia.
Qed.

Lemma length_range n : length (range n) = Z.to_nat n.
Proof. unfold range. rewrite length_map, length_seq. reflexivity. Qed.

Lemma api_get_account E endpoint max_retries w :
  exists v k sl,
    api_get E endpoint max_retries w
    = (Ok v, after_attempts endpoint k sl w) /\
    (k <= Z.to_nat max_retries)%nat /\
    ((0 < max_retries)%Z -> (1 <= k)%nat) /\
    (length sl <= k)%nat /\
    Forall (is_pause max_retries) sl /\
    (v = VNone \/ sized v).
Proof.
  unfold api_get.
  destruct (api_get_loop_account E endpoint max_retries (range max_retries) w
              (range_nonneg max_retries))
    as (v & k & sl & Heq & Hk & H1 & Hsl & Hp & Hv).
  exists v, k, sl. rewrite length_range in Hk.
  repeat split; auto.
  intros Hpos. apply H1. intros Hnil.
  apply (f_equal (@length Z)) in Hnil. rewrite length_range in Hnil.
  simpl in Hnil. lia.
Qed.

(** X6. [api_get] makes at most [max_retries] requests, at least one when the
    budget is positive, all of them to its endpoint, and changes nothing
    else: no DataFrame object, no table of the database, no reading of the
    clock, no transaction. *)
Theorem api_get_request_budget (E : Env) (endpoint : string)
    (max_retries : Z) (w : World) :
  exists k : nat,
    requests (snd (api_get E endpoint max_retries w))
    = requests w ++ replicate k endpoint /\
    (k <= Z.to_nat max_retries)%nat /\
    ((0 < max_retries)%Z -> (1 <= k)%nat) /\
    heap (snd (api_get E endpoint max_retries w)) = heap w /\
    sink (snd (api_get E endpoint max_retries w)) = sink w /\
    clock_reads (snd (api_get E endpoint max_retries w)) = clock_reads w /\
    transactions (snd (api_get E endpoint max_retries w)) = transactions w.
Proof.
  destruct (api_get_account E endpoint max_retries w)
    as (v & k & sl & -> & Hk & H1 & _).
  exists k. repeat split; auto.
Qed.

Lemma sum_list_bound (b : Z) (l : list Z) :
  Forall (fun s => (s <= b)%Z) l -> (sum_list l <= Z.of_nat (length l) * b)%Z.
Proof.
  induction 1 as [|s l Hs _ IH]; simpl; [lia|].
  unfold sum_list in *. simpl. lia.
Qed.

(** X7. [api_get] sleeps at most once per request, each time for 60 seconds
    (after a 429) or for 2^a seconds with 0 <= a < max_retries - 1 (after a
    timeout or a request error).  With the default budget of 3 a call sleeps
    at most 180 seconds in all. *)
Theorem api_get_pause_bound (E : Env) (endpoint : string)
    (max_retries : Z) (w : World) :
  exists sl : list Z,
    slept (snd (api_get E endpoint max_retries w)) = slept w ++ sl /\
    (length (requests w) + length sl
     <= length (requests (snd (api_get E endpoint max_retries w))))%nat /\
    Forall (is_pause max_retries) sl /\
    (max_retries = 3%Z -> (sum_list sl <= 180)%Z).
Proof.
  destruct (api_get_account E endpoint max_retries w)
    as (v & k & sl & -> & Hk & _ & Hsl & Hp & _).
  exists sl. cbn [snd after_attempts requests slept].
  split; [reflexivity|]. split; [rewrite length_app, length_replicate; lia|].
  split; [exact Hp|]. intros ->.
  assert (Hb : Forall (fun s => (s <= 60)%Z) sl).
  { eapply Forall_impl; [exact Hp|]. simpl. intros s [->|(a & Ha & ->)]; [lia|].
    assert (a = 0 \/ a = 1)%Z as [-> | ->] by lia; simpl; lia. }
  pose proof (sum_list_bound 60 sl Hb). simpl in Hk. lia.
Qed.

(** X8. Whatever the network answers, [api_get] returns [None] or a value
    that has a length (a list, an object or a string), never a number or a
    boolean.  So a result that passes the [if not data] test of the parsers
    can be iterated and has a first element. *)
Theorem api_get_returns_sized (E : Env) (endpoint : string)
    (max_retries : Z) (w : World) :
  exists v,
    fst (api_get E endpoint max_retries w) = Ok v /\
    (v = VNone \/ sized v) /\
    (truthy v = true ->
     exists x items, py_iter v = Ok (x :: items)).
Proof.
  destruct (api_get_account E endpoint max_retries w)
    as (v & k & sl & -> & _ & _ & _ & _ & Hv).
  exists v. split; [reflexivity|]. split; [exact Hv|].
  intros Ht. destruct Hv as [-> | [n Hn]]; [discriminate|].
  destruct v as [| | | s | |l|kv]; try discriminate.
  - destruct s as [|c s]; [discriminate|]. cbn [py_iter].
    destruct (chars_cons c s) as (g & gs & ->). simpl. eauto.
  - destruct l as [|x l]; [discriminate|]. simpl. eauto.
  - destruct kv as [|p kv]; [discriminate|]. simpl. eauto.
Qed.

(** An attempt that gets a response with a body that deserialises ends the
    call, whatever the body is. *)
Lemma api_get_loop_envelope E endpoint max_retries attempt rest w status d :
  http E (length (requests w)) endpoint = GetResponse status (Ok d) ->
  status_ok status ->
  api_get_loop E endpoint max_retries (attempt :: rest) w =
  (Ok (envelope_results d), with_request endpoint w).
Proof.
  intros Hhttp [H429 Hst]. rewrite api_get_loop_cons.
  unfold api_get_try, bindM, requests_get. rewrite Hhttp. cbn [fst snd].
  apply Z.eqb_neq in H429. rewrite H429.
  unfold raise_for_status.
  assert (Hrange : ((400 <=? status) && (status <? 600))%Z = false).
  { apply not_true_is_false. intros H. apply andb_true_iff in H as [H1 H2].
    apply Hst. lia. }
  rewrite Hrange. unfold ret, liftE, api_get_except.
  destruct d as [| | | s | |l|kv]; try reflexivity.
  - cbn [contains subscript envelope_results].
    destruct (index 0 "response" s); [|reflexivity].
    cbn [negb]. destruct (index 0 "errors" s); reflexivity.
  - cbn [contains subscript envelope_results].
    destruct (existsb (py_eq (VStr "response")) l); [|reflexivity].
    cbn [negb].
    destruct (existsb (py_eq (VStr "errors")) l); reflexivity.
  - cbn [contains subscript envelope_results].
    destruct (assoc "response" kv) as [r|]; [|reflexivity].
    cbn [negb]. destruct (assoc "errors" kv) as [e|].
    + destruct (truthy e); [reflexivity|].
      destruct r; reflexivity.
    + destruct r; reflexivity.
Qed.

(** X9. A response that is not rate limited, passes [raise_for_status] and
    deserialises decides the call at once, with no further request: the
    result is the "response" of the envelope when the envelope is an object
    whose "response" has a length and whose "errors" are absent or falsy, and
    [None] in every other case: an envelope that is a list, a string, a
    number or null, or a "response" that is null or a number, on which the
    [len()] of the success log line raises. *)
Theorem api_get_envelope_decides (E : Env) (endpoint : string)
    (max_retries : Z) (w : World) (k : nat) (status : Z) (d : value) :
  (Z.of_nat k < max_retries)%Z ->
  (forall i, (i < k)%nat ->
     transient (http E (length (requests w) + i) endpoint) = true) ->
  http E (length (requests w) + k) endpoint = GetResponse status (Ok d) ->
  status_ok status ->
  api_get E endpoint max_retries w =
  (Ok (envelope_results d),
   after_attempts endpoint (S k)
     (pauses E endpoint max_retries (length (requests w))
        (map Z.of_nat (seq 0 k))) w)
  /\
  (envelope_results d <> VNone <->
   exists kv r,
     d = VDict kv /\ assoc "response" kv = Some r /\ sized r /\
     envelope_results d = r /\
     (assoc "errors" kv = None \/
      exists e, assoc "errors" kv = Some e /\ truthy e = false)).
Proof.
  intros Hk Ht Hhttp Hst. split.
  - unfold api_get.
    rewrite (range_split max_retries k) by lia.
    rewrite api_get_loop_prefix by (rewrite length_attempts; exact Ht).
    rewrite length_attempts.
    destruct (Z.to_nat max_retries - k)%nat as [|m] eqn:Hm; [lia|].
    cbn [seq map].
    erewrite api_get_loop_envelope;
      [|simpl; rewrite length_app, length_replicate; exact Hhttp|exact Hst].
    rewrite with_request_after, after_attempts_after_attempts, app_nil_r.
    replace (k + 1)%nat with (S k) by lia. reflexivity.
  - unfold envelope_results, sized. split.
    + destruct d as [| | | | | |kv]; try congruence.
      destruct (assoc "response" kv) as [r|] eqn:Hr; [|congruence].
      destruct (assoc "errors" kv) as [e|] eqn:He'.
      * destruct (truthy e) eqn:He; [congruence|].
        destruct (py_len r) as [n|] eqn:Hn; [|congruence].
        intros _. exists kv, r. repeat split; eauto.
      * destruct (py_len r) as [n|] eqn:Hn; [|congruence].
        intros _. exists kv, r. repeat split; eauto.
    + intros (kv & r & -> & Hr & [n Hn] & _ & Herr). rewrite Hr.
      destruct Herr as [-> | (e & -> & ->)]; rewrite Hn;
        destruct r; discriminate.
Qed.

Lemma api_get_envelope_decides_witness :
  api_get (scripted [rate_limited;
                     GetResponse 200 (Ok null_response_envelope);
                     GetResponse 200 (Ok sample_envelope)])
          "/standings" 3 init_world
  = (Ok VNone, after_attempts "/standings" 2 [60%Z] init_world).
Proof.
  apply (proj1 (api_get_envelope_decides
                  (scripted [rate_limited;
                             GetResponse 200 (Ok null_response_envelope);
                             GetResponse 200 (Ok sample_envelope)])
                  "/standings" 3%Z init_world 1 200%Z null_response_envelope
                  ltac:(lia)
                  ltac:(intros [|i] Hi; [reflexivity|lia])
                  eq_refl
                  ltac:(split; lia))).
Defined.

(** ** More on the parsers *)

Lemma col_index_nth c ks i : col_index c ks = Some i -> nth i ks "" = c.
Proof.
  revert i. induction ks as [|k ks IH]; intros i; simpl; [discriminate|].
  destruct (String.eqb c k) eqn:Hc.
  - intros [= <-]. apply String.eqb_eq in Hc. auto.
  - destruct (col_index c ks) as [j|]; simpl; [|discriminate].
    intros [= <-]. apply IH. reflexivity.
Qed.

Lemma nth_map_within (f : string -> value) (ks : list string) (i : nat) :
  (i < length ks)%nat -> nth i (map f ks) VNone = f (nth i ks "").
Proof.
  revert i. induction ks as [|k ks IH]; intros [|i] Hi; simpl in *;
    try lia; [reflexivity|].
  apply IH. lia.
Qed.

Lemma frame_of_records_shape (ks : list string) (rs : list record) :
  rs <> [] ->
  Forall (fun r => map fst r = ks) rs ->
  columns (frame_of_records rs) = ks /\
  len_df (frame_of_records rs) = length rs /\
  rows (frame_of_records rs) <> [] /\
  Forall (fun row => length row = length ks) (rows (frame_of_records rs)).
Proof.
  intros Hne Hks. destruct rs as [|r0 rs]; [congruence|].
  unfold frame_of_records, len_df. cbn [columns rows].
  pose proof (Forall_inv Hks) as H0. simpl in H0. rewrite H0.
  split; [reflexivity|]. split; [apply length_map|]. split; [discriminate|].
  apply Forall_forall. intros row Hrow.
  apply list_elem_of_In, in_map_iff in Hrow as (r & <- & _). apply length_map.
Qed.

Lemma NoDup_standings_columns : NoDup standings_columns.
Proof. apply (bool_decide_unpack _). vm_compute. exact I. Qed.

Lemma NoDup_players_columns label :
  label = "goals" \/ label = "assists" -> NoDup (players_columns label).
Proof.
  intros [-> | ->]; apply (bool_decide_unpack _); vm_compute; exact I.
Qed.

(** The keys of a dict literal are distinct, so every label of a frame built
    from such dicts selects a column. *)
Lemma getitem_frame_of_records (ks : list string) (rs : list record) c :
  rs <> [] ->
  Forall (fun r => map fst r = ks) rs ->
  NoDup ks ->
  has_column c ks = true ->
  getitem (frame_of_records rs) c = Ok (Column (map (cell_of c) rs)).
Proof.
  intros Hne Hks Hnd Hc. destruct rs as [|r0 rs]; [congruence|].
  unfold has_column in Hc.
  destruct (col_index c ks) as [i|] eqn:Hi; [|discriminate].
  pose proof (Forall_inv Hks) as H0. simpl in H0.
  assert (Hcols : columns (frame_of_records (r0 :: rs)) = ks) by exact H0.
  rewrite (getitem_distinct _ c i); [|rewrite Hcols; assumption..].
  unfold column_at, frame_of_records. cbn [columns rows]. rewrite H0.
  do 2 f_equal. rewrite map_map. apply map_ext. intros r.
  pose proof (col_index_lt _ _ _ Hi) as Hlt.
  rewrite nth_map_within by exact Hlt.
  rewrite (col_index_nth _ _ _ Hi). reflexivity.
Qed.

Lemma standings_record_keys t r :
  standings_record t = Ok r -> map fst r = standings_columns.
Proof.
  unfold standings_record.
  repeat match goal with
         | |- context [bindE ?c _] =>
             destruct c; cbn [bindE]; [|discriminate]
         end.
  intros [= <-]. reflexivity.
Qed.

Lemma standings_entry_keys t r :
  standings_entry t = Ok (Some r) -> map fst r = standings_columns.
Proof.
  unfold standings_entry.
  destruct (standings_record t) as [r'|] eqn:Hr; cbn [bindE]; [|discriminate].
  intros [= <-]. eapply standings_record_keys. exact Hr.
Qed.

Lemma player_record_keys metric label p r :
  player_record metric label p = Ok (Some r) ->
  map fst r = players_columns label.
Proof.
  intros H.
  destruct (player_record_row _ _ _ _ H) as (name & team & m & a & -> & _).
  reflexivity.
Qed.

Lemma kept_records_keys entry (ks : list string) items :
  (forall x r, entry x = Ok (Some r) -> map fst r = ks) ->
  Forall (fun r => map fst r = ks) (kept_records entry items).
Proof.
  intros H. apply Forall_forall. intros r Hr.
  apply list_elem_of_In, kept_records_In in Hr as (x & _ & Hx). eauto.
Qed.

Lemma length_kept_records entry items :
  (length (kept_records entry items) <= length items)%nat.
Proof.
  unfold kept_records. induction items as [|x items IH]; [simpl; lia|].
  change (omap ?f (x :: items))
    with (match f x with Some y => y :: omap f items | None => omap f items end).
  cbv beta. destruct (entry x) as [[r|]|e]; simpl length; lia.
Qed.

(** What a parse that returns has kept. *)
Lemma players_of_response_kept metric label what data df :
  players_of_response metric label what data = Ok df ->
  exists items,
    py_iter data = Ok items /\
    kept_records (player_record metric label) items <> [] /\
    df = frame_of_records (kept_records (player_record metric label) items).
Proof.
  unfold players_of_response.
  destruct (negb (truthy data)); [discriminate|].
  destruct (py_iter data) as [items|]; cbn [bindE]; [|discriminate].
  destruct (collect _ _ items []) as [rs|] eqn:Hc; cbn [bindE]; [|discriminate].
  apply collect_returns in Hc. simpl in Hc. subst rs.
  destruct (kept_records _ items) eqn:Hk; [discriminate|].
  intros [= <-]. exists items. rewrite Hk. repeat split. discriminate.
Qed.

Lemma standings_of_response_kept data df :
  standings_of_response data = Ok df ->
  exists table,
    kept_records standings_entry table <> [] /\
    df = frame_of_records (kept_records standings_entry table).
Proof.
  unfold standings_of_response.
  destruct (negb (truthy data)); [discriminate|].
  repeat match goal with
         | |- context [bindE ?c _] =>
             lazymatch c with
             | collect _ _ _ _ => fail
             | _ => destruct c; cbn [bindE]; [|discriminate]
             end
         | |- context [if ?b then _ else _] => destruct b; [discriminate|]
         end.
  match goal with
  | |- context [collect ?f ?c ?items []] =>
      destruct (collect f c items []) as [rs|] eqn:Hc; cbn [bindE];
      [|discriminate];
      change f with standings_entry in Hc;
      apply collect_returns in Hc; simpl in Hc; subst rs;
      destruct (kept_records standings_entry items) eqn:Hk; [discriminate|];
      intros [= <-]; exists items; rewrite Hk; split; [discriminate|reflexivity]
  end.
Qed.

(** X10. A table returned by a parser has the columns of its dict literal, in
    that order, at least one row and one cell per column in every row, so
    the required-columns check of its validator finds nothing missing.  The
    scorer and assist tables have at most one row per record of the
    response. *)
Theorem parsed_tables_have_required_columns (data : value) (df : DataFrame) :
  (standings_of_response data = Ok df ->
   columns df = standings_columns /\
   rows df <> [] /\
   Forall (fun row => length row = 10%nat) (rows df) /\
   missing_cols standings_required_cols (columns df) = [])
  /\
  (forall what,
     players_of_response "total" "goals" what data = Ok df ->
     columns df = players_columns "goals" /\
     rows df <> [] /\
     Forall (fun row => length row = 4%nat) (rows df) /\
     missing_cols scorers_required_cols (columns df) = [] /\
     exists items, py_iter data = Ok items /\ (len_df df <= length items)%nat)
  /\
  (forall what,
     players_of_response "assists" "assists" what data = Ok df ->
     columns df = players_columns "assists" /\
     rows df <> [] /\
     Forall (fun row => length row = 4%nat) (rows df) /\
     missing_cols assists_required_cols (columns df) = [] /\
     exists items, py_iter data = Ok items /\ (len_df df <= length items)%nat).
Proof.
  split; [|split].
  - intros H. destruct (standings_of_response_kept _ _ H) as (table & Hne & ->).
    destruct (frame_of_records_shape standings_columns _ Hne
                (kept_records_keys _ _ _ standings_entry_keys))
      as (Hc & _ & Hr & Hl).
    rewrite Hc. repeat split; auto.
  - intros what H.
    destruct (players_of_response_kept _ _ _ _ _ H) as (items & Hit & Hne & ->).
    destruct (frame_of_records_shape (players_columns "goals") _ Hne
                (kept_records_keys _ _ _ (player_record_keys "total" "goals")))
      as (Hc & Hn & Hr & Hl).
    rewrite Hc. repeat split; auto.
    exists items. split; [exact Hit|]. rewrite Hn. apply length_kept_records.
  - intros what H.
    destruct (players_of_response_kept _ _ _ _ _ H) as (items & Hit & Hne & ->).
    destruct (frame_of_records_shape (players_columns "assists") _ Hne
                (kept_records_keys _ _ _ (player_record_keys "assists" "assists")))
      as (Hc & Hn & Hr & Hl).
    rewrite Hc. repeat split; auto.
    exists items. split; [exact Hit|]. rewrite Hn. apply length_kept_records.
Qed.

Lemma parsed_tables_have_required_columns_witness :
  columns (frame_of_records
             (kept_records (player_record "total" "goals")
                [salah; null_goals; no_team_key; empty_statistics]))
  = players_columns "goals".
Proof.
  apply (proj1 (proj2 (parsed_tables_have_required_columns
                         (VList [salah; null_goals; no_team_key;
                                 empty_statistics])
                         _)) "top scorers").
  reflexivity.
Defined.

(** A getter touches the heap only to add the frame it returns. *)
Lemma getter_frame E endpoint (parse : value -> exc DataFrame) w :
  let r := (let! data := api_get E endpoint 3 in
            let! df := liftE (parse data) in
            alloc df) w in
  sink (snd r) = sink w /\
  clock_reads (snd r) = clock_reads w /\
  transactions (snd r) = transactions w /\
  (forall e, fst r = Raise e -> heap (snd r) = heap w) /\
  (forall l, fst r = Ok l ->
     heap w !! l = None /\
     exists df, heap (snd r) = <[l := df]> (heap w)).
Proof.
  cbv zeta. unfold bindM, liftE, alloc.
  destruct (api_get_account E endpoint 3 w) as (v & k & sl & -> & _).
  destruct (parse v) as [df|e]; cbn [fst snd heap sink clock_reads transactions
                                      after_attempts].
  - repeat split; try discriminate.
    + injection H as <-. apply not_elem_of_dom, is_fresh.
    + injection H as <-. eauto.
  - repeat split; try discriminate.
Qed.

(** X11. [get_standings], [get_top_scorers] and [get_top_assists] never touch
    the database, the clock or an existing DataFrame: when one raises, the
    heap is as it was; when one returns, the frame it returns is at an
    address that was free and every other address holds what it held. *)
Theorem getters_allocate_only_on_success (E : Env) (w : World) :
  allocates_only_on_success (get_standings E) w /\
  allocates_only_on_success (get_top_scorers E) w /\
  allocates_only_on_success (get_top_assists E) w.
Proof.
  assert (Hgen : forall endpoint (parse : value -> exc DataFrame),
    allocates_only_on_success
      (let! data := api_get E endpoint 3 in
       let! df := liftE (parse data) in
       alloc df) w).
  { intros endpoint parse. unfold allocates_only_on_success.
    destruct (getter_frame E endpoint parse w) as (Hs & Hc & Ht & He & Hl).
    cbv zeta in *.
    split; [exact Hs|]. split; [exact Hc|]. split; [exact Ht|].
    split; [exact He|].
    intros l Hok. destruct (Hl l Hok) as (Hfree & df & Hheap).
    split; [exact Hfree|]. rewrite Hheap. split.
    - rewrite lookup_insert_eq. eauto.
    - intros l' Hne. apply lookup_insert_ne. congruence. }
  split; [|split]; apply Hgen.
Qed.

Lemma mapE_In {A B} (f : A -> exc B) (l : list A) (l' : list B) (x : A) :
  mapE f l = Ok l' -> In x l -> exists y, f x = Ok y /\ In y l'.
Proof.
  revert l'. induction l as [|a l IH]; intros l' H Hin; [destruct Hin|].
  simpl in H. destruct (f a) as [b|] eqn:Hb; cbn [bindE] in H; [|discriminate].
  destruct (mapE f l) as [bs|]; cbn [bindE] in H; [|discriminate].
  injection H as <-. destruct Hin as [<-|Hin].
  - exists b. split; [exact Hb|left; reflexivity].
  - destruct (IH bs eq_refl Hin) as (y & Hy & Hiny).
    exists y. split; [exact Hy|right; exact Hiny].
Qed.

Lemma any_In (l : list bool) : In true l -> any l = true.
Proof.
  intros H. unfold any. apply existsb_exists. exists true. auto.
Qed.

(** One row with appearances at or below 0 is enough for both validators to
    answer false, whatever the other cells hold. *)
Lemma nonpositive_appearances_rejected df apps z :
  getitem df "appearances" = Ok (Column apps) ->
  In (VInt z) apps -> (z <= 0)%Z ->
  validate_top_scorers (ODataFrame df) = Ok false /\
  validate_top_assists (ODataFrame df) = Ok false.
Proof.
  intros Happ Hin Hz.
  assert (Hbad : forall bad, series_le apps 0 = Ok bad -> any bad = true).
  { intros bad Hbad. unfold series_le in Hbad.
    destruct (mapE_In _ _ _ _ Hbad Hin) as (y & Hy & Hiny).
    simpl in Hy. injection Hy as <-.
    apply any_In. apply Z.leb_le in Hz. rewrite Hz in Hiny. exact Hiny. }
  split.
  - unfold validate_top_scorers, validate_top_scorers_body.
    cbn [get_columns as_frame bindE].
    destruct (missing_cols _ _); [|reflexivity]. cbn [bindE].
    destruct (Nat.eqb _ _); [reflexivity|].
    destruct (getitem df "goals") as [g|]; cbn [bindE]; [|reflexivity].
    destruct (lt_any g 0) as [[|]|]; cbn [bindE]; try reflexivity.
    rewrite Happ. cbn [bindE le_any].
    destruct (series_le apps 0) as [bad|] eqn:Hle; cbn [bindE]; [|reflexivity].
    rewrite (Hbad bad eq_refl). reflexivity.
  - unfold validate_top_assists, validate_top_assists_body.
    cbn [get_columns as_frame bindE].
    destruct (missing_cols _ _); [|reflexivity]. cbn [bindE].
    destruct (Nat.eqb _ _); [reflexivity|].
    destruct (getitem df "assists") as [g|]; cbn [bindE]; [|reflexivity].
    destruct (lt_any g 0) as [[|]|]; cbn [bindE]; try reflexivity.
    rewrite Happ. cbn [bindE le_any].
    destruct (series_le apps 0) as [bad|] eqn:Hle; cbn [bindE]; [|reflexivity].
    rewrite (Hbad bad eq_refl). reflexivity.
Qed.

Lemma falsy_appearances_in_table metric label what data df items p r a :
  label = "goals" \/ label = "assists" ->
  players_of_response metric label what data = Ok df ->
  py_iter data = Ok items -> In p items ->
  player_record metric label p = Ok (Some r) ->
  appearences_of p = Ok a -> truthy a = false ->
  exists apps,
    getitem df "appearances" = Ok (Column apps) /\ In (VInt 0) apps.
Proof.
  intros Hlabel Hdf Hit Hp Hr Ha Hfalsy.
  destruct (players_of_response_kept _ _ _ _ _ Hdf) as (items' & Hit' & Hne & ->).
  assert (items' = items) as -> by congruence.
  exists (map (cell_of "appearances")
              (kept_records (player_record metric label) items)).
  split.
  - apply (getitem_frame_of_records (players_columns label));
      [exact Hne| | |].
    + apply kept_records_keys. apply player_record_keys.
    + apply NoDup_players_columns. exact Hlabel.
    + destruct Hlabel as [-> | ->]; reflexivity.
  - assert (Hin : In r (kept_records (player_record metric label) items)).
    { apply kept_records_In. eauto. }
    apply (in_map (cell_of "appearances")) in Hin.
    destruct (player_record_row _ _ _ _ Hr)
      as (name & team & m & a' & -> & _ & _ & Ha').
    assert (a' = a) as -> by congruence.
    rewrite Hfalsy in Hin.
    destruct Hlabel as [-> | ->]; exact Hin.
Qed.

(** X12. Parser and validator together: when a record the scorer (resp.
    assist) parser keeps has an appearance count that is null, 0 or
    otherwise falsy, the parser writes appearances 0 for it, and the table
    it returns is then rejected by [validate_top_scorers] (resp.
    [validate_top_assists]) whatever the other records are. *)
Theorem falsy_appearances_reject_the_table (data : value) (df : DataFrame)
    (items : list value) (p : value) (r : record) (a : value) (what : string) :
  py_iter data = Ok items -> In p items ->
  appearences_of p = Ok a -> truthy a = false ->
  (players_of_response "total" "goals" what data = Ok df ->
   player_record "total" "goals" p = Ok (Some r) ->
   validate_top_scorers (ODataFrame df) = Ok false)
  /\
  (players_of_response "assists" "assists" what data = Ok df ->
   player_record "assists" "assists" p = Ok (Some r) ->
   validate_top_assists (ODataFrame df) = Ok false).
Proof.
  intros Hit Hp Ha Hfalsy. split; intros Hdf Hr.
  - destruct (falsy_appearances_in_table _ _ _ _ _ _ _ _ _
                (or_introl eq_refl) Hdf Hit Hp Hr Ha Hfalsy)
      as (apps & Happ & Hin).
    apply (nonpositive_appearances_rejected df apps 0 Happ Hin). lia.
  - destruct (falsy_appearances_in_table _ _ _ _ _ _ _ _ _
                (or_intror eq_refl) Hdf Hit Hp Hr Ha Hfalsy)
      as (apps & Happ & Hin).
    apply (nonpositive_appearances_rejected df apps 0 Happ Hin). lia.
Qed.

Lemma falsy_appearances_reject_the_table_witness :
  validate_top_scorers
    (ODataFrame
       (frame_of_records
          (kept_records (player_record "total" "goals")
             [salah; null_appearences])))
  = Ok false.
Proof.
  refine (proj1 (falsy_appearances_reject_the_table
                   (VList [salah; null_appearences]) _
                   [salah; null_appearences] null_appearences _ VNone
                   "top scorers" eq_refl _ eq_refl eq_refl) eq_refl eq_refl).
  right. left. reflexivity.
Defined.

Lemma kept_team_entries (teams : list team_stats) :
  kept_records standings_entry (map team_entry teams) = map team_record teams.
Proof.
  unfold kept_records. induction teams as [|t teams IH]; [reflexivity|].
  simpl. f_equal. exact IH.
Qed.

Lemma passes_team_entries (teams : list team_stats) :
  Forall (passes standings_entry is_KeyError) (map team_entry teams).
Proof.
  apply Forall_forall. intros x Hx.
  apply list_elem_of_In, in_map_iff in Hx as (t & <- & _).
  intros e He. discriminate He.
Qed.

Lemma standings_table_of_results (table : list value) :
  standings_table_of (standings_results table) table.
Proof.
  eexists _, _, _, _. split; [reflexivity|]. split; reflexivity.
Qed.

Lemma standings_of_team_entries (teams : list team_stats) :
  teams <> [] ->
  standings_of_response (standings_results (map team_entry teams))
  = Ok (frame_of_records (map team_record teams)).
Proof.
  intros Hne.
  rewrite (standings_of_response_loop _ _ (standings_table_of_results _)).
  2:{ destruct teams; [congruence|discriminate]. }
  unfold parse_loop.
  rewrite (collect_passes standings_entry is_KeyError _ []
             (passes_team_entries teams)).
  cbn [bindE app]. rewrite kept_team_entries.
  destruct teams; [congruence|reflexivity].
Qed.

Lemma getitem_team_records (teams : list team_stats) (c : string)
    (f : team_stats -> value) :
  teams <> [] ->
  has_column c standings_columns = true ->
  (forall t, cell_of c (team_record t) = f t) ->
  getitem (frame_of_records (map team_record teams)) c
  = Ok (Column (map f teams)).
Proof.
  intros Hne Hc Hf.
  rewrite (getitem_frame_of_records standings_columns).
  - rewrite map_map. do 2 f_equal. apply map_ext. exact Hf.
  - destruct teams; [congruence|discriminate].
  - apply Forall_forall. intros r Hr.
    apply list_elem_of_In, in_map_iff in Hr as (t & <- & _). reflexivity.
  - exact NoDup_standings_columns.
  - exact Hc.
Qed.

Lemma Forall_figures (P : Z -> Prop) (Q : team_stats -> Prop)
    (g : team_stats -> Z) (teams : list team_stats) :
  (forall t, Q t -> P (g t)) -> Forall Q teams -> Forall P (map g teams).
Proof.
  intros HPQ H. induction H as [|t teams Ht _ IH]; constructor; auto.
Qed.

(** X13. Standings end to end: for a response whose first group lists teams
    with the figures of a league (points and played within 64 bits; wins,
    draws and losses below 2^61 in absolute value, so that no sum of the
    validator wraps around), [get_standings]' parse returns one row per team,
    in order, and [validate_standings] accepts that table exactly when the
    team names are pairwise distinct, no points are negative, and every team
    has points = wins*3 + draws and played = wins + draws + losses.  Rank,
    goals for and against, and the goal difference take no part. *)
Theorem standings_parse_then_validate (teams : list team_stats) :
  teams <> [] ->
  Forall league_team teams ->
  exists df,
    standings_of_response (standings_results (map team_entry teams)) = Ok df /\
    len_df df = length teams /\
    getitem df "team" = Ok (Column (strs (map t_name teams))) /\
    getitem df "points" = Ok (Column (ints (map t_points teams))) /\
    (validate_standings (ODataFrame df) = Ok true <->
     standings_rules (map t_name teams) (map t_points teams)
       (map t_played teams) (map t_win teams) (map t_draw teams)
       (map t_lose teams)).
Proof.
  intros Hne Hleague. exists (frame_of_records (map team_record teams)).
  split; [apply standings_of_team_entries; exact Hne|].
  assert (Hcol : forall c (g : team_stats -> Z),
            has_column c standings_columns = true ->
            (forall t, cell_of c (team_record t) = VInt (g t)) ->
            getitem (frame_of_records (map team_record teams)) c
            = Ok (Column (ints (map g teams)))).
  { intros c g Hc Hg. rewrite map_map.
    apply getitem_team_records; assumption. }
  assert (Hteam : getitem (frame_of_records (map team_record teams)) "team"
                  = Ok (Column (strs (map t_name teams)))).
  { rewrite map_map. apply getitem_team_records; [exact Hne| |]; reflexivity. }
  split.
  { unfold frame_of_records, len_df. cbn [rows]. rewrite !length_map.
    reflexivity. }
  split; [exact Hteam|].
  split; [apply Hcol; reflexivity|].
  apply validate_standings_league.
  - apply getitem_has_column with (s := Column (ints (map t_rank teams))).
    apply Hcol; reflexivity.
  - exact Hteam.
  - apply Hcol; reflexivity.
  - apply Hcol; reflexivity.
  - apply Hcol; reflexivity.
  - apply Hcol; reflexivity.
  - apply Hcol; reflexivity.
  - apply (Forall_figures _ league_team); [|exact Hleague].
    intros t Ht. apply Ht.
  - apply (Forall_figures _ league_team); [|exact Hleague].
    intros t Ht. apply Ht.
  - apply (Forall_figures _ league_team); [|exact Hleague].
    intros t Ht. apply Ht.
  - apply (Forall_figures _ league_team); [|exact Hleague].
    intros t Ht. apply Ht.
  - apply (Forall_figures _ league_team); [|exact Hleague].
    intros t Ht. apply Ht.
Qed.

Lemma standings_parse_then_validate_witness :
  exists df,
    standings_of_response
      (standings_results (map team_entry [liverpool; arsenal])) = Ok df /\
    len_df df = 2%nat /\
    getitem df "team" = Ok (Column (strs ["Liverpool"; "Arsenal"])) /\
    getitem df "points" = Ok (Column (ints [84; 74]%Z)) /\
    (validate_standings (ODataFrame df) = Ok true <->
     standings_rules ["Liverpool"; "Arsenal"] [84; 74]%Z [38; 38]%Z
       [25; 20]%Z [9; 14]%Z [4; 4]%Z).
Proof.
  apply (standings_parse_then_validate [liverpool; arsenal]).
  - discriminate.
  - repeat constructor; unfold int64, league_figure; simpl; lia.
Defined.

(** X14. [get_standings] reads the first group of the first record of the
    response and nothing else: two responses with the same first group give
    the same outcome, whatever other records, other groups and other fields
    they carry. *)
Theorem standings_first_group_only (data1 data2 : value) (table : list value) :
  standings_table_of data1 table ->
  standings_table_of data2 table ->
  standings_of_response data1 = standings_of_response data2.
Proof.
  intros H1 H2. destruct table as [|t table].
  - destruct H1 as (kv1 & r1 & kl1 & m1 & -> & Hl1 & Hs1).
    destruct H2 as (kv2 & r2 & kl2 & m2 & -> & Hl2 & Hs2).
    unfold standings_of_response. simpl.
    rewrite Hl1, Hl2. simpl. rewrite Hs1, Hs2. reflexivity.
  - rewrite (standings_of_response_loop data1 _ H1) by discriminate.
    rewrite (standings_of_response_loop data2 _ H2) by discriminate.
    reflexivity.
Qed.

Lemma standings_first_group_only_witness :
  standings_of_response two_group_response
  = standings_of_response (standings_results [team_entry liverpool]).
Proof.
  apply (standings_first_group_only _ _ [team_entry liverpool]).
  - eexists _, _, _, _. split; [reflexivity|]. split; reflexivity.
  - apply standings_table_of_results.
Defined.

(** ** More on the exporter *)

(** X15. What [overwrite] does to the world besides the frames: it makes no
    request and never sleeps; it reads the clock once when the frame has no
    exported_at column and not at all when it has one; it begins one
    transaction, except when the conversion of an existing exported_at column
    fails in the [try] block and again in its handler (as it does when the
    label is repeated and selects a frame), in which case it returns false
    before any transaction; it never touches another table; and when it
    returns false the tables are what they were. *)
Theorem overwrite_effects (E : Env) (l : nat) (table : string) (w : World)
    (df : DataFrame) :
  heap w !! l = Some df ->
  requests (snd (overwrite E l table w)) = requests w /\
  slept (snd (overwrite E l table w)) = slept w /\
  clock_reads (snd (overwrite E l table w))
  = (if has_column "exported_at" (columns df)
     then clock_reads w else S (clock_reads w)) /\
  transactions (snd (overwrite E l table w))
  = match getitem df "exported_at" with
    | Ok (Column col) => match normalized E col with
                         | Ok _ => S (transactions w)
                         | Raise _ => transactions w
                         end
    | Ok (Columns _) => transactions w
    | Raise _ => S (transactions w)
    end /\
  (forall col e,
     getitem df "exported_at" = Ok (Column col) -> normalized E col = Raise e ->
     fst (overwrite E l table w) = Ok false) /\
  (forall cs,
     getitem df "exported_at" = Ok (Columns cs) ->
     fst (overwrite E l table w) = Ok false) /\
  (forall t, t <> table ->
     sink (snd (overwrite E l table w)) !! t = sink w !! t) /\
  (fst (overwrite E l table w) = Ok false ->
   sink (snd (overwrite E l table w)) = sink w).
Proof.
  intros Hl. rewrite (has_column_getitem df "exported_at").
  destruct (getitem df "exported_at") as [[col|cs]|e0] eqn:Hcol.
  - rewrite (overwrite_existing_column E l table w df col Hl Hcol).
    destruct (normalized E col) as [col'|e1] eqn:Hn.
    + cbv zeta.
      destruct (transaction E (transactions w) table _);
        cbn [fst snd exported requests slept clock_reads transactions sink];
        (do 4 (split; [reflexivity|])); (split; [|split; [|split]]);
        [intros c e0 [= <-] He; congruence
        |discriminate
        |intros t Ht; apply lookup_insert_ne; congruence
        |discriminate
        |reflexivity
        |discriminate
        |reflexivity
        |reflexivity].
    + cbn [fst snd exported requests slept clock_reads transactions sink].
      repeat split.
  - rewrite (overwrite_repeated_column E l table w df cs Hl Hcol).
    cbn [fst snd exported requests slept clock_reads transactions sink].
    repeat split.
  - assert (Hhas : has_column "exported_at" (columns df) = false).
    { rewrite has_column_getitem, Hcol. reflexivity. }
    rewrite (overwrite_new_column E l table w df Hl Hhas). cbv zeta.
    destruct (transaction E (transactions w) table _);
      cbn [fst snd exported requests slept clock_reads transactions sink];
      (do 4 (split; [reflexivity|])); (split; [|split; [|split]]);
      [discriminate
      |discriminate
      |intros t Ht; apply lookup_insert_ne; congruence
      |discriminate
      |discriminate
      |discriminate
      |reflexivity
      |reflexivity].
Qed.

Lemma overwrite_effects_witness :
  clock_reads (snd (overwrite no_datetime 0 "epl_standings"
                      (world_with stale_df))) = 0%nat /\
  transactions (snd (overwrite no_datetime 0 "epl_standings"
                       (world_with stale_df))) = 0%nat /\
  fst (overwrite no_datetime 0 "epl_standings" (world_with stale_df))
  = Ok false /\
  sink (snd (overwrite no_datetime 0 "epl_standings" (world_with stale_df)))
  = ∅.
Proof.
  pose proof (overwrite_effects no_datetime 0 "epl_standings"
                (world_with stale_df) stale_df eq_refl)
    as (_ & _ & Hclock & Htx & Hfalse & _ & _ & Hsink).
  split; [exact Hclock|]. split; [exact Htx|].
  split; [exact (Hfalse _ _ eq_refl eq_refl)|].
  exact (Hsink (Hfalse _ _ eq_refl eq_refl)).
Defined.

(** X16. Exporting the same frame twice to the same table: the frame still
    has no exported_at column at the second call, since the first call wrote
    to a copy, so the second call stamps the rows with the next reading of
    the clock; when its transaction succeeds the table holds that second
    export alone, with as many rows as the frame, whether the first export
    had succeeded or not, and every other table is as it was before both. *)
Theorem overwrite_twice_replaces (E : Env) (l : nat) (table : string)
    (w : World) (df : DataFrame) :
  heap w !! l = Some df ->
  has_column "exported_at" (columns df) = false ->
  fst (overwrite E l table (snd (overwrite E l table w))) = Ok true ->
  let stamped := set_column df "exported_at"
                   (replicate (len_df df) (now E (S (clock_reads w)))) in
  sink (snd (overwrite E l table (snd (overwrite E l table w))))
  = <[table := stamped]> (sink w) /\
  len_df stamped = len_df df /\
  heap (snd (overwrite E l table (snd (overwrite E l table w)))) !! l
  = Some df.
Proof.
  intros Hl Hcol. cbv zeta.
  rewrite (overwrite_new_column E l table w df Hl Hcol). cbv zeta.
  set (df1 := set_column df "exported_at"
                (replicate (len_df df) (now E (clock_reads w)))).
  assert (Hstep : forall snk,
    let w1 := exported w (S (clock_reads w)) (S (transactions w)) df1 snk in
    fst (overwrite E l table w1) = Ok true ->
    sink (snd (overwrite E l table w1))
    = <[table := set_column df "exported_at"
                   (replicate (len_df df) (now E (S (clock_reads w))))]> snk /\
    heap (snd (overwrite E l table w1)) !! l = Some df).
  { intros snk w1.
    assert (Hl1 : heap w1 !! l = Some df) by (apply heap_exported; exact Hl).
    rewrite (overwrite_new_column E l table w1 df Hl1 Hcol). cbv zeta.
    change (clock_reads w1) with (S (clock_reads w)).
    destruct (transaction E (transactions w1) table _);
      cbn [fst snd]; [|discriminate].
    intros _. split; [reflexivity|].
    apply heap_exported. exact Hl1. }
  destruct (transaction E (transactions w) table df1); cbn [snd]; intros H2;
    destruct (Hstep _ H2) as [Hs Hh]; rewrite Hs.
  - rewrite insert_insert_eq. split; [reflexivity|]. split; [|exact Hh].
    apply set_column_new; [exact Hcol|]. apply length_replicate.
  - split; [reflexivity|]. split; [|exact Hh].
    apply set_column_new; [exact Hcol|]. apply length_replicate.
Qed.

Lemma overwrite_twice_replaces_witness :
  sink (snd (overwrite (scripted []) 0 "epl_standings"
               (snd (overwrite (scripted []) 0 "epl_standings"
                       (world_with valid_standings_df)))))
  = {[ "epl_standings" :=
         set_column valid_standings_df "exported_at"
                    (replicate 3 (VTime 1)) ]}.
Proof.
  pose proof (overwrite_twice_replaces (scripted []) 0 "epl_standings"
                (world_with valid_standings_df) valid_standings_df
                eq_refl eq_refl eq_refl) as (Hs & _).
  rewrite Hs. reflexivity.
Defined.

(** ** More on the orchestrator *)

Lemma standings_of_response_columns data df :
  standings_of_response data = Ok df -> columns df = standings_columns.
Proof.
  intros H. destruct (standings_of_response_kept _ _ H) as (table & Hne & ->).
  apply (frame_of_records_shape standings_columns _ Hne
           (kept_records_keys _ _ _ standings_entry_keys)).
Qed.

Lemma players_of_response_columns metric label what data df :
  players_of_response metric label what data = Ok df ->
  columns df = players_columns label.
Proof.
  intros H.
  destruct (players_of_response_kept _ _ _ _ _ H) as (items & _ & Hne & ->).
  apply (frame_of_records_shape (players_columns label) _ Hne
           (kept_records_keys _ _ _ (player_record_keys metric label))).
Qed.

Lemma unstamped_standings : unstamped standings_of_response.
Proof.
  intros data df H. rewrite (standings_of_response_columns _ _ H). reflexivity.
Qed.

Lemma unstamped_scorers what :
  unstamped (players_of_response "total" "goals" what).
Proof.
  intros data df H. rewrite (players_of_response_columns _ _ _ _ _ H).
  reflexivity.
Qed.

Lemma unstamped_assists what :
  unstamped (players_of_response "assists" "assists" what).
Proof.
  intros data df H. rewrite (players_of_response_columns _ _ _ _ _ H).
  reflexivity.
Qed.

Lemma getter_eq E endpoint (parse : value -> exc DataFrame) w v w1 :
  api_get E endpoint 3 w = (Ok v, w1) ->
  (let! data := api_get E endpoint 3 in
   let! df := liftE (parse data) in
   alloc df) w
  = match parse v with
    | Ok df => alloc df w1
    | Raise e => (Raise e, w1)
    end.
Proof.
  intros H. unfold bindM, liftE. rewrite H. destruct (parse v); reflexivity.
Qed.

Lemma dataset_getter E endpoint (parse : value -> exc DataFrame) validate
    table w :
  unstamped parse ->
  dataset_footprint E endpoint parse validate table
    (fst (dataset E (let! data := api_get E endpoint 3 in
                     let! df := liftE (parse data) in
                     alloc df) validate table w))
    w
    (snd (dataset E (let! data := api_get E endpoint 3 in
                     let! df := liftE (parse data) in
                     alloc df) validate table w)).
Proof.
  intros Hun. unfold dataset_footprint, stamped_export, dataset.
  destruct (api_get_account E endpoint 3 w)
    as (v & k & sl & Hget & Hk & Hk1 & _).
  rewrite (getter_eq E endpoint parse w _ _ Hget), Hget. cbn [fst].
  assert (Hk3 : (1 <= k <= 3)%nat).
  { split; [apply Hk1; lia|]. change (Z.to_nat 3) with 3%nat in Hk. exact Hk. }
  destruct (parse v) as [df|e] eqn:Hparse.
  2:{ cbn [fst snd after_attempts requests sink transactions clock_reads].
      split; [exists k; auto|]. split; [reflexivity|].
      split; [lia|]. split; [lia|reflexivity]. }
  unfold alloc. cbn [heap after_attempts].
  set (l := fresh (dom (heap w))).
  set (w1 := mkWorld _ _ _ _ (<[l := df]> (heap w)) _).
  assert (Hl : heap w1 !! l = Some df) by apply lookup_insert_eq.
  unfold validate_at, bindM, deref, liftE. rewrite Hl.
  destruct (validate (ODataFrame df)) as [[|]|e] eqn:Hval.
  - rewrite (overwrite_new_column E l table w1 df Hl (Hun _ _ Hparse)).
    cbv zeta.
    change (clock_reads w1) with (clock_reads w).
    change (transactions w1) with (transactions w).
    destruct (transaction E (transactions w) table _);
      cbn [fst snd exported requests sink transactions clock_reads
           after_attempts].
    + split; [exists k; auto|]. split.
      { intros t Ht. apply lookup_insert_ne. congruence. }
      split; [reflexivity|]. split; [reflexivity|].
      eexists. split; [reflexivity|]. exists v, df. auto.
    + split; [exists k; auto|]. split; [reflexivity|].
      split; [lia|]. split; [lia|reflexivity].
  - subst w1.
    cbn [fst snd requests sink transactions clock_reads after_attempts].
    split; [exists k; auto|]. split; [reflexivity|].
    split; [lia|]. split; [lia|reflexivity].
  - subst w1.
    cbn [fst snd requests sink transactions clock_reads after_attempts].
    split; [exists k; auto|]. split; [reflexivity|].
    split; [lia|]. split; [lia|reflexivity].
Qed.

Lemma standings_footprint E w :
  dataset_footprint E "/standings" standings_of_response validate_standings
    "epl_standings" (fst (standings_run E w)) w (snd (standings_run E w)).
Proof. apply dataset_getter, unstamped_standings. Qed.

Lemma scorers_footprint E w :
  dataset_footprint E "/players/topscorers"
    (players_of_response "total" "goals" "top scorers") validate_top_scorers
    "epl_top_scorers" (fst (scorers_run E w))
    (snd (standings_run E w)) (snd (scorers_run E w)).
Proof. apply dataset_getter, unstamped_scorers. Qed.

Lemma assists_footprint E w :
  dataset_footprint E "/players/topassists"
    (players_of_response "assists" "assists" "top assists")
    validate_top_assists
    "epl_top_assists" (fst (assists_run E w))
    (snd (scorers_run E w)) (snd (assists_run E w)).
Proof. apply dataset_getter, unstamped_assists. Qed.

Lemma footprint_requests E endpoint parse validate table ok w w' :
  dataset_footprint E endpoint parse validate table ok w w' ->
  exists k, (1 <= k <= 3)%nat /\
            requests w' = requests w ++ replicate k endpoint.
Proof. intros (H & _). exact H. Qed.

Lemma footprint_other_table E endpoint parse validate table ok w w' t :
  dataset_footprint E endpoint parse validate table ok w w' ->
  t <> table -> sink w' !! t = sink w !! t.
Proof. intros (_ & H & _). apply H. Qed.

Lemma footprint_own_table E endpoint parse validate table ok w w' :
  dataset_footprint E endpoint parse validate table ok w w' ->
  if ok
  then exists stored, sink w' !! table = Some stored /\
                      stamped_export E endpoint parse validate w stored
  else sink w' !! table = sink w !! table.
Proof.
  intros (_ & _ & H). destruct ok.
  - destruct H as (_ & _ & stored & -> & Hs). exists stored.
    split; [apply lookup_insert_eq|exact Hs].
  - destruct H as (_ & _ & ->). reflexivity.
Qed.

Lemma footprint_counters E endpoint parse validate table ok w w' :
  dataset_footprint E endpoint parse validate table ok w w' ->
  (transactions w' <= S (transactions w))%nat /\
  (clock_reads w' <= S (clock_reads w))%nat.
Proof.
  intros (_ & _ & H). destruct ok.
  - destruct H as (-> & -> & _). lia.
  - destruct H as (? & ? & _). lia.
Qed.

(** ** The run, stage by stage *)

Lemma dataset_getter_succeeds E endpoint (parse : value -> exc DataFrame)
    validate table w :
  unstamped parse ->
  fst (dataset E (let! data := api_get E endpoint 3 in
                  let! df := liftE (parse data) in
                  alloc df) validate table w) = true
  <-> dataset_succeeds E endpoint parse validate table w.
Proof.
  intros Hun. unfold dataset_succeeds, dataset.
  destruct (api_get_account E endpoint 3 w)
    as (v & k & sl & Hget & _).
  rewrite (getter_eq E endpoint parse w _ _ Hget), Hget. cbn [fst].
  destruct (parse v) as [df|e] eqn:Hparse.
  2:{ cbn [fst]. split; [discriminate|].
      intros (data & df & [= <-] & Hp & _). congruence. }
  unfold alloc. cbn [heap after_attempts].
  set (l := fresh (dom (heap w))).
  set (w1 := mkWorld _ _ _ _ (<[l := df]> (heap w)) _).
  assert (Hl : heap w1 !! l = Some df) by apply lookup_insert_eq.
  unfold validate_at, bindM, deref, liftE. rewrite Hl.
  destruct (validate (ODataFrame df)) as [[|]|e] eqn:Hval.
  - rewrite (overwrite_new_column E l table w1 df Hl (Hun _ _ Hparse)).
    cbv zeta.
    change (clock_reads w1) with (clock_reads w).
    change (transactions w1) with (transactions w).
    destruct (transaction E (transactions w) table _) as [[]|e] eqn:Htx;
      cbn [fst].
    + split; [|reflexivity]. intros _. exists v, df. auto.
    + split; [discriminate|].
      intros (data & df' & [= <-] & Hp & _ & Htx').
      assert (df' = df) as -> by congruence. congruence.
  - cbn [fst]. split; [discriminate|].
    intros (data & df' & [= <-] & Hp & Hv & _).
    assert (df' = df) as -> by congruence. congruence.
  - cbn [fst]. split; [discriminate|].
    intros (data & df' & [= <-] & Hp & Hv & _).
    assert (df' = df) as -> by congruence. congruence.
Qed.

(** C9. When the database connection cannot be established the run returns
    false and nothing has been done: no request, no transaction.  Otherwise
    the three datasets are run one after the other, each from the world the
    one before it left and whatever became of it, so that every endpoint has
    been asked by the end, and the run returns the conjunction of the three.
    A dataset succeeds exactly when its three stages do: [api_get] returns
    data that its parser turns into a table, its validator answers true on
    that table, and the transaction that replaces its table by the stamped
    copy goes through.  The process exits with 0 exactly when the run
    returned true, and with 1 otherwise. *)
Theorem run_pipeline_spec (E : Env) (w : World) :
  (forall e, connect E = Raise e -> run_pipeline E w = (Ok false, w))
  /\
  (connect E = Ok tt ->
   run_pipeline E w =
   (Ok (fst (standings_run E w) && fst (scorers_run E w)
        && fst (assists_run E w)),
    snd (assists_run E w))
   /\
   In "/standings" (requests (snd (run_pipeline E w))) /\
   In "/players/topscorers" (requests (snd (run_pipeline E w))) /\
   In "/players/topassists" (requests (snd (run_pipeline E w))))
  /\
  ((fst (standings_run E w) = true <->
    dataset_succeeds E "/standings" standings_of_response
      validate_standings "epl_standings" w)
   /\
   (fst (scorers_run E w) = true <->
    dataset_succeeds E "/players/topscorers"
      (players_of_response "total" "goals" "top scorers")
      validate_top_scorers "epl_top_scorers" (snd (standings_run E w)))
   /\
   (fst (assists_run E w) = true <->
    dataset_succeeds E "/players/topassists"
      (players_of_response "assists" "assists" "top assists")
      validate_top_assists "epl_top_assists" (snd (scorers_run E w))))
  /\
  (fst (run_pipeline E w) = Ok true <->
   connect E = Ok tt /\
   dataset_succeeds E "/standings" standings_of_response
     validate_standings "epl_standings" w /\
   dataset_succeeds E "/players/topscorers"
     (players_of_response "total" "goals" "top scorers")
     validate_top_scorers "epl_top_scorers" (snd (standings_run E w)) /\
   dataset_succeeds E "/players/topassists"
     (players_of_response "assists" "assists" "top assists")
     validate_top_assists "epl_top_assists" (snd (scorers_run E w)))
  /\
  (fst (main E w) = 0%Z <-> fst (run_pipeline E w) = Ok true)
  /\
  (fst (main E w) <> 0%Z -> fst (main E w) = 1%Z).
Proof.
  pose proof (dataset_getter_succeeds E "/standings" standings_of_response
                validate_standings "epl_standings" w unstamped_standings)
    as S1.
  pose proof (dataset_getter_succeeds E "/players/topscorers"
                (players_of_response "total" "goals" "top scorers")
                validate_top_scorers "epl_top_scorers"
                (snd (standings_run E w)) (unstamped_scorers _))
    as S2.
  pose proof (dataset_getter_succeeds E "/players/topassists"
                (players_of_response "assists" "assists" "top assists")
                validate_top_assists "epl_top_assists"
                (snd (scorers_run E w)) (unstamped_assists _))
    as S3.
  fold (standings_run E w) in S1. fold (scorers_run E w) in S2.
  fold (assists_run E w) in S3.
  split; [intros e; apply run_pipeline_not_connected|].
  split.
  { intros Hc. rewrite (run_pipeline_connected E w Hc). split; [reflexivity|].
    cbn [snd]. apply runs_requests. }
  split; [split; [exact S1|split; [exact S2|exact S3]]|].
  split.
  { rewrite <- S1, <- S2, <- S3.
    destruct (connect E) as [[]|e] eqn:Hc.
    - rewrite (run_pipeline_connected E w Hc). cbn [fst].
      rewrite Ok_bool_true_iff, !andb_true_iff. tauto.
    - rewrite (run_pipeline_not_connected E w e Hc). cbn [fst].
      split; [discriminate|]. intros [? _]. discriminate. }
  unfold main.
  destruct (run_pipeline E w) as [[[|]|e] w']; cbn [fst]; split;
    try (split; intros; congruence); try congruence; intros; reflexivity.
Qed.

Lemma run_pipeline_spec_witness :
  run_pipeline database_down init_world = (Ok false, init_world)
  /\
  fst (run_pipeline all_up init_world) = Ok true
  /\
  fst (run_pipeline miscounted_points init_world) <> Ok true
  /\
  In "/players/topassists"
     (requests (snd (run_pipeline miscounted_points init_world))).
Proof.
  split; [|split; [|split]].
  - apply (proj1 (run_pipeline_spec database_down init_world)
             (OtherError "Login timeout expired")).
    reflexivity.
  - apply (proj1 (proj2 (proj2 (proj2 (run_pipeline_spec all_up init_world))))).
    split; [reflexivity|].
    split; [|split]; eexists _, _;
      (split; [vm_compute; reflexivity|]);
      (split; [vm_compute; reflexivity|]);
      (split; vm_compute; reflexivity).
  - intros Hrun.
    apply (proj1 (proj2 (proj2 (proj2
             (run_pipeline_spec miscounted_points init_world))))) in Hrun.
    destruct Hrun as (_ & (data & df & Hget & Hparse & Hval & _) & _).
    vm_compute in Hget. injection Hget as <-.
    vm_compute in Hparse. injection Hparse as <-.
    vm_compute in Hval. discriminate Hval.
  - apply (proj1 (proj2 (run_pipeline_spec miscounted_points init_world))).
    reflexivity.
Defined.

Example pipeline_all_up :
  fst (run_pipeline all_up init_world) = Ok true /\
  fst (main all_up init_world) = 0%Z /\
  requests (snd (run_pipeline all_up init_world))
  = ["/standings"; "/players/topscorers"; "/players/topassists"].
Proof. vm_compute. auto. Qed.

Example pipeline_standings_down :
  fst (run_pipeline standings_down init_world) = Ok false /\
  fst (main standings_down init_world) = 1%Z /\
  sink (snd (run_pipeline standings_down init_world)) !! "epl_standings" = None /\
  is_Some (sink (snd (run_pipeline standings_down init_world)) !! "epl_top_scorers") /\
  is_Some (sink (snd (run_pipeline standings_down init_world)) !! "epl_top_assists").
Proof.
  split; [vm_compute; reflexivity|]. split; [vm_compute; reflexivity|].
  split; [vm_compute; reflexivity|].
  split; vm_compute; eexists; reflexivity.
Qed.

(** Standings that break the points rule stop at validation: nothing is
    written for them, the run answers false and the process exits with 1,
    and the two other datasets are exported all the same. *)
Example pipeline_miscounted_points :
  fst (run_pipeline miscounted_points init_world) = Ok false /\
  fst (main miscounted_points init_world) = 1%Z /\
  transactions (snd (run_pipeline miscounted_points init_world)) = 2%nat /\
  sink (snd (run_pipeline miscounted_points init_world)) !! "epl_standings"
  = None /\
  is_Some (sink (snd (run_pipeline miscounted_points init_world))
             !! "epl_top_scorers") /\
  is_Some (sink (snd (run_pipeline miscounted_points init_world))
             !! "epl_top_assists").
Proof.
  split; [vm_compute; reflexivity|]. split; [vm_compute; reflexivity|].
  split; [vm_compute; reflexivity|]. split; [vm_compute; reflexivity|].
  split; vm_compute; eexists; reflexivity.
Qed.

(** X17. The requests of a run.  Without a database connection none is
    made.  With one, the run asks the standings endpoint between one and
    three times, then the top-scorers endpoint between one and three times,
    then the top-assists endpoint between one and three times, in that order
    and whatever became of the datasets before: between three and nine
    requests.  A run begins at most three transactions and reads the clock
    at most three times. *)
Theorem run_pipeline_request_budget (E : Env) (w : World) :
  exists k1 k2 k3 : nat,
    requests (snd (run_pipeline E w))
    = requests w ++ replicate k1 "/standings"
        ++ replicate k2 "/players/topscorers"
        ++ replicate k3 "/players/topassists" /\
    (k1 <= 3 /\ k2 <= 3 /\ k3 <= 3)%nat /\
    (connect E = Ok tt -> (1 <= k1 /\ 1 <= k2 /\ 1 <= k3)%nat) /\
    (connect E <> Ok tt -> k1 = 0%nat /\ k2 = 0%nat /\ k3 = 0%nat) /\
    (transactions (snd (run_pipeline E w)) <= transactions w + 3)%nat /\
    (clock_reads (snd (run_pipeline E w)) <= clock_reads w + 3)%nat.
Proof.
  destruct (connect E) as [[]|e] eqn:Hc.
  - rewrite (run_pipeline_connected E w Hc). cbn [snd].
    pose proof (standings_footprint E w) as F1.
    pose proof (scorers_footprint E w) as F2.
    pose proof (assists_footprint E w) as F3.
    destruct (footprint_requests _ _ _ _ _ _ _ _ F1) as (k1 & Hk1 & R1).
    destruct (footprint_requests _ _ _ _ _ _ _ _ F2) as (k2 & Hk2 & R2).
    destruct (footprint_requests _ _ _ _ _ _ _ _ F3) as (k3 & Hk3 & R3).
    pose proof (footprint_counters _ _ _ _ _ _ _ _ F1) as C1.
    pose proof (footprint_counters _ _ _ _ _ _ _ _ F2) as C2.
    pose proof (footprint_counters _ _ _ _ _ _ _ _ F3) as C3.
    exists k1, k2, k3. rewrite R3, R2, R1, <- !app_assoc.
    split; [reflexivity|]. split; [lia|]. split; [intros _; lia|].
    split; [congruence|]. lia.
  - rewrite (run_pipeline_not_connected E w e Hc). cbn [snd].
    exists 0%nat, 0%nat, 0%nat. cbn [replicate app]. rewrite app_nil_r.
    split; [reflexivity|]. split; [lia|]. split; [discriminate|].
    split; [auto|]. lia.
Qed.

Lemma run_pipeline_request_budget_witness :
  exists k1 k2 k3 : nat,
    requests (snd (run_pipeline standings_down init_world))
    = replicate k1 "/standings" ++ replicate k2 "/players/topscorers"
        ++ replicate k3 "/players/topassists" /\
    (1 <= k1 <= 3 /\ 1 <= k2 <= 3 /\ 1 <= k3 <= 3)%nat.
Proof.
  destruct (run_pipeline_request_budget standings_down init_world)
    as (k1 & k2 & k3 & Hr & Hle & Hge & _).
  exists k1, k2, k3. split; [exact Hr|].
  specialize (Hge eq_refl). lia.
Defined.

(** X18. The tables after a run with a database connection.  A dataset that
    succeeded has left in its table the parse of what its endpoint returned,
    accepted by its validator, with an exported_at column that holds one
    reading of the clock in every row: the frames of the getters never carry
    that column, so the conversion branch of [overwrite] is never taken in a
    run.  A dataset that failed has left its table as it was before the run.
    No other table is touched. *)
Theorem run_pipeline_tables (E : Env) (w : World) :
  connect E = Ok tt ->
  (if fst (standings_run E w)
   then exists stored,
       sink (snd (run_pipeline E w)) !! "epl_standings" = Some stored /\
       stamped_export E "/standings" standings_of_response
                      validate_standings w stored
   else sink (snd (run_pipeline E w)) !! "epl_standings"
        = sink w !! "epl_standings")
  /\
  (if fst (scorers_run E w)
   then exists stored,
       sink (snd (run_pipeline E w)) !! "epl_top_scorers" = Some stored /\
       stamped_export E "/players/topscorers"
                      (players_of_response "total" "goals" "top scorers")
                      validate_top_scorers (snd (standings_run E w)) stored
   else sink (snd (run_pipeline E w)) !! "epl_top_scorers"
        = sink w !! "epl_top_scorers")
  /\
  (if fst (assists_run E w)
   then exists stored,
       sink (snd (run_pipeline E w)) !! "epl_top_assists" = Some stored /\
       stamped_export E "/players/topassists"
                      (players_of_response "assists" "assists" "top assists")
                      validate_top_assists (snd (scorers_run E w)) stored
   else sink (snd (run_pipeline E w)) !! "epl_top_assists"
        = sink w !! "epl_top_assists")
  /\
  (forall t, t <> "epl_standings" -> t <> "epl_top_scorers" ->
             t <> "epl_top_assists" ->
             sink (snd (run_pipeline E w)) !! t = sink w !! t).
Proof.
  intros Hc. rewrite (run_pipeline_connected E w Hc). cbn [snd].
  pose proof (standings_footprint E w) as F1.
  pose proof (scorers_footprint E w) as F2.
  pose proof (assists_footprint E w) as F3.
  pose proof (footprint_own_table _ _ _ _ _ _ _ _ F1) as O1.
  pose proof (footprint_own_table _ _ _ _ _ _ _ _ F2) as O2.
  pose proof (footprint_own_table _ _ _ _ _ _ _ _ F3) as O3.
  assert (T1 : forall t, t <> "epl_standings" ->
                 sink (snd (standings_run E w)) !! t = sink w !! t).
  { intros t. apply (footprint_other_table _ _ _ _ _ _ _ _ t F1). }
  assert (T2 : forall t, t <> "epl_top_scorers" ->
                 sink (snd (scorers_run E w)) !! t
                 = sink (snd (standings_run E w)) !! t).
  { intros t. apply (footprint_other_table _ _ _ _ _ _ _ _ t F2). }
  assert (T3 : forall t, t <> "epl_top_assists" ->
                 sink (snd (assists_run E w)) !! t
                 = sink (snd (scorers_run E w)) !! t).
  { intros t. apply (footprint_other_table _ _ _ _ _ _ _ _ t F3). }
  split; [|split; [|split]].
  - rewrite (T3 "epl_standings") by discriminate.
    rewrite (T2 "epl_standings") by discriminate. exact O1.
  - rewrite (T3 "epl_top_scorers") by discriminate.
    rewrite <- (T1 "epl_top_scorers") by discriminate. exact O2.
  - rewrite <- (T1 "epl_top_assists") by discriminate.
    rewrite <- (T2 "epl_top_assists") by discriminate. exact O3.
  - intros t H1 H2 H3. rewrite (T3 t H3), (T2 t H2). apply T1, H1.
Qed.

Lemma run_pipeline_tables_witness :
  sink (snd (run_pipeline standings_down world_after_earlier_run))
    !! "epl_standings" = Some valid_standings_df
  /\
  exists stored,
    sink (snd (run_pipeline standings_down world_after_earlier_run))
      !! "epl_top_scorers" = Some stored /\
    getitem stored "exported_at" = Ok (Column [VTime 0]).
Proof.
  pose proof (run_pipeline_tables standings_down world_after_earlier_run
                eq_refl) as (H1 & H2 & _).
  assert (Hs : fst (standings_run standings_down world_after_earlier_run)
               = false) by (vm_compute; reflexivity).
  assert (Hp : fst (scorers_run standings_down world_after_earlier_run)
               = true) by (vm_compute; reflexivity).
  rewrite Hs in H1. rewrite Hp in H2.
  split; [exact H1|].
  destruct H2 as (stored & Hsink & data & df & Hget & Hparse & _ & ->).
  eexists. split; [exact Hsink|].
  assert (Hdata : data = VList [salah; null_goals]).
  { assert (Hg : fst (api_get standings_down "/players/topscorers" 3
                        (snd (standings_run standings_down
                                world_after_earlier_run)))
                 = Ok (VList [salah; null_goals]))
      by (vm_compute; reflexivity).
    congruence. }
  subst data.
  assert (Hdf : df = frame_of_records
                  [[("player", VStr "Mohamed Salah");
                    ("team", VStr "Liverpool");
                    ("goals", VInt 29); ("appearances", VInt 38)]]).
  { vm_compute in Hparse. injection Hparse as <-. reflexivity. }
  subst df. vm_compute. reflexivity.
Defined.

(** ** The player endpoints end to end *)

Section PlayerEndpoints.

Variables (metric label : string) (sel : player_stats -> option Z).
Hypothesis Hlabel : label = "goals" \/ label = "assists".
Hypothesis Hentry : forall p,
  player_record metric label (player_entry p)
  = Ok (match sel p with
        | Some m => Some (player_row label p m)
        | None => None
        end).

Lemma kept_player_entries (players : list player_stats) :
  kept_records (player_record metric label) (map player_entry players)
  = map (fun pm => player_row label (fst pm) (snd pm)) (counted sel players).
Proof.
  unfold kept_records, counted.
  induction players as [|p players IH]; [reflexivity|].
  cbn [map].
  change (omap ?f (?x :: ?l))
    with (match f x with Some y => y :: omap f l | None => omap f l end).
  cbv beta. rewrite Hentry.
  destruct (sel p) as [m|]; cbn [option_map map fst snd]; rewrite IH;
    reflexivity.
Qed.

Lemma passes_player_entries (players : list player_stats) :
  Forall (passes (player_record metric label) is_KeyError_or_IndexError)
         (map player_entry players).
Proof.
  apply Forall_forall. intros x Hx.
  apply list_elem_of_In, in_map_iff in Hx as (p & <- & _).
  intros e He. rewrite Hentry in He. discriminate He.
Qed.

Lemma players_of_player_entries what (players : list player_stats) :
  counted sel players <> [] ->
  players_of_response metric label what (VList (map player_entry players))
  = Ok (frame_of_records
          (map (fun pm => player_row label (fst pm) (snd pm))
               (counted sel players))).
Proof.
  intros Hne.
  assert (Hitems : map player_entry players <> []).
  { destruct players; [exfalso; apply Hne; reflexivity|discriminate]. }
  rewrite (players_of_response_loop _ _ _ _ Hitems). unfold parse_loop.
  rewrite (collect_passes _ _ _ [] (passes_player_entries players)).
  cbn [bindE app]. rewrite kept_player_entries.
  destruct (counted sel players); [congruence|reflexivity].
Qed.

Lemma getitem_player_rows (rs : list (player_stats * Z)) (c : string)
    (f : player_stats * Z -> value) :
  rs <> [] ->
  has_column c (players_columns label) = true ->
  (forall pm, cell_of c (player_row label (fst pm) (snd pm)) = f pm) ->
  getitem (frame_of_records
             (map (fun pm => player_row label (fst pm) (snd pm)) rs)) c
  = Ok (Column (map f rs)).
Proof.
  intros Hne Hc Hf.
  rewrite (getitem_frame_of_records (players_columns label)).
  - rewrite map_map. do 2 f_equal. apply map_ext. exact Hf.
  - destruct rs; [congruence|discriminate].
  - apply Forall_forall. intros r Hr.
    apply list_elem_of_In, in_map_iff in Hr as (pm & <- & _). reflexivity.
  - apply NoDup_players_columns. exact Hlabel.
  - exact Hc.
Qed.

Lemma player_rows_columns (rs : list (player_stats * Z)) :
  rs <> [] ->
  let df := frame_of_records
              (map (fun pm => player_row label (fst pm) (snd pm)) rs) in
  has_column "team" (columns df) = true /\
  getitem df "player"
  = Ok (Column (strs (map (fun pm => p_name (fst pm)) rs))) /\
  getitem df label = Ok (Column (ints (map snd rs))) /\
  getitem df "appearances"
  = Ok (Column (ints (map (fun pm => default 0%Z (p_appearences (fst pm)))
                          rs))).
Proof.
  intros Hne df. subst df.
  assert (Hteam : getitem (frame_of_records
                     (map (fun pm => player_row label (fst pm) (snd pm)) rs))
                     "team"
                  = Ok (Column (map (fun pm => VStr (p_team (fst pm))) rs))).
  { apply getitem_player_rows; [exact Hne| |];
      destruct Hlabel as [-> | ->]; reflexivity. }
  split; [exact (getitem_has_column _ _ _ Hteam)|].
  rewrite !map_map.
  split; [|split]; (apply getitem_player_rows; [exact Hne| |]);
    destruct Hlabel as [-> | ->]; reflexivity.
Qed.

Lemma counted_In (players : list player_stats) p m :
  In (p, m) (counted sel players) <-> In p players /\ sel p = Some m.
Proof.
  unfold counted. rewrite <- !list_elem_of_In, list_elem_of_omap. split.
  - intros (q & Hq & Hs). destruct (sel q) as [m'|] eqn:Hm; [|discriminate].
    injection Hs as <- <-. auto.
  - intros (Hp & Hs). exists p. rewrite Hs. auto.
Qed.

Lemma players_rules_counted (df : DataFrame) (players : list player_stats) :
  rows df <> [] ->
  players_rules df (map snd (counted sel players))
    (map (fun pm => default 0%Z (p_appearences (fst pm)))
         (counted sel players))
  <->
  (forall p m, In p players -> sel p = Some m ->
     (0 <= m)%Z /\ exists a, p_appearences p = Some a /\ (0 < a)%Z).
Proof.
  intros Hrows. unfold players_rules. rewrite !Forall_forall. split.
  - intros (_ & Hm & Ha) p m Hp Hs.
    assert (Hin : In (p, m) (counted sel players)) by (apply counted_In; auto).
    split.
    + apply Hm, list_elem_of_In, in_map_iff. exists (p, m). auto.
    + assert (H0 : (0 < default 0 (p_appearences p))%Z).
      { apply Ha, list_elem_of_In, in_map_iff. exists (p, m). auto. }
      destruct (p_appearences p) as [a|]; simpl in H0; [eauto|lia].
  - intros H. split; [exact Hrows|]. split.
    + intros m Hin. apply list_elem_of_In, in_map_iff in Hin as ([p m'] & <- & Hin).
      apply counted_In in Hin as [Hp Hs]. apply (H p m' Hp Hs).
    + intros a Hin. apply list_elem_of_In, in_map_iff in Hin as ([p m'] & <- & Hin).
      apply counted_In in Hin as [Hp Hs].
      destruct (H p m' Hp Hs) as (_ & a' & Ha1 & Ha').
      cbn [fst]. rewrite Ha1. exact Ha'.
Qed.

End PlayerEndpoints.

Lemma opt_appearances (o : option Z) :
  (if truthy (opt_cell o) then opt_cell o else VInt 0)
  = VInt (default 0%Z o).
Proof.
  destruct o as [z|]; [|reflexivity]. simpl.
  destruct (Z.eqb_spec z 0); simpl; congruence.
Qed.

Lemma scorer_entry (p : player_stats) :
  player_record "total" "goals" (player_entry p)
  = Ok (match p_goals p with
        | Some m => Some (player_row "goals" p m)
        | None => None
        end).
Proof.
  unfold player_entry, player_json, player_row.
  destruct (p_goals p) as [g|]; [|reflexivity].
  cbn -[truthy opt_cell]. rewrite opt_appearances. reflexivity.
Qed.

Lemma assist_entry (p : player_stats) :
  player_record "assists" "assists" (player_entry p)
  = Ok (match p_assists p with
        | Some m => Some (player_row "assists" p m)
        | None => None
        end).
Proof.
  unfold player_entry, player_json, player_row.
  destruct (p_assists p) as [g|]; [|reflexivity].
  cbn -[truthy opt_cell]. rewrite opt_appearances. reflexivity.
Qed.

(** X19. The player endpoints end to end: for a response that lists players
    with their figures, some of them null, the parse of [get_top_scorers]
    keeps the players whose goal count is not null, in order, and
    [validate_top_scorers] accepts that table exactly when every kept player
    has a goal count of at least 0 and an appearance count that is not null
    and above 0; the same for [get_top_assists] and [validate_top_assists]
    with the assist count.  A player whose metric is null takes no part,
    whatever its other figures. *)
Theorem players_parse_then_validate (what : string)
    (players : list player_stats) :
  (counted p_goals players <> [] ->
   exists df,
     players_of_response "total" "goals" what
       (VList (map player_entry players)) = Ok df /\
     getitem df "goals"
     = Ok (Column (ints (map snd (counted p_goals players)))) /\
     (validate_top_scorers (ODataFrame df) = Ok true <->
      forall p m, In p players -> p_goals p = Some m ->
        (0 <= m)%Z /\ exists a, p_appearences p = Some a /\ (0 < a)%Z))
  /\
  (counted p_assists players <> [] ->
   exists df,
     players_of_response "assists" "assists" what
       (VList (map player_entry players)) = Ok df /\
     getitem df "assists"
     = Ok (Column (ints (map snd (counted p_assists players)))) /\
     (validate_top_assists (ODataFrame df) = Ok true <->
      forall p m, In p players -> p_assists p = Some m ->
        (0 <= m)%Z /\ exists a, p_appearences p = Some a /\ (0 < a)%Z)).
Proof.
  split; intros Hne.
  - eexists. split.
    { apply (players_of_player_entries "total" "goals" p_goals scorer_entry
               what players Hne). }
    destruct (player_rows_columns "total" "goals" p_goals (or_introl eq_refl)
                scorer_entry _ Hne)
      as (Hteam & Hplayer & Hgoals & Happ).
    split; [exact Hgoals|].
    unfold validate_top_scorers.
    rewrite (validate_top_scorers_body_typed _ _ _ _ Hteam Hplayer Hgoals Happ).
    cbn [except_return]. rewrite Ok_bool_true_iff, players_checks_iff.
    apply players_rules_counted.
    unfold frame_of_records. cbn [rows].
    destruct (counted p_goals players); [congruence|discriminate].
  - eexists. split.
    { apply (players_of_player_entries "assists" "assists" p_assists
               assist_entry what players Hne). }
    destruct (player_rows_columns "assists" "assists" p_assists
                (or_intror eq_refl) assist_entry _ Hne)
      as (Hteam & Hplayer & Hassists & Happ).
    split; [exact Hassists|].
    unfold validate_top_assists.
    rewrite (validate_top_assists_body_typed _ _ _ _ Hteam Hplayer Hassists
               Happ).
    cbn [except_return]. rewrite Ok_bool_true_iff, players_checks_iff.
    apply players_rules_counted.
    unfold frame_of_records. cbn [rows].
    destruct (counted p_assists players); [congruence|discriminate].
Qed.

Lemma players_parse_then_validate_witness :
  (exists df,
     players_of_response "total" "goals" "top scorers"
       (VList (map player_entry [salah_stats; benched_stats])) = Ok df /\
     getitem df "goals" = Ok (Column (ints [29%Z])) /\
     validate_top_scorers (ODataFrame df) = Ok true)
  /\
  (exists df,
     players_of_response "assists" "assists" "top assists"
       (VList (map player_entry [salah_stats; benched_stats])) = Ok df /\
     getitem df "assists" = Ok (Column (ints [18%Z; (-1)%Z])) /\
     validate_top_assists (ODataFrame df) <> Ok true).
Proof.
  destruct (players_parse_then_validate "top scorers"
              [salah_stats; benched_stats]) as (Hs & _).
  destruct (players_parse_then_validate "top assists"
              [salah_stats; benched_stats]) as (_ & Ha).
  split.
  - destruct Hs as (df & Hp & Hg & Hv); [discriminate|].
    exists df. split; [exact Hp|]. split; [exact Hg|].
    apply (proj2 Hv). intros p m [<-|[<-|[]]]; [|discriminate].
    intros [= <-]. split; [lia|]. exists 38%Z. split; [reflexivity|lia].
  - destruct Ha as (df & Hp & Hg & Hv); [discriminate|].
    exists df. split; [exact Hp|]. split; [exact Hg|].
    intros Hok. pose proof (proj1 Hv Hok) as Hall.
    destruct (Hall benched_stats (-1)%Z) as [Hneg _];
      [right; left; reflexivity|reflexivity|lia].
Defined.
